(** * A shallow embedding of [server.js]

    The service is an Express application with two working routes,
    [/info] and [/download], which delegate to two command-line tools
    (yt-dlp and ffmpeg) and to the temporary directory of the host.

    The embedding follows the source function by function:
    - JavaScript strings are sequences of UTF-16 code units ([list N]);
    - values read out of [JSON.parse] are a small [json] datatype;
    - the asynchronous handlers are written in a state-and-exception
      monad over a [World] (file system, trace of spawned processes,
      the response being built);
    - everything the platform supplies ([URL], [JSON.parse], [spawn],
      [path.join], [Date.now], ...) is a field of a [Platform] record.

    What the model leaves out:
    - a query parameter is absent or a string (Express can also hand
      over arrays and objects for repeated or bracketed keys);
    - a file operation fails only because the file is not there
      (no permissions, no full disk);
    - a child process settles: it emits ['error'] or ['close'] (the code
      sets no timeout, and a request whose tool never settles is never
      answered);
    - [res.json] is recorded by the status and the body it sends, not
      by the headers Express adds;
    - console output. *)

From Stdlib Require Import ZArith NArith QArith Lia Bool DecimalString.
From stdpp Require Import base option list strings gmap.

Set Warnings "-register-all".
Open Scope N_scope.

(** ** JavaScript strings *)

(** A JavaScript string is a sequence of 16-bit code units. *)
Abbreviation jstr := (list N).

(** A literal of the source, as code units. *)
Definition js (s : string) : jstr :=
  map Ascii.N_of_ascii (String.list_ascii_of_string s).

#[global] Arguments js : simpl never.

Definition in_range (lo hi c : N) : bool := (lo <=? c) && (c <=? hi).

(** The complement of the class [[^a-zA-Z0-9\-_ ]]. *)
Definition is_filename_char (c : N) : bool :=
  in_range 97 122 c || in_range 65 90 c || in_range 48 57 c
  || (c =? 45) || (c =? 95) || (c =? 32).

(** The class [\s] of a regular expression, which is also what
    [String.prototype.trim] strips: WhiteSpace and LineTerminator. *)
Definition is_js_space (c : N) : bool :=
  in_range 9 13 c || (c =? 32) || (c =? 160) || (c =? 5760)
  || in_range 8192 8202 c || (c =? 8232) || (c =? 8233) || (c =? 8239)
  || (c =? 8287) || (c =? 12288) || (c =? 65279).

(** [name.replace(/[^a-zA-Z0-9\-_ ]/g, '_')]: without the [u] flag the
    class is tried on every code unit. *)
Definition replace_disallowed (s : jstr) : jstr :=
  map (fun c => if is_filename_char c then c else 95) s.

(** [.replace(/\s+/g, ' ')]: every maximal run of spaces becomes one
    space.  [in_run] says that the previous unit belonged to a run. *)
Fixpoint collapse_spaces (in_run : bool) (s : jstr) : jstr :=
  match s with
  | [] => []
  | c :: t =>
      if is_js_space c
      then (if in_run then collapse_spaces true t
            else 32 :: collapse_spaces true t)
      else c :: collapse_spaces false t
  end.

Fixpoint trim_start (s : jstr) : jstr :=
  match s with
  | [] => []
  | c :: t => if is_js_space c then trim_start t else s
  end.

Definition trim_end (s : jstr) : jstr := reverse (trim_start (reverse s)).

(** [String.prototype.trim]. *)
Definition String_trim (s : jstr) : jstr := trim_end (trim_start s).

(** [s.slice(0, n)] for a non-negative [n]. *)
Definition String_slice0 (n : nat) (s : jstr) : jstr := take n s.

(** [sanitizeFilename]. *)
Definition sanitizeFilename (name : jstr) : jstr :=
  String_slice0 100 (String_trim (collapse_spaces false (replace_disallowed name))).

(** *** Searching and replacing literal text *)

Fixpoint starts_with (p s : jstr) : bool :=
  match p, s with
  | [], _ => true
  | _ :: _, [] => false
  | a :: p', b :: s' => (a =? b) && starts_with p' s'
  end.

(** [StringIndexOf(s, p, 0)]: the least position at which [p] occurs. *)
Fixpoint index_of (p s : jstr) : option nat :=
  if starts_with p s then Some 0%nat
  else match s with
       | [] => None
       | _ :: s' => S <$> index_of p s'
       end.

(** [/lit/.test(s)] for a pattern that is one literal: an unanchored
    search. *)
Definition test_literal (p s : jstr) : bool := bool_decide (is_Some (index_of p s)).

(** [GetSubstitution] of ECMA-262 for a string pattern: there are no
    captures, so only [$$], [$&], [$`] and [$'] are special and every
    other [$] stands for itself. *)
Fixpoint GetSubstitution (matched before after repl : jstr) : jstr :=
  match repl with
  | [] => []
  | c :: t =>
      if c =? 36 then
        match t with
        | [] => [c]
        | d :: t' =>
            if d =? 36 then 36 :: GetSubstitution matched before after t'
            else if d =? 38 then matched ++ GetSubstitution matched before after t'
            else if d =? 96 then before ++ GetSubstitution matched before after t'
            else if d =? 39 then after ++ GetSubstitution matched before after t'
            else c :: GetSubstitution matched before after t
        end
      else c :: GetSubstitution matched before after t
  end.

(** [s.replace(pat, repl)] with a string pattern: the first occurrence
    only. *)
Definition String_replace (s pat repl : jstr) : jstr :=
  match index_of pat s with
  | None => s
  | Some i =>
      let before := take i s in
      let after := drop (i + length pat) s in
      before ++ GetSubstitution pat before after repl ++ after
  end.

(** The decimal text of a natural number, as a template literal
    interpolates it. *)
Definition decimal (n : N) : jstr := js (NilZero.string_of_uint (N.to_uint n)).

(** ** Values *)

(** A JavaScript number: a double is a rational, an infinity or NaN. *)
Inductive jsnum :=
| Finite (q : Q)
| PosInfinity
| NegInfinity
| NaN.

(** What [JSON.parse] returns, and [undefined] for a property that is
    not there. *)
Inductive json :=
| JUndefined
| JNull
| JBool (b : bool)
| JNum (n : jsnum)
| JStr (s : jstr)
| JArr (items : list json)
| JObj (fields : list (jstr * json)).

(** ToBoolean. *)
Definition truthy (v : json) : bool :=
  match v with
  | JUndefined | JNull => false
  | JBool b => b
  | JNum (Finite q) => negb (Qeq_bool q 0)
  | JNum NaN => false
  | JNum _ => true
  | JStr s => negb (bool_decide (s = []))
  | JArr _ | JObj _ => true
  end.

(** [a || b]. *)
Definition js_or (a b : json) : json := if truthy a then a else b.

(** A query parameter is absent ([undefined]) or a string. *)
Definition param_truthy (p : option jstr) : bool :=
  match p with
  | None | Some [] => false
  | Some (_ :: _) => true
  end.

(** A destructuring default applies to an absent parameter only. *)
Definition with_default (d : jstr) (p : option jstr) : jstr :=
  match p with
  | None => d
  | Some s => s
  end.

Fixpoint lookup_field (k : jstr) (fields : list (jstr * json)) : json :=
  match fields with
  | [] => JUndefined
  | (k', v) :: rest => if bool_decide (k = k') then v else lookup_field k rest
  end.

(** [v.k] for one of the six keys read by [getVideoInfo]; [None] is the
    TypeError raised on [null].  Numbers, booleans, strings and arrays
    have no property of these names. *)
Definition get_prop (v : json) (k : jstr) : option json :=
  match v with
  | JUndefined | JNull => None
  | JObj fields => Some (lookup_field k fields)
  | _ => Some JUndefined
  end.

(** The record built by [getVideoInfo]. *)
Record VideoInfo := {
  info_id : json;
  info_title : json;
  info_duration : json;
  info_thumbnail : json;
  info_uploader : json;
  info_upload_date : json;
}.

(** ** The outside world *)

(** A file of the temporary directory, as far as the service and its
    clients can tell: its size in bytes and its playing time in
    seconds. *)
Record media := {
  media_size : N;
  media_duration : N;
}.

(** How a child process ends: the ['error'] event, or the ['close']
    event with the exit code ([None] when a signal killed it) and what it
    wrote. *)
Inductive proc_outcome :=
| SpawnError (message : jstr)
| Closed (code : option Z) (stdout stderr : jstr).

(** How piping a read stream into the response ends: ['end'], or
    ['error'] before anything was written, or ['error'] after the head
    of the response went out, or the response is closed first (the
    client went away): [pipe] then detaches the stream, which emits
    neither ['end'] nor ['error']. *)
Inductive stream_outcome :=
| StreamEnd
| StreamErrorEarly
| StreamErrorLate
| StreamUnpiped.

(** What the runtime and the host provide. *)
Record Platform := {
  env_YT_DLP_PATH : option jstr;
  env_FFMPEG_PATH : option jstr;
  (** [new URL(u).hostname]; [None] when the constructor throws *)
  URL_hostname : jstr -> option jstr;
  (** [JSON.parse]; [None] when it throws *)
  JSON_parse : jstr -> option json;
  (** ToNumber on strings, arrays and objects *)
  ToNumber_other : json -> jsnum;
  (** the text of [parseInt(s)] in a template literal *)
  parseInt_text : jstr -> jstr;
  os_tmpdir : jstr;
  path_join : jstr -> jstr -> jstr;
  (** the text of [Date.now()] at its n-th reading *)
  Date_now_text : nat -> jstr;
  (** [Math.random().toString(36).slice(2)] at the n-th draw *)
  Math_random_text : nat -> jstr;
  (** a child process: command, arguments, the files before; how it
      ends and the files after *)
  spawn : jstr -> list jstr -> gmap jstr media -> proc_outcome * gmap jstr media;
  read_stream : jstr -> gmap jstr media -> stream_outcome;
}.

Inductive event :=
| EvSpawn (command : jstr) (args : list jstr)
| EvUnlink (path : jstr).

Inductive header_value :=
| HText (s : jstr)
| HNumber (n : N).

Inductive Body :=
| BNone
| BError (message : jstr)
| BInfo (info : VideoInfo)
| BStream (path : jstr) (content : option media) (complete : bool).

Record Response := {
  headersSent : bool;
  statusCode : nat;
  headers : list (jstr * header_value);
  body : Body;
}.

Record World := {
  w_fs : gmap jstr media;
  w_clock : nat;
  w_draws : nat;
  w_trace : list event;
  w_res : Response;
}.

Definition fresh_response : Response :=
  {| headersSent := false; statusCode := 200; headers := []; body := BNone |}.

(** The world when a request arrives. *)
Definition start_world (fs : gmap jstr media) : World :=
  {| w_fs := fs; w_clock := 0; w_draws := 0; w_trace := []; w_res := fresh_response |}.

(** ** Computations: state and exceptions *)

Inductive outcome (A : Type) :=
| Return (a : A)
| Throw (message : jstr).
Arguments Return {A} a.
Arguments Throw {A} message.

Definition M (A : Type) : Type := World -> outcome A * World.

Definition ret {A} (a : A) : M A := fun w => (Return a, w).

Definition throw {A} (message : jstr) : M A := fun w => (Throw message, w).

Definition bind {A B} (m : M A) (k : A -> M B) : M B :=
  fun w =>
    match m w with
    | (Return a, w') => k a w'
    | (Throw e, w') => (Throw e, w')
    end.

(** [try { m } catch (error) { h(error.message) }]. *)
Definition try_catch {A} (m : M A) (h : jstr -> M A) : M A :=
  fun w =>
    match m w with
    | (Return a, w') => (Return a, w')
    | (Throw e, w') => h e w'
    end.

Notation "'let!' x := c1 'in' c2" := (bind c1 (fun x => c2))
  (at level 10, x name, c1 at level 100, c2 at level 200).
Notation "c1 ;;; c2" := (bind c1 (fun _ => c2))
  (at level 200, c2 at level 200, right associativity).

Definition set_fs (fs : gmap jstr media) (w : World) : World :=
  {| w_fs := fs; w_clock := w_clock w; w_draws := w_draws w;
     w_trace := w_trace w; w_res := w_res w |}.

Definition log (e : event) (w : World) : World :=
  {| w_fs := w_fs w; w_clock := w_clock w; w_draws := w_draws w;
     w_trace := w_trace w ++ [e]; w_res := w_res w |}.

Definition set_res (r : Response) (w : World) : World :=
  {| w_fs := w_fs w; w_clock := w_clock w; w_draws := w_draws w;
     w_trace := w_trace w; w_res := r |}.

(** *** The [fs] promises API *)

Definition ENOENT (syscall path : jstr) : jstr :=
  js "ENOENT: no such file or directory, " ++ syscall ++ js " '" ++ path ++ js "'".

(** [fs.access(path)]. *)
Definition fs_access (path : jstr) : M unit :=
  fun w =>
    match w_fs w !! path with
    | Some _ => (Return (), w)
    | None => (Throw (ENOENT (js "access") path), w)
    end.

(** [fs.unlink(path)]. *)
Definition fs_unlink (path : jstr) : M unit :=
  fun w =>
    match w_fs w !! path with
    | Some _ => (Return (), log (EvUnlink path) (set_fs (delete path (w_fs w)) w))
    | None => (Throw (ENOENT (js "unlink") path), w)
    end.

(** [fs.stat(path)]. *)
Definition fs_stat (path : jstr) : M media :=
  fun w =>
    match w_fs w !! path with
    | Some f => (Return f, w)
    | None => (Throw (ENOENT (js "stat") path), w)
    end.

(** *** The response *)

(** [res.status(code).json({ error: message })]. *)
Definition res_status_json (code : nat) (b : Body) : M unit :=
  fun w =>
    (Return (),
     set_res {| headersSent := true; statusCode := code;
                headers := headers (w_res w); body := b |} w).

(** [res.json(info)]. *)
Definition res_json (b : Body) : M unit :=
  fun w =>
    (Return (),
     set_res {| headersSent := true; statusCode := statusCode (w_res w);
                headers := headers (w_res w); body := b |} w).

(** A header is set once: a value set before under the same name is
    replaced. *)
Definition set_header (name : jstr) (value : header_value)
    (hs : list (jstr * header_value)) : list (jstr * header_value) :=
  filter (fun h => h.1 ≠ name) hs ++ [(name, value)].

(** The code units that Node lets through in the value of a header:
    the complement of [[^\t\x20-\x7e\x80-\xff]]. *)
Definition is_header_char (c : N) : bool :=
  (c =? 9) || in_range 32 126 c || in_range 128 255 c.

Definition header_value_ok (value : header_value) : bool :=
  match value with
  | HText s => forallb is_header_char s
  | HNumber _ => true
  end.

(** [res.setHeader(name, value)]: a value with a code unit outside the
    class is refused with a TypeError and nothing is set.  (The handler
    sets headers only while nothing of the response was sent.) *)
Definition res_setHeader (name : jstr) (value : header_value) : M unit :=
  fun w =>
    if header_value_ok value
    then (Return (),
          set_res {| headersSent := headersSent (w_res w); statusCode := statusCode (w_res w);
                     headers := set_header name value (headers (w_res w));
                     body := body (w_res w) |} w)
    else (Throw (js "Invalid character in header content [" ++ [34] ++ name ++ [34] ++ js "]"),
          w).

Definition res_headersSent : M bool :=
  fun w => (Return (headersSent (w_res w)), w).

(** The body of the response once [stream.pipe(res)] has written to it. *)
Definition res_piped (path : jstr) (complete : bool) : M unit :=
  fun w =>
    (Return (),
     set_res {| headersSent := true; statusCode := statusCode (w_res w);
                headers := headers (w_res w);
                body := BStream path (w_fs w !! path) complete |} w).

(** ** The program *)

Definition MAX_DURATION : N := 3600.

(** The query of [GET /info]. *)
Record InfoQuery := {
  iq_url : option jstr;
}.

(** The query of [GET /download]. *)
Record DownloadQuery := {
  q_url : option jstr;
  q_mode : option jstr;
  q_quality : option jstr;
  q_container : option jstr;
  q_bitrate : option jstr;
  q_start : option jstr;
  q_end : option jstr;
}.

Section Server.

Variable P : Platform.

(** [process.env.X || fallback]. *)
Definition env_or (v : option jstr) (fallback : jstr) : jstr :=
  if param_truthy v then with_default fallback v else fallback.

Definition YT_DLP_PATH : jstr := env_or (env_YT_DLP_PATH P) (js "yt-dlp").
Definition FFMPEG_PATH : jstr := env_or (env_FFMPEG_PATH P) (js "ffmpeg").

(** [spawn(command, args)] up to the event that settles the promise. *)
Definition run_process (command : jstr) (args : list jstr) : M proc_outcome :=
  fun w =>
    let '(r, fs') := spawn P command args (w_fs w) in
    (Return r, log (EvSpawn command args) (set_fs fs' w)).

Definition Date_now : M jstr :=
  fun w =>
    (Return (Date_now_text P (w_clock w)),
     {| w_fs := w_fs w; w_clock := S (w_clock w); w_draws := w_draws w;
        w_trace := w_trace w; w_res := w_res w |}).

Definition Math_random : M jstr :=
  fun w =>
    (Return (Math_random_text P (w_draws w)),
     {| w_fs := w_fs w; w_clock := w_clock w; w_draws := S (w_draws w);
        w_trace := w_trace w; w_res := w_res w |}).

(** ToNumber. *)
Definition ToNumber (v : json) : jsnum :=
  match v with
  | JUndefined => NaN
  | JNull => Finite 0
  | JBool b => if b then Finite 1 else Finite 0
  | JNum n => n
  | _ => ToNumber_other P v
  end.

(** [v > n] for a number [n]: false when [v] converts to NaN. *)
Definition js_gt (v : json) (n : N) : bool :=
  match ToNumber v with
  | Finite q => negb (Qle_bool q (inject_Z (Z.of_N n)))
  | PosInfinity => true
  | NegInfinity | NaN => false
  end.

(** [isValidYouTubeUrl]: the pattern [/youtube\.com|youtu\.be/] is an
    alternation of two literals, searched anywhere in the host name. *)
Definition isValidYouTubeUrl (url : jstr) : bool :=
  match URL_hostname P url with
  | Some hostname =>
      test_literal (js "youtube.com") hostname || test_literal (js "youtu.be") hostname
  | None => false
  end.

(** [code !== 0]. *)
Definition exit_failed (code : option Z) : bool :=
  negb (bool_decide (code = Some 0%Z)).

(** [getVideoInfo]. *)
Definition getVideoInfo (url : jstr) : M VideoInfo :=
  let! r := run_process YT_DLP_PATH [js "--dump-json"; js "--no-warnings"; url] in
  match r with
  | SpawnError message => throw (js "yt-dlp error: " ++ message)
  | Closed code stdout stderr =>
      if exit_failed code
      then throw (js "Failed to fetch video info: " ++ stderr)
      else
        match JSON_parse P stdout with
        | None => throw (js "Failed to parse video info")
        | Some info =>
            match get_prop info (js "id"), get_prop info (js "title"),
                  get_prop info (js "duration"), get_prop info (js "thumbnail"),
                  get_prop info (js "uploader"), get_prop info (js "upload_date") with
            | Some i, Some t, Some d, Some th, Some u, Some ud =>
                ret {| info_id := i; info_title := t; info_duration := d;
                       info_thumbnail := th; info_uploader := u;
                       info_upload_date := ud |}
            | _, _, _, _, _, _ => throw (js "Failed to parse video info")
            end
        end
  end.

(** The argument vector built by [downloadVideo]. *)
Definition download_args (url format ext outputPath mode bitrate container : jstr)
  : list jstr :=
  [js "-f"; format; js "--merge-output-format"; ext]
  ++ (if bool_decide (mode = js "audio") && bool_decide (container = js "mp3")
      then [js "--extract-audio"; js "--audio-format"; js "mp3";
            js "--audio-quality"; bitrate ++ js "K"]
      else [])
  ++ [js "-o"; outputPath; url].

(** [downloadVideo]. *)
Definition downloadVideo (url format ext outputPath mode bitrate container : jstr)
  : M unit :=
  let! r := run_process YT_DLP_PATH
         (download_args url format ext outputPath mode bitrate container) in
  match r with
  | SpawnError message => throw (js "yt-dlp error: " ++ message)
  | Closed code _ stderr =>
      if exit_failed code
      then throw (js "Download failed: " ++ stderr)
      else try_catch (fs_access outputPath)
                     (fun _ => throw (js "Downloaded file not found"))
  end.

(** The argument vector built by [trimVideo]. *)
Definition trim_args (inputPath outputPath : jstr) (start end_ : option jstr)
  : list jstr :=
  (if param_truthy start then [js "-ss"; with_default [] start] else [])
  ++ [js "-i"; inputPath]
  ++ (if param_truthy end_ then [js "-to"; with_default [] end_] else [])
  ++ [js "-c"; js "copy"; outputPath].

(** [trimVideo]. *)
Definition trimVideo (inputPath outputPath : jstr) (start end_ : option jstr)
  : M unit :=
  let! r := run_process FFMPEG_PATH (trim_args inputPath outputPath start end_) in
  match r with
  | SpawnError message => throw (js "ffmpeg error: " ++ message)
  | Closed code _ stderr =>
      if exit_failed code
      then throw (js "Trim failed: " ++ stderr)
      else try_catch (fs_access outputPath)
                     (fun _ => throw (js "Trimmed file not found"))
  end.

(** [GET /info]. *)
Definition info_handler (q : InfoQuery) : M unit :=
  if negb (param_truthy (iq_url q)) || negb (isValidYouTubeUrl (with_default [] (iq_url q)))
  then res_status_json 400 (BError (js "Invalid YouTube URL"))
  else
    let url := with_default [] (iq_url q) in
    try_catch
      (let! info := getVideoInfo url in
       res_json (BInfo info))
      (fun message => res_status_json 500 (BError message)).

(** [sanitizeFilename(info.title || 'video')]: a value that is not a
    string has no [replace] method. *)
Definition sanitized_title (info : VideoInfo) : M jstr :=
  match js_or (info_title info) (JStr (js "video")) with
  | JStr name => ret (sanitizeFilename name)
  | _ => throw (js "name.replace is not a function")
  end.

(** The branch on [mode] that chooses [format], [ext] and [filename]. *)
Definition format_selector (mode quality container bitrate title : jstr)
  : jstr * jstr * jstr :=
  if bool_decide (mode = js "audio") then
    let ext := if bool_decide (container = js "mp3") then js "mp3" else js "webm" in
    (js "bestaudio", ext, title ++ js "_" ++ bitrate ++ js "kbps." ++ ext)
  else
    let qualityNum := parseInt_text P (String_replace quality (js "p") []) in
    (js "bestvideo[height<=" ++ qualityNum ++ js "]+bestaudio/best[height<="
       ++ qualityNum ++ js "]",
     container,
     title ++ js "_" ++ quality ++ js "." ++ container).

(** A name in the temporary directory: [prefix], the clock, a random
    suffix and the extension. *)
Definition temp_path (prefix ext : jstr) : M jstr :=
  let! now := Date_now in
  let! rnd := Math_random in
  ret (path_join P (os_tmpdir P) (prefix ++ now ++ js "_" ++ rnd ++ js "." ++ ext)).

(** The value of the [Content-Type] header. *)
Definition content_type (mode ext : jstr) : jstr :=
  if bool_decide (mode = js "audio") && bool_decide (ext = js "mp3")
  then js "audio/mpeg"
  else js "video/" ++ ext.

(** [stream.pipe(res)] and the two listeners registered on the stream;
    when the response is closed first, no listener runs. *)
Definition pipe_and_clean (finalFile : jstr) : M unit :=
  fun w =>
    match read_stream P finalFile (w_fs w) with
    | StreamEnd =>
        (res_piped finalFile true ;;;
         try_catch (fs_unlink finalFile) (fun _ => ret ())) w
    | StreamErrorEarly =>
        (try_catch (fs_unlink finalFile) (fun _ => ret ()) ;;;
         let! sent := res_headersSent in
         if negb sent then res_status_json 500 (BError (js "Stream error")) else ret ()) w
    | StreamErrorLate =>
        (res_piped finalFile false ;;;
         try_catch (fs_unlink finalFile) (fun _ => ret ()) ;;;
         let! sent := res_headersSent in
         if negb sent then res_status_json 500 (BError (js "Stream error")) else ret ()) w
    | StreamUnpiped => res_piped finalFile false w
    end.

(** The [try] block of [GET /download]. *)
Definition download_body (url mode quality container bitrate : jstr)
    (start end_ : option jstr) : M unit :=
  let! info := getVideoInfo url in
  let duration := js_or (info_duration info) (JNum (Finite 0)) in
  if js_gt duration MAX_DURATION
  then throw (js "Video too long (max " ++ decimal (MAX_DURATION / 60) ++ js " minutes)")
  else
    let! title := sanitized_title info in
    let '(format, ext, filename) :=
      format_selector mode quality container bitrate title in
    let! tempFile := temp_path (js "ytdl_") ext in
    downloadVideo url format ext tempFile mode bitrate container ;;;
    let! final := (if param_truthy start || param_truthy end_
              then
                let! trimmedFile := temp_path (js "ytdl_trim_") ext in
                trimVideo tempFile trimmedFile start end_ ;;;
                try_catch (fs_unlink tempFile) (fun _ => ret ()) ;;;
                ret (trimmedFile,
                     String_replace filename (js "." ++ ext) (js "_trimmed." ++ ext))
              else ret (tempFile, filename)) in
    let '(finalFile, filename) := final in
    let! stat := fs_stat finalFile in
    res_setHeader (js "Content-Type") (HText (content_type mode ext)) ;;;
    res_setHeader (js "Content-Length") (HNumber (media_size stat)) ;;;
    res_setHeader (js "Content-Disposition")
      (HText (js "attachment; filename=" ++ [34] ++ filename ++ [34])) ;;;
    res_setHeader (js "Cache-Control") (HText (js "no-cache")) ;;;
    pipe_and_clean finalFile.

(** [GET /download]. *)
Definition download_handler (q : DownloadQuery) : M unit :=
  let mode := with_default (js "video") (q_mode q) in
  let quality := with_default (js "720p") (q_quality q) in
  let container := with_default (js "mp4") (q_container q) in
  let bitrate := with_default (js "192") (q_bitrate q) in
  if negb (param_truthy (q_url q)) || negb (isValidYouTubeUrl (with_default [] (q_url q)))
  then res_status_json 400 (BError (js "Invalid YouTube URL"))
  else if negb (bool_decide (mode ∈ [js "video"; js "audio"]))
  then res_status_json 400 (BError (js "Invalid mode. Use " ++ [34] ++ js "video"
                                      ++ [34] ++ js " or " ++ [34] ++ js "audio" ++ [34]))
  else
    try_catch
      (download_body (with_default [] (q_url q)) mode quality container bitrate
                     (q_start q) (q_end q))
      (fun message =>
         let! sent := res_headersSent in
         if negb sent then res_status_json 500 (BError message) else ret ()).

End Server.

(** ** Observations on a finished request *)

Definition spawned (w : World) : list (jstr * list jstr) :=
  omap (fun e => match e with EvSpawn c a => Some (c, a) | EvUnlink _ => None end)
       (w_trace w).

Definition header (name : jstr) (w : World) : option header_value :=
  snd <$> find (fun h => bool_decide (h.1 = name)) (headers (w_res w)).

(** A file of the request is left behind. *)
Definition left_behind (path : jstr) (w : World) : Prop := is_Some (w_fs w !! path).

(** ** A concrete platform

    An instance of [Platform] on which the handlers can be run: a
    download tool that answers [--dump-json] with fixed metadata and
    otherwise writes the file named after [-o], a trim tool that
    follows the documented meaning of ffmpeg's options, and the
    functions of the runtime ([URL], [parseInt], ToNumber, [path.join])
    as Node has them on the inputs named with each. *)

Definition is_digit (c : N) : bool := in_range 48 57 c.

Fixpoint split_on (sep : N) (s : jstr) : list jstr :=
  match s with
  | [] => [[]]
  | c :: t =>
      if c =? sep then [] :: split_on sep t
      else match split_on sep t with
           | [] => [[c]]
           | w :: ws => (c :: w) :: ws
           end
  end.

Definition digits_value (s : jstr) : option N :=
  match s with
  | [] => None
  | _ => if forallb is_digit s
         then Some (fold_left (fun acc c => 10 * acc + (c - 48)) s 0)
         else None
  end.

(** [HH:MM:SS], [MM:SS] or [SS] in seconds. *)
Definition hms_seconds (s : jstr) : option N :=
  fold_left (fun acc part =>
               match acc, digits_value part with
               | Some a, Some v => Some (60 * a + v)
               | _, _ => None
               end)
            (split_on 58 s) (Some 0).

(** ASCII letters in lower case. *)
Definition to_lower (c : N) : N := if in_range 65 90 c then c + 32 else c.

(** What ends the authority of a URL: a slash, a backslash, a question
    mark or a number sign. *)
Definition ends_authority (c : N) : bool :=
  (c =? 47) || (c =? 92) || (c =? 63) || (c =? 35).

Fixpoint take_until (stop : N -> bool) (s : jstr) : jstr :=
  match s with
  | [] => []
  | c :: t => if stop c then [] else c :: take_until stop t
  end.

(** A host made of ASCII letters, digits, hyphens and full stops. *)
Definition is_host_char (c : N) : bool :=
  in_range 97 122 c || in_range 65 90 c || in_range 48 57 c || (c =? 45) || (c =? 46).

(** A port: nothing, or digits that write a number below 65536. *)
Definition is_port (s : jstr) : bool :=
  match s with
  | [] => true
  | _ => match digits_value s with
         | Some n => n <=? 65535
         | None => false
         end
  end.

(** The last label of the host is a number, which makes the host an
    IPv4 address. *)
Definition ends_in_number (host : jstr) : bool :=
  match filter (fun label => label <> []) (split_on 46 host) with
  | [] => false
  | labels =>
      let label := default [] (last labels) in
      forallb is_digit label || starts_with (js "0x") label
  end.

(** [new URL(u).hostname] for [http://] and [https://] URLs whose
    authority is [host], [host:port] or either after [userinfo@], with
    a host of ASCII letters, digits, hyphens and full stops that is not
    an IPv4 address; the host comes back in lower case.  Any other text
    is taken not to parse. *)
Definition simple_hostname (url : jstr) : option jstr :=
  let lower := map to_lower url in
  let after_scheme :=
    if starts_with (js "https://") lower then Some (drop 8 lower)
    else if starts_with (js "http://") lower then Some (drop 7 lower)
    else None in
  match after_scheme with
  | Some rest =>
      let authority := take_until ends_authority rest in
      let host_port := default [] (last (split_on 64 authority)) in
      let '(host, port) :=
        match split_on 58 host_port with
        | [host] => (host, Some [])
        | [host; port] => (host, Some port)
        | _ => ([], None)
        end in
      if forallb is_host_char host && negb (bool_decide (host = []))
         && negb (ends_in_number host) && from_option is_port false port
      then Some host else None
  | None => None
  end.

(** The value of a decimal or hexadecimal digit. *)
Definition decimal_digit (c : N) : option N :=
  if is_digit c then Some (c - 48) else None.

Definition hex_digit (c : N) : option N :=
  if is_digit c then Some (c - 48)
  else if in_range 97 102 c then Some (c - 87)
  else if in_range 65 70 c then Some (c - 55)
  else None.

(** The number written by the digits at the head of [s]; [acc] is
    [None] as long as no digit was read. *)
Fixpoint leading_digits (digit : N -> option N) (radix : N) (acc : option N) (s : jstr)
  : option N :=
  match s with
  | [] => acc
  | c :: t =>
      match digit c with
      | Some d => leading_digits digit radix (Some (radix * default 0 acc + d)) t
      | None => acc
      end
  end.

(** The text of [parseInt(s)] in a template literal: white space and a
    sign are skipped, [0x] announces hexadecimal digits, and what
    follows the digits is ignored; without a digit the result is
    [NaN].  (Exact below 2^53, where a double holds every integer.) *)
Definition parseInt_demo (s : jstr) : jstr :=
  let s := trim_start s in
  let negative := bool_decide (head s = Some 45) in
  let s := if negative || bool_decide (head s = Some 43) then drop 1 s else s in
  let value :=
    if starts_with (js "0x") s || starts_with (js "0X") s
    then leading_digits hex_digit 16 None (drop 2 s)
    else leading_digits decimal_digit 10 None s in
  match value with
  | None => js "NaN"
  | Some 0 => js "0"
  | Some n => (if negative then js "-" else []) ++ decimal n
  end.

Fixpoint take_while (keep : N -> bool) (s : jstr) : jstr :=
  match s with
  | [] => []
  | c :: t => if keep c then c :: take_while keep t else []
  end.

(** The number written by [s] when all of [s] are digits of the radix
    and there is at least one. *)
Definition all_digits (digit : N -> option N) (radix : N) (s : jstr) : option N :=
  if forallb (fun c => bool_decide (is_Some (digit c))) s
  then leading_digits digit radix None s
  else None.

Definition binary_digit (c : N) : option N :=
  if in_range 48 49 c then Some (c - 48) else None.

Definition octal_digit (c : N) : option N :=
  if in_range 48 55 c then Some (c - 48) else None.

(** [m * 10^e] as a rational. *)
Definition scale10 (m : N) (e : Z) : Q :=
  if (0 <=? e)%Z then inject_Z (Z.of_N m * 10 ^ e)
  else Qmake (Z.of_N m) (Z.to_pos (10 ^ (- e))).

(** An unsigned decimal literal: digits, an optional fraction, an
    optional exponent. *)
Definition unsigned_decimal (s : jstr) : option Q :=
  let int_part := take_while is_digit s in
  let rest := drop (length int_part) s in
  let '(frac_part, rest) :=
    match rest with
    | c :: t => if c =? 46
                then (take_while is_digit t, drop (length (take_while is_digit t)) t)
                else ([], rest)
    | [] => ([], [])
    end in
  let exponent :=
    match rest with
    | [] => Some 0%Z
    | c :: t =>
        if (c =? 101) || (c =? 69) then
          let negative := bool_decide (head t = Some 45) in
          let t := if negative || bool_decide (head t = Some 43) then drop 1 t else t in
          (fun n => if negative then (- Z.of_N n)%Z else Z.of_N n)
            <$> all_digits decimal_digit 10 t
        else None
    end in
  match leading_digits decimal_digit 10 None (int_part ++ frac_part), exponent with
  | Some m, Some e => Some (scale10 m (e - Z.of_nat (length frac_part)))
  | _, _ => None
  end.

(** StringToNumber: white space around the text is dropped; the empty
    text is 0; then come the literals with a radix prefix, [Infinity]
    and the decimal literals with a sign.  (The value is exact: the
    rounding to a double is left out.) *)
Definition StringToNumber (s : jstr) : jsnum :=
  let t := String_trim s in
  let prefixed (digit : N -> option N) (radix : N) :=
    match all_digits digit radix (drop 2 t) with
    | Some n => Finite (inject_Z (Z.of_N n))
    | None => NaN
    end in
  match t with
  | [] => Finite 0
  | _ =>
      if starts_with (js "0x") t || starts_with (js "0X") t then prefixed hex_digit 16
      else if starts_with (js "0o") t || starts_with (js "0O") t then prefixed octal_digit 8
      else if starts_with (js "0b") t || starts_with (js "0B") t then prefixed binary_digit 2
      else
        let negative := bool_decide (head t = Some 45) in
        let u := if negative || bool_decide (head t = Some 43) then drop 1 t else t in
        if bool_decide (u = js "Infinity")
        then (if negative then NegInfinity else PosInfinity)
        else match unsigned_decimal u with
             | Some x => Finite (if negative then - x else x)%Q
             | None => NaN
             end
  end.

(** ToNumber on a string; arrays and objects are taken to give [NaN]
    (an array of no or one element can convert to a number). *)
Definition ToNumber_demo (v : json) : jsnum :=
  match v with
  | JStr s => StringToNumber s
  | _ => NaN
  end.

(** The empty segment, [.] and [..] as segments of a path. *)
Definition is_empty (seg : jstr) : bool :=
  match seg with
  | [] => true
  | _ => false
  end.

Definition is_dot (seg : jstr) : bool :=
  match seg with
  | [c] => c =? 46
  | _ => false
  end.

Definition is_dotdot (seg : jstr) : bool :=
  match seg with
  | [c; d] => (c =? 46) && (d =? 46)
  | _ => false
  end.

(** The segments that are left of a path: empty ones and [.] are
    dropped, [..] takes back the segment before it, or stays when there
    is none and the path is relative.  [kept] holds the segments kept so
    far, the last one first. *)
Fixpoint normalize_segments (relative : bool) (kept segs : list jstr) : list jstr :=
  match segs with
  | [] => reverse kept
  | seg :: rest =>
      if is_empty seg || is_dot seg then normalize_segments relative kept rest
      else if is_dotdot seg then
        match kept with
        | top :: below =>
            if is_dotdot top then normalize_segments relative (seg :: kept) rest
            else normalize_segments relative below rest
        | [] =>
            normalize_segments relative (if relative then [seg] else []) rest
        end
      else normalize_segments relative (seg :: kept) rest
  end.

Fixpoint join_segments (segs : list jstr) : jstr :=
  match segs with
  | [] => []
  | [seg] => seg
  | seg :: rest => seg ++ 47 :: join_segments rest
  end.

(** [path.posix.normalize]. *)
Definition posix_normalize (path : jstr) : jstr :=
  match path with
  | [] => js "."
  | c :: _ =>
      let segs := split_on 47 path in
      let absolute := c =? 47 in
      let trailing := from_option is_empty false (last segs) in
      match join_segments (normalize_segments (negb absolute) [] segs) with
      | [] => if absolute then js "/" else if trailing then js "./" else js "."
      | res =>
          let res := if trailing then res ++ js "/" else res in
          if absolute then js "/" ++ res else res
      end
  end.

(** [path.posix.join] of two parts. *)
Definition posix_join (a b : jstr) : jstr :=
  match a, b with
  | [], _ => posix_normalize b
  | _, [] => posix_normalize a
  | _, _ => posix_normalize (a ++ js "/" ++ b)
  end.


(** The value that follows [flag] in an argument vector. *)
Fixpoint arg_after (flag : jstr) (args : list jstr) : option jstr :=
  match args with
  | a :: ((b :: _) as rest) => if bool_decide (a = flag) then Some b else arg_after flag rest
  | _ => None
  end.

(** yt-dlp: [--dump-json] prints the metadata; a download writes
    [downloaded] at the path given with [-o], unless the tool is set to
    fail with [download_code]. *)
Definition demo_yt_dlp (download_code : Z) (downloaded : media)
    (args : list jstr) (fs : gmap jstr media) : proc_outcome * gmap jstr media :=
  if bool_decide (head args = Some (js "--dump-json"))
  then (Closed (Some 0%Z) (js "{}") [], fs)
  else
    match arg_after (js "-o") args with
    | Some out =>
        if bool_decide (download_code = 0%Z)
        then (Closed (Some 0%Z) [] [], <[out := downloaded]> fs)
        else (Closed (Some download_code) [] (js "ERROR"), fs)
    | None => (Closed (Some 2%Z) [] (js "usage"), fs)
    end.

(** ffmpeg with [-c copy]: [-ss] before [-i] seeks in the input and
    restarts the time stamps of the output at zero; [-to] after [-i]
    stops writing at that position of the output.  A time that does not
    parse, or a missing input, ends with exit code 1 and no output. *)
Definition demo_ffmpeg (args : list jstr) (fs : gmap jstr media)
  : proc_outcome * gmap jstr media :=
  let failed := (Closed (Some 1%Z) [] (js "Invalid duration"), fs) in
  match arg_after (js "-i") args ≫= (fun i => fs !! i), last args with
  | Some input, Some out =>
      let ss := match arg_after (js "-ss") args with
                | Some t => hms_seconds t
                | None => Some 0
                end in
      let to := match arg_after (js "-to") args with
                | Some t => Some (hms_seconds t)
                | None => None
                end in
      match ss, to with
      | Some a, None =>
          (Closed (Some 0%Z) [] [],
           <[out := {| media_size := media_size input;
                       media_duration := media_duration input - a |}]> fs)
      | Some a, Some (Some b) =>
          (Closed (Some 0%Z) [] [],
           <[out := {| media_size := media_size input;
                       media_duration := N.min b (media_duration input - a) |}]> fs)
      | _, _ => failed
      end
  | _, _ => failed
  end.

Definition demo_platform (metadata : json) (download_code : Z) (downloaded : media)
    (streaming : stream_outcome) : Platform :=
  {| env_YT_DLP_PATH := None;
     env_FFMPEG_PATH := None;
     URL_hostname := simple_hostname;
     JSON_parse := fun _ => Some metadata;
     ToNumber_other := ToNumber_demo;
     parseInt_text := parseInt_demo;
     os_tmpdir := js "/tmp";
     path_join := posix_join;
     Date_now_text := fun n => decimal (1700000000000 + N.of_nat n);
     Math_random_text := fun n => js "k3x9" ++ decimal (N.of_nat n);
     spawn := fun command args fs =>
       if bool_decide (command = js "ffmpeg") then demo_ffmpeg args fs
       else demo_yt_dlp download_code downloaded args fs;
     read_stream := fun _ _ => streaming |}.

Definition watch_url : jstr := js "https://www.youtube.com/watch?v=abc".

Definition plain_query : DownloadQuery :=
  {| q_url := Some watch_url; q_mode := None; q_quality := None;
     q_container := None; q_bitrate := None; q_start := None; q_end := None |}.

Definition five_minutes : media := {| media_size := 4096; media_duration := 300 |}.

Definition metadata_of (seconds : Z) : json :=
  JObj [(js "id", JStr (js "abc")); (js "title", JStr (js "A clip"));
        (js "duration", JNum (Finite (inject_Z seconds)))].

(** ** The router *)

Inductive Request :=
| GetInfo (q : InfoQuery)
| GetDownload (q : DownloadQuery).

Definition handle (P : Platform) (r : Request) : M unit :=
  match r with
  | GetInfo q => info_handler P q
  | GetDownload q => download_handler P q
  end.

(** The world once the request that arrived with the files [fs] is
    over. *)
Definition finish (P : Platform) (r : Request) (fs : gmap jstr media) : World :=
  (handle P r (start_world fs)).2.

(** ** The vocabulary of the specification *)

(** A host name that contains one of the two domain names. *)
Definition host_matches (hostname : jstr) : Prop :=
  (∃ a b, hostname = a ++ js "youtube.com" ++ b)
  ∨ (∃ a b, hostname = a ++ js "youtu.be" ++ b).

(** A [url] parameter that is missing or empty, does not parse, or
    names a host that does not match. *)
Definition url_rejected (P : Platform) (url : option jstr) : Prop :=
  match url with
  | None | Some [] => True
  | Some u =>
      match URL_hostname P u with
      | None => True
      | Some hostname => ¬ host_matches hostname
      end
  end.

(** A [mode] that is neither ['video'] nor ['audio']. *)
Definition mode_rejected (mode : option jstr) : Prop :=
  with_default (js "video") mode ≠ js "video"
  ∧ with_default (js "video") mode ≠ js "audio".

Definition rejected (P : Platform) (r : Request) : Prop :=
  match r with
  | GetInfo q => url_rejected P (iq_url q)
  | GetDownload q => url_rejected P (q_url q) ∨ mode_rejected (q_mode q)
  end.

(** A number above the ceiling. *)
Definition exceeds (n : jsnum) (ceiling : N) : Prop :=
  match n with
  | Finite q => (inject_Z (Z.of_N ceiling) < q)%Q
  | PosInfinity => True
  | NegInfinity | NaN => False
  end.

(** The call that fetches the metadata of [url]. *)
Definition info_call (P : Platform) (url : jstr) : jstr * list jstr :=
  (YT_DLP_PATH P, [js "--dump-json"; js "--no-warnings"; url]).

(** The world after one name was drawn by [temp_path]. *)
Definition after_temp_path (w : World) : World :=
  {| w_fs := w_fs w; w_clock := S (w_clock w); w_draws := S (w_draws w);
     w_trace := w_trace w; w_res := w_res w |}.

(** The name drawn by [temp_path] in the world [w]. *)
Definition temp_name (P : Platform) (prefix ext : jstr) (w : World) : jstr :=
  path_join P (os_tmpdir P)
    (prefix ++ Date_now_text P (w_clock w) ++ js "_" ++ Math_random_text P (w_draws w)
       ++ js "." ++ ext).

(** The optional trimming of [tempFile] between the worlds [w] and
    [w']: which file is delivered, and under which name. *)
Definition trimming (P : Platform) (tempFile ext filename0 : jstr)
    (start end_ : option jstr) (w : World)
    (finalFile filename : jstr) (w' : World) : Prop :=
  if param_truthy start || param_truthy end_
  then ∃ w2,
      trimVideo P tempFile (temp_name P (js "ytdl_trim_") ext w) start end_
                (after_temp_path w) = (Return (), w2)
      ∧ w' = (try_catch (fs_unlink tempFile) (fun _ => ret ()) w2).2
      ∧ finalFile = temp_name P (js "ytdl_trim_") ext w
      ∧ filename = String_replace filename0 (js "." ++ ext) (js "_trimmed." ++ ext)
  else finalFile = tempFile ∧ filename = filename0 ∧ w' = w.

(** The head of the response and the piping of [finalFile] into it. *)
Definition respond (P : Platform) (mode ext filename finalFile : jstr) (stat : media)
  : M unit :=
  res_setHeader (js "Content-Type") (HText (content_type mode ext)) ;;;
  res_setHeader (js "Content-Length") (HNumber (media_size stat)) ;;;
  res_setHeader (js "Content-Disposition")
    (HText (js "attachment; filename=" ++ [34] ++ filename ++ [34])) ;;;
  res_setHeader (js "Cache-Control") (HText (js "no-cache")) ;;;
  pipe_and_clean P finalFile.

(** The two header values of [respond] that depend on the request pass
    the check of [res.setHeader]. *)
Definition respond_ok (mode ext filename : jstr) : bool :=
  forallb is_header_char (content_type mode ext)
  && forallb is_header_char (js "attachment; filename=" ++ [34] ++ filename ++ [34]).

(** A listener of the stream ran, and with it the unlink. *)
Definition listener_ran (o : stream_outcome) : bool :=
  match o with
  | StreamUnpiped => false
  | _ => true
  end.

(** The response at the end of a [respond] whose headers were accepted,
    by the way the stream ends. *)
Definition final_response (P : Platform) (mode ext filename finalFile : jstr)
    (stat : media) (w : World) : Response :=
  let sent :=
    set_header (js "Cache-Control") (HText (js "no-cache"))
      (set_header (js "Content-Disposition")
         (HText (js "attachment; filename=" ++ [34] ++ filename ++ [34]))
         (set_header (js "Content-Length") (HNumber (media_size stat))
            (set_header (js "Content-Type") (HText (content_type mode ext))
               (headers (w_res w))))) in
  match read_stream P finalFile (w_fs w) with
  | StreamEnd =>
      {| headersSent := true; statusCode := statusCode (w_res w); headers := sent;
         body := BStream finalFile (w_fs w !! finalFile) true |}
  | StreamErrorEarly =>
      if headersSent (w_res w)
      then {| headersSent := true; statusCode := statusCode (w_res w); headers := sent;
              body := body (w_res w) |}
      else {| headersSent := true; statusCode := 500; headers := sent;
              body := BError (js "Stream error") |}
  | StreamErrorLate | StreamUnpiped =>
      {| headersSent := true; statusCode := statusCode (w_res w); headers := sent;
         body := BStream finalFile (w_fs w !! finalFile) false |}
  end.

Definition audio_query : DownloadQuery :=
  {| q_url := Some watch_url; q_mode := Some (js "audio"); q_quality := None;
     q_container := Some (js "mp3"); q_bitrate := None; q_start := None; q_end := None |}.

Definition fair_platform : Platform :=
  demo_platform (metadata_of 300) 0 five_minutes StreamEnd.

(** The six properties read from the parsed output. *)
Definition info_of (v : json) : option VideoInfo :=
  match get_prop v (js "id"), get_prop v (js "title"),
        get_prop v (js "duration"), get_prop v (js "thumbnail"),
        get_prop v (js "uploader"), get_prop v (js "upload_date") with
  | Some i, Some t, Some d, Some th, Some u, Some ud =>
      Some {| info_id := i; info_title := t; info_duration := d;
              info_thumbnail := th; info_uploader := u; info_upload_date := ud |}
  | _, _, _, _, _, _ => None
  end.

(** The fair platform, except that the output of the info tool does
    not parse. *)
Definition garbled_platform : Platform :=
  {| env_YT_DLP_PATH := env_YT_DLP_PATH fair_platform;
     env_FFMPEG_PATH := env_FFMPEG_PATH fair_platform;
     URL_hostname := URL_hostname fair_platform;
     JSON_parse := fun _ => None;
     ToNumber_other := ToNumber_other fair_platform;
     parseInt_text := parseInt_text fair_platform;
     os_tmpdir := os_tmpdir fair_platform;
     path_join := path_join fair_platform;
     Date_now_text := Date_now_text fair_platform;
     Math_random_text := Math_random_text fair_platform;
     spawn := spawn fair_platform;
     read_stream := read_stream fair_platform |}.

(** The fair platform, except that the title in the metadata is the
    number 5 and no duration is given. *)
Definition numeric_title_platform : Platform :=
  demo_platform (JObj [(js "title", JNum (Finite 5))]) 0 five_minutes StreamEnd.

(** [start=00:01:00&end=00:02:00]. *)
Definition window_query : DownloadQuery :=
  {| q_url := Some watch_url; q_mode := None; q_quality := None;
     q_container := None; q_bitrate := None;
     q_start := Some (js "00:01:00"); q_end := Some (js "00:02:00") |}.

(** [start=abc], a time that the trim tool refuses. *)
Definition bad_trim_query : DownloadQuery :=
  {| q_url := Some watch_url; q_mode := None; q_quality := None;
     q_container := None; q_bitrate := None;
     q_start := Some (js "abc"); q_end := None |}.


(** The fair platform, except that the response is closed before the
    stream ends. *)
Definition closing_platform : Platform :=
  demo_platform (metadata_of 300) 0 five_minutes StreamUnpiped.

Definition foreign_query : DownloadQuery :=
  {| q_url := Some (js "https://example.org/watch?v=abc"); q_mode := None;
     q_quality := None; q_container := None; q_bitrate := None;
     q_start := None; q_end := None |}.

(** ** Relations between worlds *)

(** [stable R m]: whatever [m] does, the world it returns is related by
    [R] to the world it found. *)
Definition stable {A} (R : relation World) (m : M A) : Prop :=
  ∀ w, R w (m w).2.

(** The trace is only extended. *)
Definition trace_grows : relation World :=
  λ w w', w_trace w `prefix_of` w_trace w'.

(** The response is not touched. *)
Definition same_response : relation World :=
  λ w w', w_res w' = w_res w.

(** The clock and the random source are not read. *)
Definition same_counters : relation World :=
  λ w w', w_clock w' = w_clock w ∧ w_draws w' = w_draws w.

(** Files are neither created nor changed. *)
Definition files_shrink : relation World :=
  λ w w', w_fs w' ⊆ w_fs w.

(** No process is spawned. *)
Definition same_spawned : relation World :=
  λ w w', spawned w' = spawned w.

(** ** Further vocabulary *)

(** No two neighbouring units are both white space. *)
Fixpoint no_space_run (s : jstr) : bool :=
  match s with
  | a :: ((b :: _) as t) => negb (is_js_space a && is_js_space b) && no_space_run t
  | _ => true
  end.

(** At most [n] processes are spawned. *)
Definition spawns_at_most {A} (n : nat) (m : M A) : Prop :=
  ∀ w, (length (spawned (m w).2) ≤ length (spawned w) + n)%nat.

(** The two names a [/download] request draws: the file of the
    download, and the file of the trim step when one is asked for. *)
Definition drawn_by (P : Platform) (mode quality container bitrate : jstr)
    (start end_ : option jstr) (w : World) (p : jstr) : Prop :=
  let ext := (format_selector P mode quality container bitrate []).1.2 in
  p = temp_name P (js "ytdl_") ext w
  ∨ (param_truthy start || param_truthy end_ = true
     ∧ p = temp_name P (js "ytdl_trim_") ext (after_temp_path w)).

(** Whatever is unlinked on the way satisfies [S]. *)
Definition unlinks_only (S : jstr → Prop) : relation World :=
  λ w w', ∀ p, EvUnlink p ∈ w_trace w' → EvUnlink p ∈ w_trace w ∨ S p.


(** * Properties *)

Example sanitize_demo :
  sanitizeFilename (js "  Hello,   World!  ") = js "Hello_ World_".
Proof. vm_compute. reflexivity. Qed.

(** ** Literal search *)

Lemma starts_with_spec (p s : jstr) :
  starts_with p s = true ↔ ∃ r, s = p ++ r.
Proof.
  revert s. induction p as [|a p IH]; intros s; simpl.
  - split; eauto.
  - destruct s as [|b s].
    + split; [discriminate|]. intros [r Hr]. discriminate.
    + rewrite andb_true_iff, N.eqb_eq, IH. split.
      * intros [-> [r ->]]. eauto.
      * intros [r Hr]. simplify_eq. eauto.
Qed.

Lemma index_of_Some (p s : jstr) (i : nat) :
  index_of p s = Some i → s = take i s ++ p ++ drop (i + length p) s.
Proof.
  revert i. induction s as [|c s IH]; intros i; simpl.
  - destruct (starts_with p []) eqn:E; [|discriminate].
    intros [= <-]. apply starts_with_spec in E as [r Hr].
    destruct p; [|discriminate]. reflexivity.
  - destruct (starts_with p (c :: s)) eqn:E.
    + intros [= <-]. apply starts_with_spec in E as [r Hr].
      simpl. rewrite Hr at 1. f_equal. rewrite Hr, drop_app_length. reflexivity.
    + destruct (index_of p s) as [j|] eqn:Ej; [|discriminate].
      intros [= <-]. simpl. f_equal. apply IH. reflexivity.
Qed.

Lemma index_of_here (p s : jstr) :
  starts_with p s = true → index_of p s = Some 0%nat.
Proof. intros H. destruct s; simpl; rewrite H; reflexivity. Qed.

Lemma index_of_infix (p a b : jstr) : is_Some (index_of p (a ++ p ++ b)).
Proof.
  induction a as [|c a IH]; simpl.
  - rewrite index_of_here; [eauto|]. apply starts_with_spec. eauto.
  - destruct (starts_with p (c :: a ++ p ++ b)); [eauto|].
    destruct IH as [j ->]. simpl. eauto.
Qed.

(** The search for a literal succeeds exactly on the strings that
    contain it. *)
Lemma test_literal_spec (p s : jstr) :
  test_literal p s = true ↔ ∃ a b, s = a ++ p ++ b.
Proof.
  unfold test_literal. rewrite bool_decide_eq_true. split.
  - intros [i Hi]. apply index_of_Some in Hi. eauto.
  - intros (a & b & ->). apply index_of_infix.
Qed.

(** The first occurrence of a pattern lies beyond a prefix in which its
    first unit does not occur. *)
Lemma index_of_skip (c : N) (p a b : jstr) :
  c ∉ a →
  index_of (c :: p) (a ++ b) = (λ i, (length a + i)%nat) <$> index_of (c :: p) b.
Proof.
  intros Hc. induction a as [|d a IH].
  - change ([] ++ b) with b. destruct (index_of (c :: p) b); reflexivity.
  - apply not_elem_of_cons in Hc as [Hd Ha].
    change ((d :: a) ++ b) with (d :: (a ++ b)).
    cbn [index_of starts_with].
    destruct (N.eqb_spec c d) as [->|_]; [done|].
    simpl. rewrite (IH Ha).
    destruct (index_of (c :: p) b); reflexivity.
Qed.

(** A replacement text keeps a leading unit that is not [$]. *)
Lemma GetSubstitution_cons (m b a : jstr) (c : N) (r : jstr) :
  c ≠ 36 → GetSubstitution m b a (c :: r) = c :: GetSubstitution m b a r.
Proof. intros Hc. simpl. destruct (N.eqb_spec c 36); [done|reflexivity]. Qed.

Lemma GetSubstitution_trimmed (m b a ext : jstr) :
  GetSubstitution m b a (js "_trimmed." ++ ext)
  = js "_trimmed." ++ GetSubstitution m b a ext.
Proof.
  change (js "_trimmed.") with [95; 116; 114; 105; 109; 109; 101; 100; 46].
  cbn [app]. rewrite !GetSubstitution_cons by lia. reflexivity.
Qed.

(** Replacing [.ext] by [_trimmed.ext] in a name that contains [.ext]
    leaves the marker in the name. *)
Lemma String_replace_trimmed (a ext b : jstr) :
  ∃ u v, String_replace (a ++ (js "." ++ ext) ++ b) (js "." ++ ext) (js "_trimmed." ++ ext)
         = u ++ js "_trimmed" ++ v.
Proof.
  unfold String_replace.
  destruct (index_of_infix (js "." ++ ext) a b) as [i Hi].
  rewrite Hi, GetSubstitution_trimmed.
  set (s := a ++ (js "." ++ ext) ++ b).
  set (k := (i + length (js "." ++ ext))%nat).
  exists (take i s), ([46] ++ GetSubstitution (js "." ++ ext) (take i s) (drop k s) ext ++ drop k s).
  reflexivity.
Qed.

(** ** [sanitizeFilename] *)

Lemma replace_disallowed_chars (s : jstr) :
  Forall (λ c, is_filename_char c = true) (replace_disallowed s).
Proof.
  unfold replace_disallowed. apply Forall_map, Forall_forall. intros c _.
  simpl. destruct (is_filename_char c) eqn:E; [exact E|reflexivity].
Qed.

Lemma collapse_spaces_chars (in_run : bool) (s : jstr) :
  Forall (λ c, is_filename_char c = true) s →
  Forall (λ c, is_filename_char c = true) (collapse_spaces in_run s).
Proof.
  intros H. revert in_run. induction H as [|c s Hc Hs IH]; intros in_run; simpl.
  - constructor.
  - destruct (is_js_space c), in_run; auto; constructor; auto.
Qed.

Lemma collapse_spaces_length (in_run : bool) (s : jstr) :
  (length (collapse_spaces in_run s) ≤ length s)%nat.
Proof.
  revert in_run. induction s as [|c s IH]; intros in_run; simpl; [lia|].
  pose proof (IH true). pose proof (IH false).
  destruct (is_js_space c), in_run; simpl; lia.
Qed.

Lemma trim_start_suffix (s : jstr) : trim_start s `suffix_of` s.
Proof.
  induction s as [|c s IH]; simpl; [done|].
  destruct (is_js_space c); [|done].
  by apply suffix_cons_r.
Qed.

Lemma trim_end_prefix (s : jstr) : trim_end s `prefix_of` s.
Proof.
  unfold trim_end. destruct (trim_start_suffix (reverse s)) as [k Hk].
  exists (reverse k).
  rewrite <- reverse_app, <- Hk. symmetry. apply reverse_involutive.
Qed.

Lemma trim_start_head (s : jstr) (c : N) :
  head (trim_start s) = Some c → is_js_space c = false.
Proof.
  induction s as [|d s IH]; simpl; [discriminate|].
  destruct (is_js_space d) eqn:E; [exact IH|].
  simpl. intros [= <-]. exact E.
Qed.

Lemma trim_start_snoc (s : jstr) (c : N) :
  is_js_space c = false → ∃ z, trim_start (s ++ [c]) = z ++ [c].
Proof.
  intros Hc. induction s as [|d s IH]; simpl.
  - rewrite Hc. by exists [].
  - destruct (is_js_space d); [exact IH|].
    by exists (d :: s).
Qed.

Lemma trim_end_head (s : jstr) (c : N) :
  head s = Some c → is_js_space c = false → head (trim_end s) = Some c.
Proof.
  destruct s as [|d s]; [discriminate|]. simpl. intros [= ->] Hc.
  unfold trim_end. rewrite reverse_cons.
  destruct (trim_start_snoc (reverse s) c Hc) as [z ->].
  rewrite reverse_app. reflexivity.
Qed.

Lemma trim_end_last (s : jstr) (c : N) :
  last (trim_end s) = Some c → is_js_space c = false.
Proof.
  unfold trim_end. rewrite last_reverse. apply trim_start_head.
Qed.

Lemma String_trim_length (s : jstr) : (length (String_trim s) ≤ length s)%nat.
Proof.
  unfold String_trim.
  etrans; [apply prefix_length, trim_end_prefix|].
  apply suffix_length, trim_start_suffix.
Qed.

Lemma String_trim_chars (s : jstr) :
  Forall (λ c, is_filename_char c = true) s →
  Forall (λ c, is_filename_char c = true) (String_trim s).
Proof.
  intros H. unfold String_trim.
  destruct (trim_end_prefix (trim_start s)) as [k Hk].
  destruct (trim_start_suffix s) as [k' Hk'].
  rewrite Hk' in H. apply Forall_app in H as [_ H].
  rewrite Hk in H. by apply Forall_app in H as [H _].
Qed.

Lemma String_trim_head (s : jstr) (c : N) :
  head (String_trim s) = Some c → is_js_space c = false.
Proof.
  unfold String_trim. intros H.
  destruct (trim_start s) as [|d t] eqn:E; [discriminate|].
  assert (is_js_space d = false) as Hd by (apply (trim_start_head s); by rewrite E).
  rewrite (trim_end_head (d :: t) d eq_refl Hd) in H. by simplify_eq.
Qed.

Lemma head_take_S {A} (n : nat) (l : list A) : head (take (S n) l) = head l.
Proof. by destruct l. Qed.

(** What [sanitizeFilename] guarantees of its result. *)
Lemma sanitizeFilename_shape (name : jstr) :
  (length (sanitizeFilename name) ≤ 100)%nat
  ∧ Forall (λ c, is_filename_char c = true) (sanitizeFilename name)
  ∧ (∀ c, head (sanitizeFilename name) = Some c → is_js_space c = false)
  ∧ ((length (String_trim (collapse_spaces false (replace_disallowed name))) ≤ 100)%nat →
     ∀ c, last (sanitizeFilename name) = Some c → is_js_space c = false).
Proof.
  unfold sanitizeFilename, String_slice0.
  set (t := collapse_spaces false (replace_disallowed name)).
  repeat split.
  - rewrite length_take. lia.
  - apply Forall_take, String_trim_chars, collapse_spaces_chars, replace_disallowed_chars.
  - intros c. rewrite head_take_S. apply String_trim_head.
  - intros Hlen c. rewrite take_ge by exact Hlen.
    unfold String_trim. apply trim_end_last.
Qed.

(** No unit of a sanitized name is a full stop. *)
Lemma sanitizeFilename_no_dot (name : jstr) : 46 ∉ sanitizeFilename name.
Proof.
  destruct (sanitizeFilename_shape name) as (_ & H & _).
  rewrite Forall_forall in H. intros Hin. specialize (H _ Hin). discriminate.
Qed.

(** ** Validation *)

Lemma isValidYouTubeUrl_spec (P : Platform) (url : jstr) :
  isValidYouTubeUrl P url = true
  ↔ ∃ hostname, URL_hostname P url = Some hostname ∧ host_matches hostname.
Proof.
  unfold isValidYouTubeUrl, host_matches.
  destruct (URL_hostname P url) as [h|].
  - rewrite orb_true_iff, !test_literal_spec. split.
    + intros H. exists h. split; [reflexivity|exact H].
    + intros (h' & [= <-] & H). exact H.
  - split; [discriminate|]. intros (h & [=] & _).
Qed.

Lemma url_check_spec (P : Platform) (url : option jstr) :
  negb (param_truthy url) || negb (isValidYouTubeUrl P (with_default [] url)) = true
  ↔ url_rejected P url.
Proof.
  destruct url as [[|c u]|]; simpl; try (split; [intros _; exact I|reflexivity]).
  rewrite negb_true_iff, <- not_true_iff_false, isValidYouTubeUrl_spec.
  destruct (URL_hostname P (c :: u)) as [h|].
  - split.
    + intros H Hm. apply H. eauto.
    + intros H (h' & [= <-] & Hm). exact (H Hm).
  - split; [intros _; exact I|]. intros _ (h & [=] & _).
Qed.

Lemma mode_check_spec (mode : option jstr) :
  negb (bool_decide (with_default (js "video") mode ∈ [js "video"; js "audio"])) = true
  ↔ mode_rejected mode.
Proof.
  rewrite negb_true_iff, bool_decide_eq_false. unfold mode_rejected.
  rewrite !elem_of_cons, elem_of_nil. tauto.
Qed.

(** ** What a computation leaves alone *)

Lemma bind_eq {A B} (m : M A) (k : A → M B) (w : World) :
  bind m k w
  = match m w with
    | (Return a, w') => k a w'
    | (Throw e, w') => (Throw e, w')
    end.
Proof. reflexivity. Qed.

Lemma try_catch_eq {A} (m : M A) (h : jstr → M A) (w : World) :
  try_catch m h w
  = match m w with
    | (Return a, w') => (Return a, w')
    | (Throw e, w') => h e w'
    end.
Proof. reflexivity. Qed.

#[export] Instance trace_grows_preorder : PreOrder trace_grows.
Proof.
  split; [intros w; by unfold trace_grows|].
  intros a b c. unfold trace_grows. apply transitivity.
Qed.

#[export] Instance same_response_preorder : PreOrder same_response.
Proof. split; [done|]. intros a b c. unfold same_response. congruence. Qed.

#[export] Instance same_counters_preorder : PreOrder same_counters.
Proof.
  split; [done|]. intros a b c [? ?] [? ?]. unfold same_counters. split; congruence.
Qed.

#[export] Instance same_spawned_preorder : PreOrder same_spawned.
Proof. split; [done|]. intros a b c. unfold same_spawned. congruence. Qed.

#[export] Instance files_shrink_preorder : PreOrder files_shrink.
Proof.
  split; [intros w; by unfold files_shrink|].
  intros a b c ? ?. unfold files_shrink in *. by etrans.
Qed.

Section Stable.

Context (R : relation World) `{!PreOrder R}.

Lemma stable_ret {A} (a : A) : stable R (ret a).
Proof. intros w. simpl. reflexivity. Qed.

Lemma stable_throw {A} (e : jstr) : stable R (@throw A e).
Proof. intros w. simpl. reflexivity. Qed.

Lemma stable_bind {A B} (m : M A) (k : A → M B) :
  stable R m → (∀ a, stable R (k a)) → stable R (bind m k).
Proof.
  intros Hm Hk w. rewrite bind_eq. specialize (Hm w).
  destruct (m w) as [[a|e] w1]; simpl in *; [|done].
  etrans; [exact Hm|apply Hk].
Qed.

Lemma stable_try_catch {A} (m : M A) (h : jstr → M A) :
  stable R m → (∀ e, stable R (h e)) → stable R (try_catch m h).
Proof.
  intros Hm Hh w. rewrite try_catch_eq. specialize (Hm w).
  destruct (m w) as [[a|e] w1]; simpl in *; [done|].
  etrans; [exact Hm|apply Hh].
Qed.

(** What follows a step keeps what the step reached. *)
Lemma stable_after_bind {A B} (m : M A) (k : A → M B) (w : World) :
  (∀ a, stable R (k a)) → R (m w).2 (bind m k w).2.
Proof.
  intros Hk. rewrite bind_eq.
  destruct (m w) as [[a|e] w1]; simpl; [apply Hk|reflexivity].
Qed.

Lemma stable_after_try {A} (m : M A) (h : jstr → M A) (w : World) :
  (∀ e, stable R (h e)) → R (m w).2 (try_catch m h w).2.
Proof.
  intros Hh. rewrite try_catch_eq.
  destruct (m w) as [[a|e] w1]; simpl; [reflexivity|apply Hh].
Qed.

End Stable.

Create HintDb stable.

(** Splits a goal [stable R m] along the structure of [m]. *)
Ltac stable_step :=
  match goal with
  | |- stable _ (bind _ _) => apply stable_bind; [typeclasses eauto| |]
  | |- stable _ (try_catch _ _) => apply stable_try_catch; [typeclasses eauto| |]
  | |- stable _ (ret _) => apply stable_ret; typeclasses eauto
  | |- stable _ (throw _) => apply stable_throw; typeclasses eauto
  | |- stable _ (if ?b then _ else _) => destruct b
  | |- stable _ (match ?x with _ => _ end) => destruct x
  | |- ∀ _, _ => intro
  | |- stable _ _ => solve [auto with stable]
  end.

(** Settles [stable R m] for a primitive [m] by running it. *)
Ltac stable_prim :=
  intros w;
  unfold fs_access, fs_stat, fs_unlink, res_status_json, res_json, res_setHeader,
    res_headersSent, res_piped, run_process, Date_now, Math_random;
  repeat case_match; simpl;
  unfold trace_grows, same_response, same_counters, files_shrink, same_spawned; simpl;
  try done.

Lemma fs_access_trace (path : jstr) : stable trace_grows (fs_access path).
Proof. stable_prim. Qed.
Lemma fs_access_response (path : jstr) : stable same_response (fs_access path).
Proof. stable_prim. Qed.
Lemma fs_access_counters (path : jstr) : stable same_counters (fs_access path).
Proof. stable_prim. Qed.
Lemma fs_access_files (path : jstr) : stable files_shrink (fs_access path).
Proof. stable_prim. Qed.

Lemma fs_stat_trace (path : jstr) : stable trace_grows (fs_stat path).
Proof. stable_prim. Qed.
Lemma fs_stat_response (path : jstr) : stable same_response (fs_stat path).
Proof. stable_prim. Qed.
Lemma fs_stat_files (path : jstr) : stable files_shrink (fs_stat path).
Proof. stable_prim. Qed.

Lemma fs_unlink_trace (path : jstr) : stable trace_grows (fs_unlink path).
Proof. stable_prim. by apply prefix_app_r. Qed.
Lemma fs_unlink_response (path : jstr) : stable same_response (fs_unlink path).
Proof. stable_prim. Qed.
Lemma fs_unlink_counters (path : jstr) : stable same_counters (fs_unlink path).
Proof. stable_prim. Qed.
Lemma fs_unlink_files (path : jstr) : stable files_shrink (fs_unlink path).
Proof. stable_prim. apply delete_subseteq. Qed.

Lemma fs_unlink_spawned (path : jstr) : stable same_spawned (fs_unlink path).
Proof. stable_prim. unfold spawned. simpl. by rewrite omap_app, app_nil_r. Qed.
Lemma res_status_json_spawned (code : nat) (b : Body) :
  stable same_spawned (res_status_json code b).
Proof. stable_prim. Qed.
Lemma res_setHeader_spawned (name : jstr) (v : header_value) :
  stable same_spawned (res_setHeader name v).
Proof. stable_prim. Qed.
Lemma res_headersSent_spawned : stable same_spawned res_headersSent.
Proof. stable_prim. Qed.
Lemma res_piped_spawned (path : jstr) (complete : bool) :
  stable same_spawned (res_piped path complete).
Proof. stable_prim. Qed.

Lemma res_status_json_trace (code : nat) (b : Body) :
  stable trace_grows (res_status_json code b).
Proof. stable_prim. Qed.
Lemma res_status_json_files (code : nat) (b : Body) :
  stable files_shrink (res_status_json code b).
Proof. stable_prim. Qed.

Lemma res_json_trace (b : Body) : stable trace_grows (res_json b).
Proof. stable_prim. Qed.

Lemma res_setHeader_trace (name : jstr) (v : header_value) :
  stable trace_grows (res_setHeader name v).
Proof. stable_prim. Qed.
Lemma res_setHeader_files (name : jstr) (v : header_value) :
  stable files_shrink (res_setHeader name v).
Proof. stable_prim. Qed.

Lemma res_headersSent_trace : stable trace_grows res_headersSent.
Proof. stable_prim. Qed.
Lemma res_headersSent_files : stable files_shrink res_headersSent.
Proof. stable_prim. Qed.

Lemma res_piped_trace (path : jstr) (complete : bool) :
  stable trace_grows (res_piped path complete).
Proof. stable_prim. Qed.
Lemma res_piped_files (path : jstr) (complete : bool) :
  stable files_shrink (res_piped path complete).
Proof. stable_prim. Qed.

Lemma run_process_trace (P : Platform) (command : jstr) (args : list jstr) :
  stable trace_grows (run_process P command args).
Proof. stable_prim. by apply prefix_app_r. Qed.
Lemma run_process_response (P : Platform) (command : jstr) (args : list jstr) :
  stable same_response (run_process P command args).
Proof. stable_prim. Qed.
Lemma run_process_counters (P : Platform) (command : jstr) (args : list jstr) :
  stable same_counters (run_process P command args).
Proof. stable_prim. Qed.

Lemma Date_now_trace (P : Platform) : stable trace_grows (Date_now P).
Proof. stable_prim. Qed.
Lemma Date_now_response (P : Platform) : stable same_response (Date_now P).
Proof. stable_prim. Qed.
Lemma Math_random_trace (P : Platform) : stable trace_grows (Math_random P).
Proof. stable_prim. Qed.
Lemma Math_random_response (P : Platform) : stable same_response (Math_random P).
Proof. stable_prim. Qed.

#[export] Hint Resolve fs_access_trace fs_access_response fs_access_counters fs_access_files
  fs_stat_trace fs_stat_response fs_stat_files
  fs_unlink_trace fs_unlink_response fs_unlink_counters fs_unlink_files
  res_status_json_trace res_status_json_files res_json_trace
  res_setHeader_trace res_setHeader_files res_headersSent_trace res_headersSent_files
  res_piped_trace res_piped_files
  fs_unlink_spawned res_status_json_spawned res_setHeader_spawned res_headersSent_spawned
  res_piped_spawned
  run_process_trace run_process_response run_process_counters
  Date_now_trace Date_now_response Math_random_trace Math_random_response : stable.

Lemma getVideoInfo_trace (P : Platform) (url : jstr) :
  stable trace_grows (getVideoInfo P url).
Proof. unfold getVideoInfo. repeat stable_step. Qed.
Lemma getVideoInfo_response (P : Platform) (url : jstr) :
  stable same_response (getVideoInfo P url).
Proof. unfold getVideoInfo. repeat stable_step. Qed.
Lemma getVideoInfo_counters (P : Platform) (url : jstr) :
  stable same_counters (getVideoInfo P url).
Proof. unfold getVideoInfo. repeat stable_step. Qed.

Lemma downloadVideo_trace (P : Platform) (url format ext outputPath mode bitrate container : jstr) :
  stable trace_grows (downloadVideo P url format ext outputPath mode bitrate container).
Proof. unfold downloadVideo. repeat stable_step. Qed.
Lemma downloadVideo_response (P : Platform) (url format ext outputPath mode bitrate container : jstr) :
  stable same_response (downloadVideo P url format ext outputPath mode bitrate container).
Proof. unfold downloadVideo. repeat stable_step. Qed.
Lemma downloadVideo_counters (P : Platform) (url format ext outputPath mode bitrate container : jstr) :
  stable same_counters (downloadVideo P url format ext outputPath mode bitrate container).
Proof. unfold downloadVideo. repeat stable_step. Qed.

Lemma trimVideo_trace (P : Platform) (inputPath outputPath : jstr) (start end_ : option jstr) :
  stable trace_grows (trimVideo P inputPath outputPath start end_).
Proof. unfold trimVideo. repeat stable_step. Qed.
Lemma trimVideo_response (P : Platform) (inputPath outputPath : jstr) (start end_ : option jstr) :
  stable same_response (trimVideo P inputPath outputPath start end_).
Proof. unfold trimVideo. repeat stable_step. Qed.

Lemma temp_path_trace (P : Platform) (prefix ext : jstr) :
  stable trace_grows (temp_path P prefix ext).
Proof. unfold temp_path. repeat stable_step. Qed.
Lemma temp_path_response (P : Platform) (prefix ext : jstr) :
  stable same_response (temp_path P prefix ext).
Proof. unfold temp_path. repeat stable_step. Qed.

Lemma sanitized_title_trace (info : VideoInfo) : stable trace_grows (sanitized_title info).
Proof. unfold sanitized_title. repeat stable_step. Qed.
Lemma sanitized_title_response (info : VideoInfo) :
  stable same_response (sanitized_title info).
Proof. unfold sanitized_title. repeat stable_step. Qed.

(** [pipe_and_clean] keeps what its steps keep, however the stream
    goes. *)
Lemma pipe_and_clean_stable (R : relation World) `{!PreOrder R} (P : Platform) (finalFile : jstr) :
  (∀ c, stable R (res_piped finalFile c)) →
  stable R (fs_unlink finalFile) →
  stable R res_headersSent →
  (∀ c b, stable R (res_status_json c b)) →
  stable R (pipe_and_clean P finalFile).
Proof.
  intros H1 H2 H3 H4 w. unfold pipe_and_clean.
  destruct (read_stream P finalFile (w_fs w));
    match goal with |- R w (?m w).2 => assert (stable R m) as H end;
    try apply H; repeat stable_step; auto.
Qed.

Lemma pipe_and_clean_trace (P : Platform) (finalFile : jstr) :
  stable trace_grows (pipe_and_clean P finalFile).
Proof. apply pipe_and_clean_stable; auto with stable; typeclasses eauto. Qed.
Lemma pipe_and_clean_files (P : Platform) (finalFile : jstr) :
  stable files_shrink (pipe_and_clean P finalFile).
Proof. apply pipe_and_clean_stable; auto with stable; typeclasses eauto. Qed.

Lemma pipe_and_clean_spawned (P : Platform) (finalFile : jstr) :
  stable same_spawned (pipe_and_clean P finalFile).
Proof. apply pipe_and_clean_stable; auto with stable; typeclasses eauto. Qed.

#[export] Hint Resolve pipe_and_clean_spawned : stable.

#[export] Hint Resolve getVideoInfo_trace getVideoInfo_response getVideoInfo_counters
  downloadVideo_trace downloadVideo_response downloadVideo_counters
  trimVideo_trace trimVideo_response temp_path_trace temp_path_response
  sanitized_title_trace sanitized_title_response
  pipe_and_clean_trace pipe_and_clean_files : stable.

(** ** Running the handlers *)

Lemma getVideoInfo_world (P : Platform) (url : jstr) (w : World) :
  (getVideoInfo P url w).2
  = log (EvSpawn (YT_DLP_PATH P) [js "--dump-json"; js "--no-warnings"; url])
        (set_fs (spawn P (YT_DLP_PATH P) [js "--dump-json"; js "--no-warnings"; url] (w_fs w)).2 w).
Proof.
  unfold getVideoInfo, bind, run_process.
  destruct (spawn P _ _ _) as [[m|code so se] fs']; [reflexivity|].
  destruct (exit_failed code); [reflexivity|].
  destruct (JSON_parse P so) as [v|]; [|reflexivity].
  repeat (match goal with |- context [get_prop v ?k] => destruct (get_prop v k) end);
    reflexivity.
Qed.

Lemma spawned_log_spawn (c : jstr) (a : list jstr) (w : World) :
  spawned (log (EvSpawn c a) w) = spawned w ++ [(c, a)].
Proof. unfold spawned, log. simpl. by rewrite omap_app. Qed.

Lemma spawned_prefix (w w' : World) :
  w_trace w `prefix_of` w_trace w' → spawned w `prefix_of` spawned w'.
Proof. intros [k Hk]. unfold spawned. rewrite Hk, omap_app. by apply prefix_app_r. Qed.

(** C3: a request whose [url] is missing, does not parse or names a
    host that does not match the pattern, and a [/download] request
    whose mode is neither ['video'] nor ['audio'], is answered with
    status 400 and an error body; no process is spawned and the files
    are untouched. *)
Theorem rejected_request_is_400_without_process
    (P : Platform) (r : Request) (fs : gmap jstr media) :
  rejected P r →
  statusCode (w_res (finish P r fs)) = 400%nat
  ∧ (∃ message, body (w_res (finish P r fs)) = BError message)
  ∧ spawned (finish P r fs) = []
  ∧ w_fs (finish P r fs) = fs.
Proof.
  destruct r as [q|q]; unfold rejected, finish, handle.
  - intros H%url_check_spec. unfold info_handler. rewrite H.
    simpl. eauto.
  - intros H. unfold download_handler.
    destruct (negb (param_truthy (q_url q)) || _) eqn:Hurl.
    + simpl. eauto.
    + destruct H as [H%url_check_spec|H%mode_check_spec]; [congruence|].
      rewrite H. simpl. eauto.
Qed.

Lemma rejected_request_is_400_without_process_witness :
  statusCode (w_res (finish (demo_platform (metadata_of 300) 0 five_minutes StreamEnd)
                            (GetDownload foreign_query) ∅)) = 400%nat
  ∧ (∃ message,
        body (w_res (finish (demo_platform (metadata_of 300) 0 five_minutes StreamEnd)
                            (GetDownload foreign_query) ∅)) = BError message)
  ∧ spawned (finish (demo_platform (metadata_of 300) 0 five_minutes StreamEnd)
                    (GetDownload foreign_query) ∅) = []
  ∧ w_fs (finish (demo_platform (metadata_of 300) 0 five_minutes StreamEnd)
                 (GetDownload foreign_query) ∅) = ∅.
Proof.
  apply (rejected_request_is_400_without_process
           (demo_platform (metadata_of 300) 0 five_minutes StreamEnd)
           (GetDownload foreign_query) ∅).
  left. apply url_check_spec. vm_compute. reflexivity.
Defined.

Lemma host_matches_foreign : host_matches (js "fake-youtube.com.evil.example").
Proof. left. exists (js "fake-"), (js ".evil.example"). reflexivity. Qed.

Lemma accepted_url_check (P : Platform) (url hostname : jstr) :
  URL_hostname P url = Some hostname → url ≠ [] → host_matches hostname →
  negb (param_truthy (Some url)) || negb (isValidYouTubeUrl P url) = false.
Proof.
  intros Hh Hu Hm. destruct url as [|c u]; [done|]. simpl.
  apply negb_false_iff, isValidYouTubeUrl_spec. eauto.
Qed.


Lemma temp_path_run (P : Platform) (prefix ext : jstr) (w : World) :
  temp_path P prefix ext w = (Return (temp_name P prefix ext w), after_temp_path w).
Proof. reflexivity. Qed.

(** [fs.unlink(path).catch(() => {})] never throws. *)
Lemma unlink_quietly_run (path : jstr) (w : World) :
  try_catch (fs_unlink path) (λ _, ret ()) w
  = (Return (), (try_catch (fs_unlink path) (λ _, ret ()) w).2).
Proof.
  rewrite try_catch_eq. unfold fs_unlink.
  destruct (w_fs w !! path); reflexivity.
Qed.

Lemma unlink_quietly_response (path : jstr) :
  stable same_response (try_catch (fs_unlink path) (λ _, ret ())).
Proof. repeat stable_step. Qed.

(** Neither listener of the stream throws. *)
Lemma pipe_and_clean_returns (P : Platform) (finalFile : jstr) (w : World) :
  (pipe_and_clean P finalFile w).1 = Return ().
Proof.
  unfold pipe_and_clean.
  destruct (read_stream P finalFile (w_fs w)).
  - rewrite bind_eq. unfold res_piped at 1. rewrite unlink_quietly_run. reflexivity.
  - rewrite bind_eq, unlink_quietly_run, bind_eq. unfold res_headersSent at 1.
    destruct (negb _); reflexivity.
  - rewrite bind_eq. unfold res_piped at 1.
    rewrite bind_eq, unlink_quietly_run, bind_eq. unfold res_headersSent at 1.
    destruct (negb _); reflexivity.
  - reflexivity.
Qed.

Lemma res_setHeader_accepted (name : jstr) (value : header_value) (w : World) :
  header_value_ok value = true →
  res_setHeader name value w
  = (Return (),
     set_res {| headersSent := headersSent (w_res w); statusCode := statusCode (w_res w);
                headers := set_header name value (headers (w_res w));
                body := body (w_res w) |} w).
Proof. intros H. unfold res_setHeader. rewrite H. reflexivity. Qed.

Lemma res_setHeader_refused (name : jstr) (value : header_value) (w : World) :
  header_value_ok value = false →
  res_setHeader name value w
  = (Throw (js "Invalid character in header content [" ++ [34] ++ name ++ [34] ++ js "]"), w).
Proof. intros H. unfold res_setHeader. rewrite H. reflexivity. Qed.

(** With its headers accepted, [respond] sets the four of them and
    pipes. *)
Lemma respond_accepted (P : Platform) (mode ext filename finalFile : jstr)
    (stat : media) (w : World) :
  respond_ok mode ext filename = true →
  respond P mode ext filename finalFile stat w
  = pipe_and_clean P finalFile
      (set_res {| headersSent := headersSent (w_res w); statusCode := statusCode (w_res w);
                  headers :=
                    set_header (js "Cache-Control") (HText (js "no-cache"))
                      (set_header (js "Content-Disposition")
                         (HText (js "attachment; filename=" ++ [34] ++ filename ++ [34]))
                         (set_header (js "Content-Length") (HNumber (media_size stat))
                            (set_header (js "Content-Type") (HText (content_type mode ext))
                               (headers (w_res w)))));
                  body := body (w_res w) |} w).
Proof.
  unfold respond_ok. intros [H1 H2]%andb_true_iff. unfold respond.
  rewrite bind_eq, res_setHeader_accepted by exact H1.
  rewrite bind_eq, res_setHeader_accepted by reflexivity.
  rewrite bind_eq, res_setHeader_accepted by exact H2.
  rewrite bind_eq, res_setHeader_accepted by reflexivity.
  reflexivity.
Qed.

Lemma respond_returns (P : Platform) (mode ext filename finalFile : jstr)
    (stat : media) (w : World) :
  respond_ok mode ext filename = true →
  (respond P mode ext filename finalFile stat w).1 = Return ().
Proof.
  intros Hok. rewrite respond_accepted by exact Hok.
  apply pipe_and_clean_returns.
Qed.

(** With a header refused, [respond] throws before anything is sent or
    piped: the files, the trace and the counters are as they were. *)
Lemma respond_refused (P : Platform) (mode ext filename finalFile : jstr)
    (stat : media) (w : World) :
  respond_ok mode ext filename = false →
  ∃ e w',
    respond P mode ext filename finalFile stat w = (Throw e, w')
    ∧ headersSent (w_res w') = headersSent (w_res w)
    ∧ w_fs w' = w_fs w
    ∧ w_trace w' = w_trace w.
Proof.
  unfold respond_ok. intros Hok. unfold respond.
  destruct (forallb is_header_char (content_type mode ext)) eqn:H1.
  - cbn [andb] in Hok.
    rewrite bind_eq, res_setHeader_accepted by exact H1.
    rewrite bind_eq, res_setHeader_accepted by reflexivity.
    rewrite bind_eq, res_setHeader_refused by exact Hok.
    eexists _, _. split; [reflexivity|]. done.
  - rewrite bind_eq, res_setHeader_refused by exact H1.
    eexists _, _. split; [reflexivity|]. done.
Qed.

Ltac thrown_early :=
  solve [left; unfold throw, same_response in *; simpl in *; simplify_eq;
         eexists; split; [reflexivity|congruence]].

(** How the [try] block of [/download] can end: with an exception
    thrown before anything of the response was sent, or by piping a
    file whose history is known. *)
Lemma download_body_inv (P : Platform) (url mode quality container bitrate : jstr)
    (start end_ : option jstr) (w : World) (r : outcome unit) (w' : World) :
  download_body P url mode quality container bitrate start end_ w = (r, w') →
  (∃ e, r = Throw e ∧ headersSent (w_res w') = headersSent (w_res w))
  ∨ (∃ info name w1 w3 w4 finalFile filename stat,
        getVideoInfo P url w = (Return info, w1)
        ∧ js_gt P (js_or (info_duration info) (JNum (Finite 0))) MAX_DURATION = false
        ∧ js_or (info_title info) (JStr (js "video")) = JStr name
        ∧ let '(format, ext, filename0) :=
            format_selector P mode quality container bitrate (sanitizeFilename name) in
          downloadVideo P url format ext (temp_name P (js "ytdl_") ext w1)
                        mode bitrate container (after_temp_path w1) = (Return (), w3)
          ∧ trimming P (temp_name P (js "ytdl_") ext w1) ext filename0 start end_ w3
                     finalFile filename w4
          ∧ w_fs w4 !! finalFile = Some stat
          ∧ w_res w4 = w_res w
          ∧ respond_ok mode ext filename = true
          ∧ r = Return ()
          ∧ w' = (respond P mode ext filename finalFile stat w4).2).
Proof.
  unfold download_body. intros H.
  rewrite bind_eq in H.
  pose proof (getVideoInfo_response P url w) as R1.
  destruct (getVideoInfo P url w) as [[info|e] w1] eqn:Hinfo; [|thrown_early].
  destruct (js_gt P _ MAX_DURATION) eqn:Hdur; [thrown_early|].
  rewrite bind_eq in H. unfold sanitized_title in H.
  destruct (js_or (info_title info) (JStr (js "video"))) as [| | | |name| |] eqn:Hname;
    try thrown_early.
  unfold ret at 1 in H.
  destruct (format_selector P mode quality container bitrate (sanitizeFilename name))
    as [[format ext] filename0] eqn:Hfmt.
  rewrite bind_eq, temp_path_run, bind_eq in H.
  set (tempFile := temp_name P (js "ytdl_") ext w1) in *.
  pose proof (downloadVideo_response P url format ext tempFile mode bitrate container
                (after_temp_path w1)) as R3.
  destruct (downloadVideo P url format ext tempFile mode bitrate container _)
    as [[[]|e] w3] eqn:Hdl; [|thrown_early].
  rewrite bind_eq in H.
  unfold trimming.
  destruct (param_truthy start || param_truthy end_) eqn:Htrim.
  - rewrite bind_eq, temp_path_run, bind_eq in H.
    set (trimmedFile := temp_name P (js "ytdl_trim_") ext w3) in *.
    pose proof (trimVideo_response P tempFile trimmedFile start end_ (after_temp_path w3)) as R4.
    destruct (trimVideo P tempFile trimmedFile start end_ _) as [[[]|e] w4] eqn:Htr;
      [|thrown_early].
    rewrite bind_eq, unlink_quietly_run in H.
    pose proof (unlink_quietly_response tempFile w4) as R5.
    set (w5 := (try_catch (fs_unlink tempFile) (λ _, ret ()) w4).2) in *.
    unfold ret at 1 in H. rewrite bind_eq in H. unfold fs_stat at 1 in H.
    destruct (w_fs w5 !! trimmedFile) as [stat|] eqn:Hstat; [|thrown_early].
    change (respond P mode ext (String_replace filename0 (js "." ++ ext) (js "_trimmed." ++ ext))
              trimmedFile stat w5 = (r, w')) in H.
    destruct (respond_ok mode ext
                (String_replace filename0 (js "." ++ ext) (js "_trimmed." ++ ext))) eqn:Hhdr.
    2: { destruct (respond_refused P _ _ _ trimmedFile stat w5 Hhdr)
           as (e & w'' & Hthrow & Hsent & _).
         rewrite Hthrow in H. thrown_early. }
    pose proof (respond_returns P mode ext
        (String_replace filename0 (js "." ++ ext) (js "_trimmed." ++ ext))
        trimmedFile stat w5 Hhdr) as Hr.
    rewrite H in Hr.
    right. exists info, name, w1, w3, w5, trimmedFile,
      (String_replace filename0 (js "." ++ ext) (js "_trimmed." ++ ext)), stat.
    rewrite Hfmt. unfold same_response in *. simpl in *.
    repeat split; eauto; try congruence.
    by rewrite H.
  - unfold ret at 1 in H. rewrite bind_eq in H. unfold fs_stat at 1 in H.
    destruct (w_fs w3 !! tempFile) as [stat|] eqn:Hstat; [|thrown_early].
    change (respond P mode ext filename0 tempFile stat w3 = (r, w')) in H.
    destruct (respond_ok mode ext filename0) eqn:Hhdr.
    2: { destruct (respond_refused P _ _ _ tempFile stat w3 Hhdr)
           as (e & w'' & Hthrow & Hsent & _).
         rewrite Hthrow in H. thrown_early. }
    pose proof (respond_returns P mode ext filename0 tempFile stat w3 Hhdr) as Hr.
    rewrite H in Hr.
    right. exists info, name, w1, w3, w3, tempFile, filename0, stat.
    rewrite Hfmt. unfold same_response in *. simpl in *.
    repeat split; eauto; try congruence.
    by rewrite H.
Qed.

Lemma unlink_quietly_fs (path : jstr) (w : World) :
  w_fs (try_catch (fs_unlink path) (λ _, ret ()) w).2 = delete path (w_fs w).
Proof.
  rewrite try_catch_eq. unfold fs_unlink.
  destruct (w_fs w !! path) eqn:E; simpl; [reflexivity|].
  symmetry. by apply delete_id.
Qed.

Lemma unlink_quietly_res (path : jstr) (w : World) :
  w_res (try_catch (fs_unlink path) (λ _, ret ()) w).2 = w_res w.
Proof. apply (unlink_quietly_response path w). Qed.

Lemma respond_response (P : Platform) (mode ext filename finalFile : jstr)
    (stat : media) (w : World) :
  respond_ok mode ext filename = true →
  w_res (respond P mode ext filename finalFile stat w).2
  = final_response P mode ext filename finalFile stat w.
Proof.
  intros Hok. rewrite respond_accepted by exact Hok. unfold final_response.
  unfold pipe_and_clean. cbn [w_fs set_res].
  destruct (read_stream P finalFile (w_fs w)).
  - rewrite bind_eq. unfold res_piped at 1. rewrite unlink_quietly_run.
    cbn [snd]. rewrite unlink_quietly_res. cbn. reflexivity.
  - rewrite bind_eq, unlink_quietly_run, bind_eq. unfold res_headersSent at 1.
    rewrite unlink_quietly_res. cbn.
    destruct (headersSent (w_res w)); cbn; rewrite ?unlink_quietly_res; cbn;
      reflexivity.
  - rewrite bind_eq. unfold res_piped at 1.
    rewrite bind_eq, unlink_quietly_run, bind_eq. unfold res_headersSent at 1.
    rewrite unlink_quietly_res. cbn. rewrite unlink_quietly_res. cbn.
    reflexivity.
  - reflexivity.
Qed.

(** When a listener of the stream runs, the file it read is unlinked;
    when the response was closed first, the file stays. *)
Lemma respond_fs (P : Platform) (mode ext filename finalFile : jstr)
    (stat : media) (w : World) :
  respond_ok mode ext filename = true →
  w_fs (respond P mode ext filename finalFile stat w).2
  = if listener_ran (read_stream P finalFile (w_fs w))
    then delete finalFile (w_fs w) else w_fs w.
Proof.
  intros Hok. rewrite respond_accepted by exact Hok.
  unfold pipe_and_clean. cbn [w_fs set_res].
  destruct (read_stream P finalFile (w_fs w)); cbn [listener_ran].
  - rewrite bind_eq. unfold res_piped at 1. rewrite unlink_quietly_run.
    cbn [snd]. by rewrite unlink_quietly_fs.
  - rewrite bind_eq, unlink_quietly_run, bind_eq. unfold res_headersSent at 1.
    destruct (negb _); cbn; by rewrite unlink_quietly_fs.
  - rewrite bind_eq. unfold res_piped at 1.
    rewrite bind_eq, unlink_quietly_run, bind_eq. unfold res_headersSent at 1.
    destruct (negb _); cbn; by rewrite unlink_quietly_fs.
  - reflexivity.
Qed.

(** The [catch] block when nothing of the response was sent. *)
Lemma catch_unsent (e : jstr) (w : World) :
  headersSent (w_res w) = false →
  ((let! sent := res_headersSent in
    if negb sent then res_status_json 500 (BError e) else ret ()) w).2
  = set_res {| headersSent := true; statusCode := 500; headers := headers (w_res w);
               body := BError e |} w.
Proof.
  intros Hres. rewrite bind_eq. unfold res_headersSent. cbn beta iota.
  rewrite Hres. reflexivity.
Qed.

(** The [catch] block when the response was not touched. *)
Lemma catch_before_headers (e : jstr) (w : World) :
  w_res w = fresh_response →
  ((let! sent := res_headersSent in
    if negb sent then res_status_json 500 (BError e) else ret ()) w).2
  = set_res {| headersSent := true; statusCode := 500; headers := [];
               body := BError e |} w.
Proof.
  intros Hres. rewrite bind_eq. unfold res_headersSent. cbn beta iota.
  rewrite Hres. cbn [fresh_response headersSent negb].
  unfold res_status_json. cbn [snd]. rewrite Hres. reflexivity.
Qed.

Lemma finish_download (P : Platform) (q : DownloadQuery) (fs : gmap jstr media) :
  ¬ rejected P (GetDownload q) →
  finish P (GetDownload q) fs
  = (try_catch
       (download_body P (with_default [] (q_url q)) (with_default (js "video") (q_mode q))
          (with_default (js "720p") (q_quality q)) (with_default (js "mp4") (q_container q))
          (with_default (js "192") (q_bitrate q)) (q_start q) (q_end q))
       (fun message =>
          let! sent := res_headersSent in
          if negb sent then res_status_json 500 (BError message) else ret ())
       (start_world fs)).2.
Proof.
  intros Hok. unfold finish, handle, download_handler.
  destruct (negb (param_truthy (q_url q)) || _) eqn:Hurl.
  { exfalso. apply Hok. left. by apply url_check_spec. }
  destruct (negb (bool_decide _)) eqn:Hmode.
  { exfalso. apply Hok. right. by apply mode_check_spec. }
  reflexivity.
Qed.

(** An accepted [/download] request ends in one of two ways: the [try]
    block threw before anything was sent and the handler answered 500
    with the message, or the headers were accepted and the file was
    piped into the response. *)
Lemma download_finish_cases (P : Platform) (q : DownloadQuery) (fs : gmap jstr media) :
  ¬ rejected P (GetDownload q) →
  let url := with_default [] (q_url q) in
  let mode := with_default (js "video") (q_mode q) in
  let quality := with_default (js "720p") (q_quality q) in
  let container := with_default (js "mp4") (q_container q) in
  let bitrate := with_default (js "192") (q_bitrate q) in
  (∃ e w',
      download_body P url mode quality container bitrate (q_start q) (q_end q)
                    (start_world fs) = (Throw e, w')
      ∧ finish P (GetDownload q) fs
        = set_res {| headersSent := true; statusCode := 500; headers := headers (w_res w');
                     body := BError e |} w')
  ∨ (∃ info name w1 w3 w4 finalFile filename stat,
        getVideoInfo P url (start_world fs) = (Return info, w1)
        ∧ js_gt P (js_or (info_duration info) (JNum (Finite 0))) MAX_DURATION = false
        ∧ js_or (info_title info) (JStr (js "video")) = JStr name
        ∧ let '(format, ext, filename0) :=
            format_selector P mode quality container bitrate (sanitizeFilename name) in
          downloadVideo P url format ext (temp_name P (js "ytdl_") ext w1)
                        mode bitrate container (after_temp_path w1) = (Return (), w3)
          ∧ trimming P (temp_name P (js "ytdl_") ext w1) ext filename0 (q_start q) (q_end q)
                     w3 finalFile filename w4
          ∧ w_fs w4 !! finalFile = Some stat
          ∧ w_res w4 = fresh_response
          ∧ respond_ok mode ext filename = true
          ∧ finish P (GetDownload q) fs = (respond P mode ext filename finalFile stat w4).2).
Proof.
  intros Hok url mode quality container bitrate.
  rewrite (finish_download P q fs Hok). fold url mode quality container bitrate.
  rewrite try_catch_eq.
  destruct (download_body P url mode quality container bitrate (q_start q) (q_end q)
              (start_world fs)) as [r w'] eqn:Hbody.
  destruct (download_body_inv _ _ _ _ _ _ _ _ _ _ _ Hbody)
    as [(e & -> & Hres)|(info & name & w1 & w3 & w4 & finalFile & filename & stat & Hrun)].
  - left. exists e, w'. split; [reflexivity|].
    by apply catch_unsent.
  - right. exists info, name, w1, w3, w4, finalFile, filename, stat.
    destruct Hrun as (Hinfo & Hdur & Hname & Hrest). repeat split; try assumption.
    destruct (format_selector P mode quality container bitrate (sanitizeFilename name))
      as [[format ext] filename0].
    destruct Hrest as (Hdl & Htrim & Hstat & Hres & Hhdr & -> & ->).
    repeat split; assumption.
Qed.

Lemma rejected_or_not (P : Platform) (r : Request) : rejected P r ∨ ¬ rejected P r.
Proof.
  destruct r as [q|q]; simpl.
  - rewrite <- url_check_spec. destruct (_ || _); [by left|by right].
  - rewrite <- url_check_spec, <- mode_check_spec.
    destruct (_ || _); [by left; left|]. destruct (negb _); [by left; right|].
    right. intros [?|?]; discriminate.
Qed.

Lemma rejected_finish (P : Platform) (r : Request) (fs : gmap jstr media) :
  rejected P r →
  ∃ message,
    finish P r fs
    = set_res {| headersSent := true; statusCode := 400; headers := [];
                 body := BError message |} (start_world fs).
Proof.
  destruct r as [q|q]; unfold rejected, finish, handle.
  - intros H%url_check_spec. unfold info_handler. rewrite H. eexists. reflexivity.
  - intros H. unfold download_handler.
    destruct (negb (param_truthy (q_url q)) || _) eqn:Hurl.
    + eexists. reflexivity.
    + destruct H as [H%url_check_spec|H%mode_check_spec]; [congruence|].
      rewrite H. eexists. reflexivity.
Qed.

(** The headers of a response into which a file was piped. *)
Lemma streamed_headers (P : Platform) (mode ext filename finalFile : jstr)
    (stat : media) (w : World) (path : jstr) (content : option media) (complete : bool) :
  w_res w = fresh_response →
  body (final_response P mode ext filename finalFile stat w) = BStream path content complete →
  path = finalFile
  ∧ content = w_fs w !! finalFile
  ∧ statusCode (final_response P mode ext filename finalFile stat w) = 200%nat
  ∧ headers (final_response P mode ext filename finalFile stat w)
    = [(js "Content-Type", HText (content_type mode ext));
       (js "Content-Length", HNumber (media_size stat));
       (js "Content-Disposition",
         HText (js "attachment; filename=" ++ [34] ++ filename ++ [34]));
       (js "Cache-Control", HText (js "no-cache"))].
Proof.
  intros Hres. unfold final_response. rewrite Hres.
  destruct (read_stream P finalFile (w_fs w)); cbn; intros H; simplify_eq; done.
Qed.

Lemma header_Content_Type (w : World) (a b c d : header_value) :
  headers (w_res w)
  = [(js "Content-Type", a); (js "Content-Length", b);
     (js "Content-Disposition", c); (js "Cache-Control", d)] →
  header (js "Content-Type") w = Some a.
Proof. intros H. unfold header. rewrite H. reflexivity. Qed.

Lemma header_Content_Disposition (w : World) (a b c d : header_value) :
  headers (w_res w)
  = [(js "Content-Type", a); (js "Content-Length", b);
     (js "Content-Disposition", c); (js "Cache-Control", d)] →
  header (js "Content-Disposition") w = Some c.
Proof. intros H. unfold header. rewrite H. reflexivity. Qed.

(** C6: when a [/download] request with [mode=audio] and
    [container=mp3] ends with a file piped into the response, the
    [Content-Type] header is [audio/mpeg], the extension chosen is
    [mp3], and the file piped is a temporary file with that
    extension. *)
Theorem audio_mp3_content_type
    (P : Platform) (q : DownloadQuery) (fs : gmap jstr media)
    (path : jstr) (content : option media) (complete : bool) :
  q_mode q = Some (js "audio") →
  q_container q = Some (js "mp3") →
  body (w_res (finish P (GetDownload q) fs)) = BStream path content complete →
  header (js "Content-Type") (finish P (GetDownload q) fs) = Some (HText (js "audio/mpeg"))
  ∧ (∀ title,
       (format_selector P (js "audio") (with_default (js "720p") (q_quality q)) (js "mp3")
          (with_default (js "192") (q_bitrate q)) title).1.2 = js "mp3")
  ∧ ∃ stem, path = path_join P (os_tmpdir P) (stem ++ js ".mp3").
Proof.
  intros Hmode Hcont Hbody.
  destruct (rejected_or_not P (GetDownload q)) as [Hrej|Hok].
  { destruct (rejected_finish P _ fs Hrej) as [m Hm]. rewrite Hm in Hbody. discriminate. }
  destruct (download_finish_cases P q fs Hok)
    as [(e & w' & _ & Hfin)|(info & name & w1 & w3 & w4 & finalFile & filename & stat
                             & Hinfo & Hdur & Hname & Hrest)].
  { rewrite Hfin in Hbody. discriminate. }
  rewrite Hmode, Hcont in Hrest. cbn [with_default] in Hrest.
  unfold format_selector in Hrest.
  rewrite !bool_decide_eq_true_2 in Hrest by reflexivity.
  destruct Hrest as (Hdl & Htrim & Hstat & Hres & Hhdrs & Hfin).
  rewrite Hfin, respond_response in Hbody by exact Hhdrs.
  destruct (streamed_headers _ _ _ _ _ _ _ _ _ _ Hres Hbody) as (-> & -> & Hstatus & Hhdr).
  split; [|split].
  - erewrite header_Content_Type; [|rewrite Hfin, respond_response by exact Hhdrs; exact Hhdr].
    reflexivity.
  - intros title. unfold format_selector.
    rewrite !bool_decide_eq_true_2 by reflexivity. reflexivity.
  - unfold trimming in Htrim.
    destruct (param_truthy (q_start q) || param_truthy (q_end q)).
    + destruct Htrim as (w2 & _ & _ & -> & _). unfold temp_name.
      exists (js "ytdl_trim_" ++ Date_now_text P (w_clock w3) ++ js "_"
                ++ Math_random_text P (w_draws w3)).
      by rewrite <- !app_assoc.
    + destruct Htrim as (-> & _ & _). unfold temp_name.
      exists (js "ytdl_" ++ Date_now_text P (w_clock w1) ++ js "_"
                ++ Math_random_text P (w_draws w1)).
      by rewrite <- !app_assoc.
Qed.

Lemma audio_mp3_content_type_witness :
  header (js "Content-Type") (finish fair_platform (GetDownload audio_query) ∅)
  = Some (HText (js "audio/mpeg"))
  ∧ (∀ title,
       (format_selector fair_platform (js "audio")
          (with_default (js "720p") (q_quality audio_query)) (js "mp3")
          (with_default (js "192") (q_bitrate audio_query)) title).1.2 = js "mp3")
  ∧ ∃ stem, js "/tmp/ytdl_1700000000000_k3x90.mp3"
            = path_join fair_platform (os_tmpdir fair_platform) (stem ++ js ".mp3").
Proof.
  apply (audio_mp3_content_type fair_platform audio_query ∅
           (js "/tmp/ytdl_1700000000000_k3x90.mp3") (Some five_minutes) true).
  - reflexivity.
  - reflexivity.
  - vm_compute. reflexivity.
Defined.

(** ** The duration ceiling *)

Lemma exceeds_js_gt (P : Platform) (n : jsnum) :
  exceeds n MAX_DURATION →
  js_gt P (js_or (JNum n) (JNum (Finite 0))) MAX_DURATION = true.
Proof.
  destruct n as [z| | |]; simpl; try done.
  intros Hz. unfold js_or, truthy.
  assert (Qeq_bool z 0 = false) as ->.
  { destruct (Qeq_bool z 0) eqn:E; [|reflexivity].
    apply Qeq_bool_eq in E. rewrite E in Hz. discriminate Hz. }
  simpl. unfold js_gt, ToNumber.
  destruct (Qle_bool z (inject_Z (Z.of_N MAX_DURATION))) eqn:E; [|reflexivity].
  apply Qle_bool_iff in E. exfalso. exact (Qlt_not_le _ _ Hz E).
Qed.

Lemma falsy_duration (P : Platform) (d : json) :
  d = JUndefined ∨ d = JNull ∨ (∃ z, d = JNum (Finite z) ∧ (z == 0)%Q) →
  js_or d (JNum (Finite 0)) = JNum (Finite 0)
  ∧ js_gt P (js_or d (JNum (Finite 0))) MAX_DURATION = false.
Proof.
  intros [->| [->|(z & -> & Hz)]]; unfold js_or; simpl;
    rewrite ?(proj2 (Qeq_bool_iff _ _) Hz); simpl; split; reflexivity.
Qed.

Lemma download_body_too_long (P : Platform) (url mode quality container bitrate : jstr)
    (start end_ : option jstr) (w : World) (info : VideoInfo) (w1 : World) :
  getVideoInfo P url w = (Return info, w1) →
  js_gt P (js_or (info_duration info) (JNum (Finite 0))) MAX_DURATION = true →
  download_body P url mode quality container bitrate start end_ w
  = (Throw (js "Video too long (max 60 minutes)"), w1).
Proof.
  intros Hinfo Hgt. unfold download_body. rewrite bind_eq, Hinfo, Hgt. reflexivity.
Qed.

Lemma getVideoInfo_spawned (P : Platform) (url : jstr) (fs : gmap jstr media) :
  spawned (getVideoInfo P url (start_world fs)).2 = [info_call P url].
Proof. rewrite getVideoInfo_world, spawned_log_spawn. reflexivity. Qed.

(** C2: when the metadata fetched for an accepted [/download] request
    has a duration above 3600 seconds, the request is answered with
    status 500 and the message about the limit; the only process
    spawned is the one that fetched the metadata, so the download tool
    is never called, and no file is created by the handler. *)
Theorem too_long_fails_before_download
    (P : Platform) (q : DownloadQuery) (fs : gmap jstr media)
    (info : VideoInfo) (w1 : World) (n : jsnum) :
  ¬ rejected P (GetDownload q) →
  getVideoInfo P (with_default [] (q_url q)) (start_world fs) = (Return info, w1) →
  info_duration info = JNum n →
  exceeds n MAX_DURATION →
  statusCode (w_res (finish P (GetDownload q) fs)) = 500%nat
  ∧ body (w_res (finish P (GetDownload q) fs)) = BError (js "Video too long (max 60 minutes)")
  ∧ spawned (finish P (GetDownload q) fs) = [info_call P (with_default [] (q_url q))]
  ∧ w_fs (finish P (GetDownload q) fs) = w_fs w1.
Proof.
  intros Hok Hinfo Hd Hn.
  pose proof (getVideoInfo_response P (with_default [] (q_url q)) (start_world fs)) as Hres.
  pose proof (getVideoInfo_spawned P (with_default [] (q_url q)) fs) as Hsp.
  rewrite Hinfo in Hres, Hsp. unfold same_response in Hres. cbn [snd] in Hres, Hsp.
  assert (finish P (GetDownload q) fs
          = set_res {| headersSent := true; statusCode := 500; headers := [];
                       body := BError (js "Video too long (max 60 minutes)") |} w1) as ->.
  { rewrite (finish_download P q fs Hok), try_catch_eq.
    erewrite download_body_too_long; [|exact Hinfo|rewrite Hd; by apply exceeds_js_gt].
    by apply catch_before_headers. }
  cbn. repeat split. exact Hsp.
Qed.

Lemma too_long_fails_before_download_witness :
  statusCode (w_res (finish (demo_platform (metadata_of 7200) 0 five_minutes StreamEnd)
                            (GetDownload plain_query) ∅)) = 500%nat
  ∧ body (w_res (finish (demo_platform (metadata_of 7200) 0 five_minutes StreamEnd)
                        (GetDownload plain_query) ∅))
    = BError (js "Video too long (max 60 minutes)")
  ∧ spawned (finish (demo_platform (metadata_of 7200) 0 five_minutes StreamEnd)
                    (GetDownload plain_query) ∅)
    = [info_call (demo_platform (metadata_of 7200) 0 five_minutes StreamEnd)
                 (with_default [] (q_url plain_query))]
  ∧ w_fs (finish (demo_platform (metadata_of 7200) 0 five_minutes StreamEnd)
                 (GetDownload plain_query) ∅)
    = w_fs (getVideoInfo (demo_platform (metadata_of 7200) 0 five_minutes StreamEnd)
              watch_url (start_world ∅)).2.
Proof.
  eapply (too_long_fails_before_download
            (demo_platform (metadata_of 7200) 0 five_minutes StreamEnd) plain_query ∅
            _ _ (Finite (inject_Z 7200))).
  - intros [H|H]; [apply url_check_spec in H|apply mode_check_spec in H];
      vm_compute in H; discriminate.
  - vm_compute. reflexivity.
  - reflexivity.
  - vm_compute. reflexivity.
Defined.

Lemma downloadVideo_world (P : Platform) (url format ext outputPath mode bitrate container : jstr)
    (w : World) :
  (downloadVideo P url format ext outputPath mode bitrate container w).2
  = log (EvSpawn (YT_DLP_PATH P)
           (download_args url format ext outputPath mode bitrate container))
        (set_fs (spawn P (YT_DLP_PATH P)
                   (download_args url format ext outputPath mode bitrate container)
                   (w_fs w)).2 w).
Proof.
  unfold downloadVideo. rewrite bind_eq. unfold run_process.
  destruct (spawn P _ _ _) as [[m|code so se] fs']; [reflexivity|].
  destruct (exit_failed code); [reflexivity|].
  rewrite try_catch_eq. unfold fs_access. cbn.
  destruct (fs' !! outputPath); reflexivity.
Qed.

(** Once the title is sanitized, the [try] block goes on to the
    download, and whatever follows only extends the trace. *)
Lemma download_body_reaches_download (P : Platform)
    (url mode quality container bitrate : jstr) (start end_ : option jstr)
    (w : World) (info : VideoInfo) (w1 : World) (name : jstr) :
  getVideoInfo P url w = (Return info, w1) →
  js_gt P (js_or (info_duration info) (JNum (Finite 0))) MAX_DURATION = false →
  js_or (info_title info) (JStr (js "video")) = JStr name →
  let '(format, ext, _) :=
    format_selector P mode quality container bitrate (sanitizeFilename name) in
  trace_grows
    (downloadVideo P url format ext (temp_name P (js "ytdl_") ext w1)
       mode bitrate container (after_temp_path w1)).2
    (download_body P url mode quality container bitrate start end_ w).2.
Proof.
  intros Hinfo Hgt Hname. unfold download_body.
  rewrite bind_eq, Hinfo, Hgt, bind_eq. unfold sanitized_title. rewrite Hname.
  unfold ret at 1.
  destruct (format_selector P mode quality container bitrate (sanitizeFilename name))
    as [[format ext] filename0].
  rewrite bind_eq, temp_path_run.
  apply stable_after_bind; [typeclasses eauto|].
  intros _. repeat stable_step.
Qed.

(** A title that is neither text nor falsy ends the [try] block right
    after the duration check. *)
Lemma download_body_bad_title (P : Platform)
    (url mode quality container bitrate : jstr) (start end_ : option jstr)
    (w : World) (info : VideoInfo) (w1 : World) :
  getVideoInfo P url w = (Return info, w1) →
  js_gt P (js_or (info_duration info) (JNum (Finite 0))) MAX_DURATION = false →
  (∀ name, js_or (info_title info) (JStr (js "video")) ≠ JStr name) →
  download_body P url mode quality container bitrate start end_ w
  = (Throw (js "name.replace is not a function"), w1).
Proof.
  intros Hinfo Hgt Hname. unfold download_body.
  rewrite bind_eq, Hinfo, Hgt, bind_eq. unfold sanitized_title.
  destruct (js_or (info_title info) (JStr (js "video"))) as [| | | |name| |];
    try reflexivity.
  by destruct (Hname name).
Qed.

(** C10 (amended): when the duration in the metadata is absent, [null]
    or zero, the handler takes it to be 0 and the comparison with the
    ceiling of 3600 seconds is false.  What follows depends on the
    title: when it is text, or falsy (the handler then falls back to
    ['video']), the download tool is spawned right after the metadata
    was fetched; when it is any other value, [sanitizeFilename] throws
    and the request is answered 500 with the metadata fetch as its only
    process. *)
Theorem unknown_duration_passes_ceiling
    (P : Platform) (q : DownloadQuery) (fs : gmap jstr media)
    (info : VideoInfo) (w1 : World) :
  ¬ rejected P (GetDownload q) →
  getVideoInfo P (with_default [] (q_url q)) (start_world fs) = (Return info, w1) →
  info_duration info = JUndefined ∨ info_duration info = JNull
    ∨ (∃ z, info_duration info = JNum (Finite z) ∧ (z == 0)%Q) →
  js_or (info_duration info) (JNum (Finite 0)) = JNum (Finite 0)
  ∧ js_gt P (js_or (info_duration info) (JNum (Finite 0))) MAX_DURATION = false
  ∧ match js_or (info_title info) (JStr (js "video")) with
    | JStr name =>
        let '(format, ext, _) :=
          format_selector P (with_default (js "video") (q_mode q))
            (with_default (js "720p") (q_quality q)) (with_default (js "mp4") (q_container q))
            (with_default (js "192") (q_bitrate q)) (sanitizeFilename name) in
        ∃ rest,
          spawned (finish P (GetDownload q) fs)
          = info_call P (with_default [] (q_url q))
            :: (YT_DLP_PATH P,
                download_args (with_default [] (q_url q)) format ext
                  (temp_name P (js "ytdl_") ext w1)
                  (with_default (js "video") (q_mode q))
                  (with_default (js "192") (q_bitrate q))
                  (with_default (js "mp4") (q_container q)))
            :: rest
    | _ =>
        spawned (finish P (GetDownload q) fs) = [info_call P (with_default [] (q_url q))]
        ∧ statusCode (w_res (finish P (GetDownload q) fs)) = 500%nat
        ∧ body (w_res (finish P (GetDownload q) fs))
          = BError (js "name.replace is not a function")
    end.
Proof.
  intros Hok Hinfo Hd.
  destruct (falsy_duration P _ Hd) as [Hzero Hgt].
  split; [exact Hzero|]. split; [exact Hgt|].
  pose proof (getVideoInfo_spawned P (with_default [] (q_url q)) fs) as Hsp.
  rewrite Hinfo in Hsp. cbn [snd] in Hsp.
  assert ((∀ name, js_or (info_title info) (JStr (js "video")) ≠ JStr name) →
          spawned (finish P (GetDownload q) fs) = [info_call P (with_default [] (q_url q))]
          ∧ statusCode (w_res (finish P (GetDownload q) fs)) = 500%nat
          ∧ body (w_res (finish P (GetDownload q) fs))
            = BError (js "name.replace is not a function")) as Hbad.
  { intros Hname.
    rewrite (finish_download P q fs Hok), try_catch_eq.
    rewrite (download_body_bad_title P _ _ _ _ _ _ _ _ info w1 Hinfo Hgt Hname).
    rewrite catch_before_headers.
    - by rewrite <- Hsp.
    - pose proof (getVideoInfo_response P (with_default [] (q_url q)) (start_world fs)) as R.
      rewrite Hinfo in R. exact R. }
  destruct (js_or (info_title info) (JStr (js "video"))) as [| | | |name| |] eqn:Hname;
    try (apply Hbad; intros ?; discriminate).
  clear Hbad.
  pose proof (download_body_reaches_download P (with_default [] (q_url q))
                (with_default (js "video") (q_mode q))
                (with_default (js "720p") (q_quality q))
                (with_default (js "mp4") (q_container q))
                (with_default (js "192") (q_bitrate q))
                (q_start q) (q_end q) (start_world fs) info w1 name Hinfo Hgt Hname) as Hreach.
  destruct (format_selector P _ _ _ _ (sanitizeFilename name)) as [[format ext] filename0].
  rewrite (finish_download P q fs Hok).
  match goal with
  | |- context [try_catch ?m ?h ?w] =>
      pose proof (stable_after_try trace_grows m h w) as Hcatch
  end.
  assert (trace_grows
            (downloadVideo P (with_default [] (q_url q)) format ext
               (temp_name P (js "ytdl_") ext w1) (with_default (js "video") (q_mode q))
               (with_default (js "192") (q_bitrate q)) (with_default (js "mp4") (q_container q))
               (after_temp_path w1)).2
            (finish P (GetDownload q) fs)) as Hall.
  { rewrite (finish_download P q fs Hok). etrans; [exact Hreach|].
    apply Hcatch. intros e. repeat stable_step. }
  rewrite <- (finish_download P q fs Hok).
  apply spawned_prefix in Hall as [rest Hrest].
  exists rest. rewrite Hrest, downloadVideo_world, spawned_log_spawn.
  unfold spawned in *. cbn [w_trace set_fs after_temp_path]. rewrite Hsp. reflexivity.
Qed.

Lemma unknown_duration_passes_ceiling_witness :
  ∃ rest,
    spawned (finish (demo_platform (JObj [(js "title", JStr (js "A clip"))]) 0
                       five_minutes StreamEnd) (GetDownload plain_query) ∅)
    = (js "yt-dlp", [js "--dump-json"; js "--no-warnings"; watch_url])
      :: (js "yt-dlp",
          [js "-f"; js "bestvideo[height<=720]+bestaudio/best[height<=720]";
           js "--merge-output-format"; js "mp4"; js "-o";
           js "/tmp/ytdl_1700000000000_k3x90.mp4"; watch_url])
      :: rest.
Proof.
  refine (proj2 (proj2 (unknown_duration_passes_ceiling
            (demo_platform (JObj [(js "title", JStr (js "A clip"))]) 0 five_minutes StreamEnd)
            plain_query ∅
            {| info_id := JUndefined; info_title := JStr (js "A clip");
               info_duration := JUndefined; info_thumbnail := JUndefined;
               info_uploader := JUndefined; info_upload_date := JUndefined |}
            (getVideoInfo
               (demo_platform (JObj [(js "title", JStr (js "A clip"))]) 0
                  five_minutes StreamEnd) watch_url (start_world ∅)).2
            _ _ _))).
  - intros [H|H]; [apply url_check_spec in H|apply mode_check_spec in H];
      vm_compute in H; discriminate.
  - vm_compute. reflexivity.
  - left. reflexivity.
Defined.

(** C10, as stated, fails: with metadata that has no duration and the
    number 5 as its title, the ceiling check passes and the download
    does not proceed: the request is answered 500 and the metadata
    fetch is the only process that was spawned. *)
Lemma numeric_title_stops_download :
  (getVideoInfo numeric_title_platform watch_url (start_world ∅)).1
  = Return {| info_id := JUndefined; info_title := JNum (Finite 5);
              info_duration := JUndefined; info_thumbnail := JUndefined;
              info_uploader := JUndefined; info_upload_date := JUndefined |}
  ∧ js_gt numeric_title_platform (js_or JUndefined (JNum (Finite 0))) MAX_DURATION = false
  ∧ spawned (finish numeric_title_platform (GetDownload plain_query) ∅)
    = [(js "yt-dlp", [js "--dump-json"; js "--no-warnings"; watch_url])]
  ∧ statusCode (w_res (finish numeric_title_platform (GetDownload plain_query) ∅)) = 500%nat
  ∧ body (w_res (finish numeric_title_platform (GetDownload plain_query) ∅))
    = BError (js "name.replace is not a function").
Proof. vm_compute. repeat split. Qed.

(** ** The child processes *)

Lemma exit_failed_false (code : option Z) : exit_failed code = false ↔ code = Some 0%Z.
Proof. unfold exit_failed. by rewrite negb_false_iff, bool_decide_eq_true. Qed.

(** C4: [downloadVideo] resolves exactly when the tool closed with
    exit code 0 and the output file is there afterwards; any other exit
    code (or a kill by signal) rejects with the tool's diagnostics, and
    exit code 0 without the file rejects with "Downloaded file not
    found". *)
Theorem downloadVideo_double_confirmation
    (P : Platform) (url format ext outputPath mode bitrate container : jstr)
    (w : World) (out : proc_outcome) (fs' : gmap jstr media) :
  spawn P (YT_DLP_PATH P)
        (download_args url format ext outputPath mode bitrate container) (w_fs w)
  = (out, fs') →
  ((downloadVideo P url format ext outputPath mode bitrate container w).1 = Return ()
   ↔ (∃ stdout stderr, out = Closed (Some 0%Z) stdout stderr) ∧ is_Some (fs' !! outputPath))
  ∧ (∀ code stdout stderr,
       out = Closed code stdout stderr → code ≠ Some 0%Z →
       (downloadVideo P url format ext outputPath mode bitrate container w).1
       = Throw (js "Download failed: " ++ stderr))
  ∧ (∀ stdout stderr,
       out = Closed (Some 0%Z) stdout stderr → fs' !! outputPath = None →
       (downloadVideo P url format ext outputPath mode bitrate container w).1
       = Throw (js "Downloaded file not found")).
Proof.
  intros Hspawn. unfold downloadVideo. rewrite bind_eq. unfold run_process.
  rewrite Hspawn. cbn beta iota.
  destruct out as [m|code so se].
  - split; [|split].
    + split; [discriminate|]. intros [(? & ? & [=]) _].
    + intros ? ? ? [=].
    + intros ? ? [=].
  - destruct (exit_failed code) eqn:Hcode.
    + assert (code ≠ Some 0%Z) as Hne.
      { intros ->. discriminate Hcode. }
      split; [|split].
      * split; [discriminate|]. intros [(? & ? & [= -> _ _]) _]. done.
      * intros ? ? ? [= <- <- <-] _. reflexivity.
      * intros ? ? [= -> _ _]. done.
    + apply exit_failed_false in Hcode as ->.
      rewrite try_catch_eq. unfold fs_access. cbn [w_fs log set_fs].
      destruct (fs' !! outputPath) as [f|] eqn:Hfile; cbn.
      * split; [|split].
        -- split; [eauto|reflexivity].
        -- intros ? ? ? [= <- _ _] Hne. done.
        -- intros ? ? _ [=].
      * split; [|split].
        -- split; [discriminate|]. intros [_ [? [=]]].
        -- intros ? ? ? [= <- _ _] Hne. done.
        -- reflexivity.
Qed.

Lemma downloadVideo_double_confirmation_witness :
  (downloadVideo fair_platform watch_url (js "best") (js "mp4") (js "/tmp/a.mp4")
     (js "video") (js "192") (js "mp4") (start_world ∅)).1 = Return ()
  ↔ (∃ stdout stderr, Closed (Some 0%Z) [] [] = Closed (Some 0%Z) stdout stderr)
    ∧ is_Some ((<[js "/tmp/a.mp4" := five_minutes]> (∅ : gmap jstr media)) !! js "/tmp/a.mp4").
Proof.
  refine (proj1 (downloadVideo_double_confirmation fair_platform watch_url (js "best")
                   (js "mp4") (js "/tmp/a.mp4") (js "video") (js "192") (js "mp4")
                   (start_world ∅) (Closed (Some 0%Z) [] [])
                   (<[js "/tmp/a.mp4" := five_minutes]> ∅) _)).
  reflexivity.
Defined.

Lemma getVideoInfo_result (P : Platform) (url : jstr) (w : World) :
  (getVideoInfo P url w).1
  = match (spawn P (YT_DLP_PATH P) [js "--dump-json"; js "--no-warnings"; url] (w_fs w)).1 with
    | SpawnError message => Throw (js "yt-dlp error: " ++ message)
    | Closed code stdout stderr =>
        if exit_failed code then Throw (js "Failed to fetch video info: " ++ stderr)
        else match JSON_parse P stdout ≫= info_of with
             | Some info => Return info
             | None => Throw (js "Failed to parse video info")
             end
    end.
Proof.
  unfold getVideoInfo. rewrite bind_eq. unfold run_process.
  destruct (spawn P _ _ _) as [[m|code so se] fs']; [reflexivity|].
  cbn beta iota. cbn [fst].
  destruct (exit_failed code); [reflexivity|].
  destruct (JSON_parse P so) as [v|]; [|reflexivity].
  cbn [mbind option_bind]. unfold info_of.
  repeat (match goal with |- context [get_prop v ?k] => destruct (get_prop v k) end);
    reflexivity.
Qed.

Lemma finish_info (P : Platform) (q : InfoQuery) (fs : gmap jstr media) :
  ¬ rejected P (GetInfo q) →
  finish P (GetInfo q) fs
  = match getVideoInfo P (with_default [] (iq_url q)) (start_world fs) with
    | (Return info, w1) =>
        set_res {| headersSent := true; statusCode := 200; headers := [];
                   body := BInfo info |} w1
    | (Throw e, w1) =>
        set_res {| headersSent := true; statusCode := 500; headers := [];
                   body := BError e |} w1
    end.
Proof.
  intros Hok. unfold finish, handle, info_handler.
  destruct (negb (param_truthy (iq_url q)) || _) eqn:Hurl.
  { exfalso. apply Hok. by apply url_check_spec. }
  rewrite try_catch_eq, bind_eq.
  pose proof (getVideoInfo_response P (with_default [] (iq_url q)) (start_world fs)) as Hres.
  destruct (getVideoInfo P _ _) as [[info|e] w1]; unfold same_response in Hres;
    cbn [snd] in Hres; unfold res_json, res_status_json; cbn [snd]; rewrite Hres; reflexivity.
Qed.

(** C5: [getVideoInfo] resolves only when the tool closed with exit
    code 0 and its output parsed, and then to the record of the six
    properties of the parsed value; a different exit or output that
    does not parse rejects, and [/info] answers 500 with the message of
    the rejection; [/info] answers 400 exactly for the requests that
    the URL validation rejects. *)
Theorem getVideoInfo_needs_exit_0_and_json
    (P : Platform) (url : jstr) (fs : gmap jstr media)
    (out : proc_outcome) (fs' : gmap jstr media) :
  spawn P (YT_DLP_PATH P) [js "--dump-json"; js "--no-warnings"; url] fs = (out, fs') →
  (∀ info,
     (getVideoInfo P url (start_world fs)).1 = Return info →
     ∃ stdout stderr v,
       out = Closed (Some 0%Z) stdout stderr
       ∧ JSON_parse P stdout = Some v
       ∧ info_of v = Some info)
  ∧ ((∀ stdout stderr, out ≠ Closed (Some 0%Z) stdout stderr)
     ∨ (∃ stdout stderr, out = Closed (Some 0%Z) stdout stderr ∧ JSON_parse P stdout = None) →
     ∃ message,
       (getVideoInfo P url (start_world fs)).1 = Throw message
       ∧ (¬ rejected P (GetInfo {| iq_url := Some url |}) →
          statusCode (w_res (finish P (GetInfo {| iq_url := Some url |}) fs)) = 500%nat
          ∧ body (w_res (finish P (GetInfo {| iq_url := Some url |}) fs)) = BError message))
  ∧ (∀ q, statusCode (w_res (finish P (GetInfo q) fs)) = 400%nat ↔ rejected P (GetInfo q)).
Proof.
  intros Hspawn.
  pose proof (getVideoInfo_result P url (start_world fs)) as Hr.
  cbn [start_world w_fs] in Hr. rewrite Hspawn in Hr. cbn [fst] in Hr.
  split; [|split].
  - intros info Hinfo. rewrite Hinfo in Hr.
    destruct out as [m|code so se]; [discriminate|].
    destruct (exit_failed code) eqn:Hcode; [discriminate|].
    apply exit_failed_false in Hcode as ->.
    destruct (JSON_parse P so) as [v|] eqn:Hv; [|discriminate].
    cbn [mbind option_bind] in Hr.
    destruct (info_of v) as [info'|] eqn:Hi; [|discriminate].
    exists so, se, v. by simplify_eq.
  - intros Hfail.
    assert (∃ message, (getVideoInfo P url (start_world fs)).1 = Throw message)
      as [message Hm].
    { rewrite Hr. destruct Hfail as [Hne|(so & se & -> & Hparse)].
      - destruct out as [m|code so se]; [eauto|].
        destruct (exit_failed code) eqn:Hcode; [eauto|].
        apply exit_failed_false in Hcode as ->. by destruct (Hne so se).
      - cbn. rewrite Hparse. eauto. }
    exists message. split; [exact Hm|].
    intros Hok. rewrite (finish_info P _ fs Hok). cbn [iq_url with_default].
    destruct (getVideoInfo P url (start_world fs)) as [[info|e] w1];
      cbn [fst] in Hm; simplify_eq. split; reflexivity.
  - intros q. destruct (rejected_or_not P (GetInfo q)) as [Hrej|Hok].
    + destruct (rejected_finish P _ fs Hrej) as [m ->]. done.
    + rewrite (finish_info P q fs Hok).
      destruct (getVideoInfo P (with_default [] (iq_url q)) (start_world fs))
        as [[info|e] w1]; cbn;
        (split; [intros [=]|intros H; destruct (Hok H)]).
Qed.

Lemma getVideoInfo_needs_exit_0_and_json_witness :
  ∃ message,
    (getVideoInfo garbled_platform watch_url (start_world ∅)).1 = Throw message
    ∧ (¬ rejected garbled_platform (GetInfo {| iq_url := Some watch_url |}) →
       statusCode (w_res (finish garbled_platform
                            (GetInfo {| iq_url := Some watch_url |}) ∅)) = 500%nat
       ∧ body (w_res (finish garbled_platform
                        (GetInfo {| iq_url := Some watch_url |}) ∅)) = BError message).
Proof.
  refine (proj1 (proj2 (getVideoInfo_needs_exit_0_and_json garbled_platform watch_url ∅
                          (Closed (Some 0%Z) (js "{}") []) ∅ _)) _).
  - reflexivity.
  - right. exists (js "{}"), []. split; reflexivity.
Defined.

(** ** The host pattern *)

(** The first process of an accepted [/download] request fetches the
    metadata. *)
Lemma download_starts_with_info (P : Platform) (q : DownloadQuery) (fs : gmap jstr media) :
  ¬ rejected P (GetDownload q) →
  head (spawned (finish P (GetDownload q) fs))
  = Some (info_call P (with_default [] (q_url q))).
Proof.
  intros Hok.
  assert (trace_grows (getVideoInfo P (with_default [] (q_url q)) (start_world fs)).2
                      (finish P (GetDownload q) fs)) as Hall.
  { rewrite (finish_download P q fs Hok).
    match goal with
    | |- trace_grows _ (try_catch ?m ?h ?w).2 =>
        trans (m w).2;
        [|apply (stable_after_try trace_grows m h w); intros e; repeat stable_step]
    end.
    unfold download_body. apply stable_after_bind; [typeclasses eauto|].
    intros info. repeat stable_step. }
  apply spawned_prefix in Hall as [rest ->].
  by rewrite getVideoInfo_spawned.
Qed.

Lemma info_spawns_info (P : Platform) (q : InfoQuery) (fs : gmap jstr media) :
  ¬ rejected P (GetInfo q) →
  spawned (finish P (GetInfo q) fs) = [info_call P (with_default [] (iq_url q))].
Proof.
  intros Hok. rewrite (finish_info P q fs Hok).
  pose proof (getVideoInfo_spawned P (with_default [] (iq_url q)) fs) as Hsp.
  destruct (getVideoInfo P _ _) as [[info|e] w1]; exact Hsp.
Qed.

Lemma accepted_url (P : Platform) (url hostname : jstr) :
  URL_hostname P url = Some hostname → url ≠ [] → host_matches hostname →
  ¬ url_rejected P (Some url).
Proof.
  intros Hh Hu Hm. destruct url as [|c u]; [done|]. simpl. rewrite Hh. tauto.
Qed.

(** C8: the pattern is searched anywhere in the host name, so every URL
    whose host name contains [youtube.com] or [youtu.be] is valid, and
    so is one whose host name is [fake-youtube.com.evil.example]; for
    such a URL [/info] spawns the metadata process, and so does
    [/download] whenever the mode is valid. *)
Theorem unanchored_pattern_accepts_foreign_host
    (P : Platform) (url hostname : jstr) (fs : gmap jstr media) :
  URL_hostname P url = Some hostname →
  url ≠ [] →
  host_matches hostname ∨ hostname = js "fake-youtube.com.evil.example" →
  isValidYouTubeUrl P url = true
  ∧ spawned (finish P (GetInfo {| iq_url := Some url |}) fs) = [info_call P url]
  ∧ (∀ q, q_url q = Some url → ¬ mode_rejected (q_mode q) →
          head (spawned (finish P (GetDownload q) fs)) = Some (info_call P url)).
Proof.
  intros Hh Hu Hm.
  assert (host_matches hostname) as Hmatch.
  { destruct Hm as [Hm| ->]; [exact Hm|apply host_matches_foreign]. }
  pose proof (accepted_url P url hostname Hh Hu Hmatch) as Hok.
  split; [|split].
  - apply isValidYouTubeUrl_spec. eauto.
  - by rewrite info_spawns_info.
  - intros q Hq Hmode. rewrite download_starts_with_info.
    + by rewrite Hq.
    + rewrite <- Hq in Hok. intros [H|H]; tauto.
Qed.

Lemma unanchored_pattern_accepts_foreign_host_witness :
  isValidYouTubeUrl fair_platform (js "https://fake-youtube.com.evil.example/watch?v=abc") = true
  ∧ spawned (finish fair_platform
               (GetInfo {| iq_url := Some (js "https://fake-youtube.com.evil.example/watch?v=abc") |})
               ∅)
    = [info_call fair_platform (js "https://fake-youtube.com.evil.example/watch?v=abc")]
  ∧ (∀ q, q_url q = Some (js "https://fake-youtube.com.evil.example/watch?v=abc") →
          ¬ mode_rejected (q_mode q) →
          head (spawned (finish fair_platform (GetDownload q) ∅))
          = Some (info_call fair_platform
                    (js "https://fake-youtube.com.evil.example/watch?v=abc"))).
Proof.
  apply (unanchored_pattern_accepts_foreign_host fair_platform
           (js "https://fake-youtube.com.evil.example/watch?v=abc")
           (js "fake-youtube.com.evil.example") ∅).
  - vm_compute. reflexivity.
  - discriminate.
  - right. reflexivity.
Defined.

(** ** The name of the attachment *)


(** The name built by [format_selector] begins with the title and ends
    with the extension. *)
Lemma format_selector_filename (P : Platform) (mode quality container bitrate title : jstr) :
  ∃ middle,
    (format_selector P mode quality container bitrate title).2
    = title ++ middle
        ++ (js "." ++ (format_selector P mode quality container bitrate title).1.2) ++ [].
Proof.
  unfold format_selector. destruct (bool_decide (mode = js "audio")); cbn [fst snd].
  - exists (js "_" ++ bitrate ++ js "kbps"). rewrite app_nil_r, <- !app_assoc. reflexivity.
  - exists (js "_" ++ quality). rewrite app_nil_r, <- !app_assoc. reflexivity.
Qed.





(** ** Trimming *)

Lemma trimVideo_world (P : Platform) (inputPath outputPath : jstr)
    (start end_ : option jstr) (w : World) :
  (trimVideo P inputPath outputPath start end_ w).2
  = log (EvSpawn (FFMPEG_PATH P) (trim_args inputPath outputPath start end_))
        (set_fs (spawn P (FFMPEG_PATH P) (trim_args inputPath outputPath start end_)
                   (w_fs w)).2 w).
Proof.
  unfold trimVideo. rewrite bind_eq. unfold run_process.
  destruct (spawn P _ _ _) as [[m|code so se] fs']; [reflexivity|].
  destruct (exit_failed code); [reflexivity|].
  rewrite try_catch_eq. unfold fs_access. cbn.
  destruct (fs' !! outputPath); reflexivity.
Qed.

Lemma respond_spawned (P : Platform) (mode ext filename finalFile : jstr) (stat : media) :
  stable same_spawned (respond P mode ext filename finalFile stat).
Proof. unfold respond. repeat stable_step. Qed.

Lemma unlink_quietly_spawned (path : jstr) :
  stable same_spawned (try_catch (fs_unlink path) (λ _, ret ())).
Proof. repeat stable_step. Qed.

Lemma respond_spawned_eq (P : Platform) (mode ext filename finalFile : jstr)
    (stat : media) (w : World) :
  spawned (respond P mode ext filename finalFile stat w).2 = spawned w.
Proof. apply (respond_spawned P mode ext filename finalFile stat w). Qed.

Lemma unlink_quietly_spawned_eq (path : jstr) (w : World) :
  spawned (try_catch (fs_unlink path) (λ _, ret ()) w).2 = spawned w.
Proof. apply (unlink_quietly_spawned path w). Qed.

Lemma downloadVideo_Return (P : Platform) (url format ext outputPath mode bitrate container : jstr)
    (w w' : World) :
  downloadVideo P url format ext outputPath mode bitrate container w = (Return (), w') →
  is_Some (w_fs w' !! outputPath).
Proof.
  unfold downloadVideo. rewrite bind_eq. unfold run_process.
  destruct (spawn P _ _ _) as [[m|code so se] fs']; [discriminate|].
  cbn beta iota. destruct (exit_failed code); [discriminate|].
  rewrite try_catch_eq. unfold fs_access. cbn.
  destruct (fs' !! outputPath) eqn:E; [|discriminate].
  intros [= <-]. cbn. rewrite E. eauto.
Qed.

Lemma spawned_set_fs (fs : gmap jstr media) (w : World) :
  spawned (set_fs fs w) = spawned w.
Proof. reflexivity. Qed.

Lemma spawned_after_temp_path (w : World) : spawned (after_temp_path w) = spawned w.
Proof. reflexivity. Qed.

(** The format and the extension do not depend on the title. *)
Lemma format_selector_title (P : Platform) (mode quality container bitrate t t' : jstr) :
  (format_selector P mode quality container bitrate t).1
  = (format_selector P mode quality container bitrate t').1.
Proof. unfold format_selector. destruct (bool_decide (mode = js "audio")); reflexivity. Qed.

(** A temporary name depends on the world through the two counters. *)
Lemma temp_name_counters (P : Platform) (prefix ext : jstr) (w w' : World) :
  same_counters w w' → temp_name P prefix ext w' = temp_name P prefix ext w.
Proof. intros [H1 H2]. unfold temp_name. by rewrite H1, H2. Qed.

Lemma getVideoInfo_names (P : Platform) (url prefix ext : jstr) (w : World)
    (info : VideoInfo) (w1 : World) :
  getVideoInfo P url w = (Return info, w1) →
  temp_name P prefix ext w1 = temp_name P prefix ext w
  ∧ temp_name P prefix ext (after_temp_path w1) = temp_name P prefix ext (after_temp_path w).
Proof.
  intros H. pose proof (getVideoInfo_counters P url w) as C. rewrite H in C.
  destruct C as [C1 C2]. cbn [snd] in *. unfold temp_name. cbn [after_temp_path w_clock w_draws].
  by rewrite C1, C2.
Qed.

Lemma downloadVideo_names (P : Platform) (url format ext outputPath mode bitrate container : jstr)
    (prefix ext' : jstr) (w w' : World) :
  downloadVideo P url format ext outputPath mode bitrate container w = (Return (), w') →
  temp_name P prefix ext' w' = temp_name P prefix ext' w.
Proof.
  intros H. apply temp_name_counters.
  pose proof (downloadVideo_counters P url format ext outputPath mode bitrate container w) as C.
  by rewrite H in C.
Qed.

(** C7 fails on the code at the duration bound; the rest of it holds.
    When [start] or [end] is a non-empty string and the request ends
    with a file piped into the response, three processes were spawned,
    in this order: the metadata fetch, the download into the first
    temporary file, and the trim tool.  The argument vector of the trim
    tool is [-ss start] (if [start] is given), [-i] and the first
    temporary file, [-to end] (if [end] is given), [-c copy] and the
    second temporary file.  The file piped is the second temporary file
    as that invocation left it, the first temporary file is gone at the
    end of the request, and the name of the attachment contains
    [_trimmed].  So [end] reaches the tool as an output option behind a
    seek on the input: nothing in the handler relates it to [start]. *)
Theorem trimmed_download
    (P : Platform) (q : DownloadQuery) (fs : gmap jstr media)
    (path : jstr) (content : option media) (complete : bool) :
  param_truthy (q_start q) || param_truthy (q_end q) = true →
  body (w_res (finish P (GetDownload q) fs)) = BStream path content complete →
  let url := with_default [] (q_url q) in
  let mode := with_default (js "video") (q_mode q) in
  let bitrate := with_default (js "192") (q_bitrate q) in
  let container := with_default (js "mp4") (q_container q) in
  let '(format, ext) :=
    (format_selector P mode (with_default (js "720p") (q_quality q)) container bitrate []).1 in
  let tempFile := temp_name P (js "ytdl_") ext (start_world fs) in
  let trimmedFile := temp_name P (js "ytdl_trim_") ext (after_temp_path (start_world fs)) in
  let fetched := (spawn P (YT_DLP_PATH P) [js "--dump-json"; js "--no-warnings"; url] fs).2 in
  let downloaded :=
    (spawn P (YT_DLP_PATH P) (download_args url format ext tempFile mode bitrate container)
       fetched).2 in
  let args :=
    (if param_truthy (q_start q) then [js "-ss"; with_default [] (q_start q)] else [])
    ++ [js "-i"; tempFile]
    ++ (if param_truthy (q_end q) then [js "-to"; with_default [] (q_end q)] else [])
    ++ [js "-c"; js "copy"; trimmedFile] in
  spawned (finish P (GetDownload q) fs)
  = [info_call P url;
     (YT_DLP_PATH P, download_args url format ext tempFile mode bitrate container);
     (FFMPEG_PATH P, args)]
  ∧ is_Some (downloaded !! tempFile)
  ∧ path = trimmedFile
  ∧ tempFile ≠ trimmedFile
  ∧ content = (spawn P (FFMPEG_PATH P) args downloaded).2 !! trimmedFile
  ∧ is_Some content
  ∧ w_fs (finish P (GetDownload q) fs) !! tempFile = None
  ∧ ∃ u v, header (js "Content-Disposition") (finish P (GetDownload q) fs)
           = Some (HText (u ++ js "_trimmed" ++ v)).
Proof.
  intros Hcond Hbody url mode bitrate container.
  destruct (rejected_or_not P (GetDownload q)) as [Hrej|Hok].
  { destruct (rejected_finish P _ fs Hrej) as [m Hm]. rewrite Hm in Hbody. discriminate. }
  destruct (download_finish_cases P q fs Hok)
    as [(e & w' & _ & Hfin)|(info & name & w1 & w3 & w4 & finalFile & filename & stat
                             & Hinfo & Hdur & Hname & Hrest)].
  { rewrite Hfin in Hbody. discriminate. }
  fold url mode bitrate container in Hinfo, Hrest.
  destruct (format_selector_filename P mode (with_default (js "720p") (q_quality q))
              container bitrate (sanitizeFilename name)) as [middle Hfn].
  pose proof (format_selector_title P mode (with_default (js "720p") (q_quality q))
                container bitrate (sanitizeFilename name) []) as Hsel.
  destruct (format_selector P mode _ container bitrate (sanitizeFilename name))
    as [[format ext] filename0].
  cbn [fst snd] in Hfn, Hsel. rewrite <- Hsel. clear Hsel.
  destruct Hrest as (Hdl & Htrim & Hstat & Hres & Hhdrs & Hfin).
  unfold trimming in Htrim. rewrite Hcond in Htrim.
  destruct (getVideoInfo_names P url (js "ytdl_") ext _ _ _ Hinfo) as [N1 _].
  destruct (getVideoInfo_names P url (js "ytdl_trim_") ext _ _ _ Hinfo) as [_ N2].
  pose proof (downloadVideo_names _ _ _ _ _ _ _ _ (js "ytdl_trim_") ext _ _ Hdl) as N3.
  rewrite N2 in N3. rewrite N1 in Hdl, Htrim. rewrite N3 in Htrim. clear N1 N2 N3.
  destruct Htrim as (w2 & Htr & -> & -> & ->).
  rewrite Hfin, respond_response in Hbody by exact Hhdrs.
  destruct (streamed_headers _ _ _ _ _ _ _ _ _ _ Hres Hbody) as (-> & -> & Hstatus & Hhdr).
  cbv zeta.
  set (tempFile := temp_name P (js "ytdl_") ext (start_world fs)) in *.
  set (trimmedFile := temp_name P (js "ytdl_trim_") ext (after_temp_path (start_world fs))) in *.
  pose proof (getVideoInfo_spawned P url fs) as S1.
  rewrite Hinfo in S1. cbn [snd] in S1.
  pose proof (getVideoInfo_world P url (start_world fs)) as E1.
  rewrite Hinfo in E1. cbn [snd] in E1.
  pose proof (downloadVideo_world P url format ext tempFile mode bitrate container
                (after_temp_path w1)) as E3.
  rewrite Hdl in E3. cbn [snd] in E3.
  pose proof (trimVideo_world P tempFile trimmedFile (q_start q) (q_end q)
                (after_temp_path w3)) as E2.
  rewrite Htr in E2. cbn [snd] in E2. cbn [after_temp_path w_fs] in E2.
  change (trim_args tempFile trimmedFile (q_start q) (q_end q)) with
    ((if param_truthy (q_start q) then [js "-ss"; with_default [] (q_start q)] else [])
       ++ [js "-i"; tempFile]
       ++ (if param_truthy (q_end q) then [js "-to"; with_default [] (q_end q)] else [])
       ++ [js "-c"; js "copy"; trimmedFile]) in E2.
  set (args := _ ++ _ ++ _ ++ [js "-c"; js "copy"; trimmedFile]) in *.
  assert (w_fs w3
          = (spawn P (YT_DLP_PATH P)
               (download_args url format ext tempFile mode bitrate container)
               (spawn P (YT_DLP_PATH P) [js "--dump-json"; js "--no-warnings"; url] fs).2).2)
    as Hfs3.
  { rewrite E3. cbn [w_fs log set_fs after_temp_path]. rewrite E1. reflexivity. }
  assert (w_fs w2 = (spawn P (FFMPEG_PATH P) args (w_fs w3)).2) as Hfs2.
  { rewrite E2. reflexivity. }
  rewrite unlink_quietly_fs, Hfs2 in Hstat.
  apply lookup_delete_Some in Hstat as [Hne Hstat].
  rewrite <- Hfs3.
  repeat split.
  - rewrite Hfin, respond_spawned_eq, unlink_quietly_spawned_eq.
    rewrite E2, spawned_log_spawn, spawned_set_fs.
    change (spawned (after_temp_path w3) ++ [(FFMPEG_PATH P, args)]) with
      (spawned w3 ++ [(FFMPEG_PATH P, args)]).
    rewrite E3, spawned_log_spawn, spawned_set_fs, spawned_after_temp_path, S1.
    reflexivity.
  - exact (downloadVideo_Return _ _ _ _ _ _ _ _ _ _ Hdl).
  - exact Hne.
  - rewrite unlink_quietly_fs, Hfs2. by rewrite lookup_delete_ne.
  - rewrite unlink_quietly_fs, Hfs2. rewrite lookup_delete_ne by exact Hne.
    rewrite Hstat. eauto.
  - rewrite Hfin, respond_fs by exact Hhdrs.
    destruct (listener_ran _).
    + apply lookup_delete_None. right. rewrite unlink_quietly_fs. apply lookup_delete_eq.
    + rewrite unlink_quietly_fs. apply lookup_delete_eq.
  - assert (∃ u v, String_replace filename0 (js "." ++ ext) (js "_trimmed." ++ ext)
                   = u ++ js "_trimmed" ++ v) as (u & v & Hrep).
    { rewrite Hfn, app_assoc. apply String_replace_trimmed. }
    rewrite Hrep in Hhdr, Hfin, Hhdrs.
    exists (js "attachment; filename=" ++ [34] ++ u), (v ++ [34]).
    erewrite header_Content_Disposition; [|rewrite Hfin, respond_response by exact Hhdrs; exact Hhdr].
    by rewrite <- !app_assoc.
Qed.

Lemma trimmed_download_witness :
  spawned (finish fair_platform (GetDownload window_query) ∅)
  = [(js "yt-dlp", [js "--dump-json"; js "--no-warnings"; watch_url]);
     (js "yt-dlp",
      [js "-f"; js "bestvideo[height<=720]+bestaudio/best[height<=720]";
       js "--merge-output-format"; js "mp4"; js "-o";
       js "/tmp/ytdl_1700000000000_k3x90.mp4"; watch_url]);
     (js "ffmpeg",
      [js "-ss"; js "00:01:00"; js "-i"; js "/tmp/ytdl_1700000000000_k3x90.mp4";
       js "-to"; js "00:02:00"; js "-c"; js "copy";
       js "/tmp/ytdl_trim_1700000000001_k3x91.mp4"])]
  ∧ is_Some ((<[js "/tmp/ytdl_1700000000000_k3x90.mp4" := five_minutes]> ∅ : gmap jstr media)
               !! js "/tmp/ytdl_1700000000000_k3x90.mp4")
  ∧ js "/tmp/ytdl_trim_1700000000001_k3x91.mp4"
    = temp_name fair_platform (js "ytdl_trim_") (js "mp4") (after_temp_path (start_world ∅))
  ∧ js "/tmp/ytdl_1700000000000_k3x90.mp4" ≠ js "/tmp/ytdl_trim_1700000000001_k3x91.mp4"
  ∧ Some {| media_size := 4096; media_duration := 120 |}
    = (spawn fair_platform (js "ffmpeg")
         [js "-ss"; js "00:01:00"; js "-i"; js "/tmp/ytdl_1700000000000_k3x90.mp4";
          js "-to"; js "00:02:00"; js "-c"; js "copy";
          js "/tmp/ytdl_trim_1700000000001_k3x91.mp4"]
         (<[js "/tmp/ytdl_1700000000000_k3x90.mp4" := five_minutes]> ∅)).2
      !! js "/tmp/ytdl_trim_1700000000001_k3x91.mp4"
  ∧ is_Some (Some {| media_size := 4096; media_duration := 120 |})
  ∧ w_fs (finish fair_platform (GetDownload window_query) ∅)
      !! js "/tmp/ytdl_1700000000000_k3x90.mp4" = None
  ∧ ∃ u v, header (js "Content-Disposition")
             (finish fair_platform (GetDownload window_query) ∅)
           = Some (HText (u ++ js "_trimmed" ++ v)).
Proof.
  assert (body (w_res (finish fair_platform (GetDownload window_query) ∅))
          = BStream (js "/tmp/ytdl_trim_1700000000001_k3x91.mp4")
                    (Some {| media_size := 4096; media_duration := 120 |}) true) as Hbody.
  { vm_compute. reflexivity. }
  exact (trimmed_download fair_platform window_query ∅ _ _ _ eq_refl Hbody).
Defined.

(** On a trim tool that reads its options as ffmpeg documents them
    ([-ss] before [-i] seeks in the input and restarts the time stamps,
    [-to] after [-i] is a position in the output), the request
    [start=00:01:00&end=00:02:00] on a source of five minutes delivers
    a file that plays for 120 seconds: twice the window of 60 seconds
    between the two boundaries. *)
Lemma trim_window_exceeded :
  body (w_res (finish fair_platform (GetDownload window_query) ∅))
  = BStream (js "/tmp/ytdl_trim_1700000000001_k3x91.mp4")
            (Some {| media_size := 4096; media_duration := 120 |}) true
  ∧ hms_seconds (js "00:01:00") = Some 60
  ∧ hms_seconds (js "00:02:00") = Some 120
  ∧ 120 - 60 < 120.
Proof. vm_compute. repeat split. Qed.

(** ** Temporary files *)

(** When the trim step rejects, the [catch] block answers and removes
    nothing: the files at the end of the request are the ones the trim
    tool left. *)
Lemma download_body_trim_failure (P : Platform)
    (url mode quality container bitrate : jstr) (start end_ : option jstr)
    (w : World) (info : VideoInfo) (w1 : World) (name format ext filename0 : jstr)
    (w3 : World) (e : jstr) (w2 : World) :
  getVideoInfo P url w = (Return info, w1) →
  js_gt P (js_or (info_duration info) (JNum (Finite 0))) MAX_DURATION = false →
  js_or (info_title info) (JStr (js "video")) = JStr name →
  format_selector P mode quality container bitrate (sanitizeFilename name)
  = (format, ext, filename0) →
  downloadVideo P url format ext (temp_name P (js "ytdl_") ext w1) mode bitrate container
                (after_temp_path w1) = (Return (), w3) →
  param_truthy start || param_truthy end_ = true →
  trimVideo P (temp_name P (js "ytdl_") ext w1) (temp_name P (js "ytdl_trim_") ext w3)
            start end_ (after_temp_path w3) = (Throw e, w2) →
  download_body P url mode quality container bitrate start end_ w = (Throw e, w2).
Proof.
  intros Hinfo Hgt Hname Hfmt Hdl Hcond Htr. unfold download_body.
  rewrite bind_eq, Hinfo, Hgt, bind_eq. unfold sanitized_title. rewrite Hname.
  unfold ret at 1. rewrite Hfmt.
  rewrite bind_eq, temp_path_run, bind_eq, Hdl, bind_eq, Hcond.
  rewrite bind_eq, temp_path_run, bind_eq, Htr. reflexivity.
Qed.

(** The exits through the listeners of the stream do clean up: once
    the handler pipes a file and the stream ends or fails, neither the
    downloaded file nor the file that was piped is there at the end of
    the request. *)
Lemma piped_request_cleans (P : Platform) (q : DownloadQuery) (fs : gmap jstr media)
    (mode ext filename0 tempFile finalFile filename : jstr) (stat : media) (w3 w4 : World) :
  trimming P tempFile ext filename0 (q_start q) (q_end q) w3 finalFile filename w4 →
  respond_ok mode ext filename = true →
  listener_ran (read_stream P finalFile (w_fs w4)) = true →
  finish P (GetDownload q) fs = (respond P mode ext filename finalFile stat w4).2 →
  w_fs (finish P (GetDownload q) fs) !! tempFile = None
  ∧ w_fs (finish P (GetDownload q) fs) !! finalFile = None.
Proof.
  intros Htrim Hhdrs Hran Hfin. rewrite Hfin, respond_fs, Hran by exact Hhdrs.
  split; [|apply lookup_delete_eq].
  unfold trimming in Htrim.
  destruct (param_truthy (q_start q) || param_truthy (q_end q)).
  - destruct Htrim as (w2 & _ & -> & _ & _).
    rewrite unlink_quietly_fs. apply lookup_delete_None. right. apply lookup_delete_eq.
  - destruct Htrim as (-> & _ & _). apply lookup_delete_eq.
Qed.

(** C1 fails on the code: when the download resolved and the trim step
    then rejects, the request is answered with status 500 and the
    handler unlinks nothing, so the files at the end of the request are
    exactly the ones the trim tool left; the downloaded temporary file,
    which was there when the trim tool started, stays unless the tool
    itself removed it. *)
Theorem trim_failure_leaves_download_behind
    (P : Platform) (q : DownloadQuery) (fs : gmap jstr media)
    (info : VideoInfo) (w1 : World) (name format ext filename0 : jstr)
    (w3 : World) (e : jstr) (w2 : World) :
  ¬ rejected P (GetDownload q) →
  getVideoInfo P (with_default [] (q_url q)) (start_world fs) = (Return info, w1) →
  js_gt P (js_or (info_duration info) (JNum (Finite 0))) MAX_DURATION = false →
  js_or (info_title info) (JStr (js "video")) = JStr name →
  format_selector P (with_default (js "video") (q_mode q))
    (with_default (js "720p") (q_quality q)) (with_default (js "mp4") (q_container q))
    (with_default (js "192") (q_bitrate q)) (sanitizeFilename name)
  = (format, ext, filename0) →
  downloadVideo P (with_default [] (q_url q)) format ext (temp_name P (js "ytdl_") ext w1)
    (with_default (js "video") (q_mode q)) (with_default (js "192") (q_bitrate q))
    (with_default (js "mp4") (q_container q)) (after_temp_path w1) = (Return (), w3) →
  param_truthy (q_start q) || param_truthy (q_end q) = true →
  trimVideo P (temp_name P (js "ytdl_") ext w1) (temp_name P (js "ytdl_trim_") ext w3)
            (q_start q) (q_end q) (after_temp_path w3) = (Throw e, w2) →
  statusCode (w_res (finish P (GetDownload q) fs)) = 500%nat
  ∧ body (w_res (finish P (GetDownload q) fs)) = BError e
  ∧ is_Some (w_fs w3 !! temp_name P (js "ytdl_") ext w1)
  ∧ w_fs (finish P (GetDownload q) fs)
    = (spawn P (FFMPEG_PATH P)
         (trim_args (temp_name P (js "ytdl_") ext w1) (temp_name P (js "ytdl_trim_") ext w3)
            (q_start q) (q_end q))
         (w_fs w3)).2
  ∧ (w_fs w3 ⊆ (spawn P (FFMPEG_PATH P)
         (trim_args (temp_name P (js "ytdl_") ext w1) (temp_name P (js "ytdl_trim_") ext w3)
            (q_start q) (q_end q))
         (w_fs w3)).2 →
     left_behind (temp_name P (js "ytdl_") ext w1) (finish P (GetDownload q) fs)).
Proof.
  intros Hok Hinfo Hgt Hname Hfmt Hdl Hcond Htr.
  pose proof (download_body_trim_failure P _ _ _ _ _ _ _ _ _ _ _ _ _ _ _ _ _
                Hinfo Hgt Hname Hfmt Hdl Hcond Htr) as Hbody.
  pose proof (downloadVideo_Return _ _ _ _ _ _ _ _ _ _ Hdl) as Hthere.
  assert (w_res w2 = fresh_response) as Hres.
  { pose proof (getVideoInfo_response P (with_default [] (q_url q)) (start_world fs)) as R1.
    pose proof (downloadVideo_response P (with_default [] (q_url q)) format ext
                  (temp_name P (js "ytdl_") ext w1) (with_default (js "video") (q_mode q))
                  (with_default (js "192") (q_bitrate q))
                  (with_default (js "mp4") (q_container q)) (after_temp_path w1)) as R3.
    pose proof (trimVideo_response P (temp_name P (js "ytdl_") ext w1)
                  (temp_name P (js "ytdl_trim_") ext w3) (q_start q) (q_end q)
                  (after_temp_path w3)) as R2.
    rewrite Hinfo in R1. rewrite Hdl in R3. rewrite Htr in R2.
    unfold same_response in *. cbn [snd after_temp_path start_world w_res] in *.
    congruence. }
  assert (finish P (GetDownload q) fs
          = set_res {| headersSent := true; statusCode := 500; headers := [];
                       body := BError e |} w2) as Hfin.
  { rewrite (finish_download P q fs Hok), try_catch_eq, Hbody.
    by apply catch_before_headers. }
  pose proof (trimVideo_world P (temp_name P (js "ytdl_") ext w1)
                (temp_name P (js "ytdl_trim_") ext w3) (q_start q) (q_end q)
                (after_temp_path w3)) as E2.
  rewrite Htr in E2. cbn [snd after_temp_path w_fs] in E2.
  assert (w_fs (finish P (GetDownload q) fs)
          = (spawn P (FFMPEG_PATH P)
               (trim_args (temp_name P (js "ytdl_") ext w1)
                  (temp_name P (js "ytdl_trim_") ext w3) (q_start q) (q_end q))
               (w_fs w3)).2) as Hfiles.
  { rewrite Hfin, E2. reflexivity. }
  rewrite Hfin at 1 2. cbn [set_res w_res statusCode body].
  repeat split; try assumption.
  intros Hkept. unfold left_behind. rewrite Hfiles.
  destruct Hthere as [f Hf]. exists f. by eapply lookup_weaken.
Qed.

Lemma trim_failure_leaves_download_behind_witness :
  left_behind (js "/tmp/ytdl_1700000000000_k3x90.mp4")
              (finish fair_platform (GetDownload bad_trim_query) ∅).
Proof.
  refine (proj2 (proj2 (proj2 (proj2
    (trim_failure_leaves_download_behind fair_platform bad_trim_query ∅
       {| info_id := JStr (js "abc"); info_title := JStr (js "A clip");
          info_duration := JNum (Finite (inject_Z 300)); info_thumbnail := JUndefined;
          info_uploader := JUndefined; info_upload_date := JUndefined |}
       (getVideoInfo fair_platform watch_url (start_world ∅)).2
       (js "A clip")
       (js "bestvideo[height<=720]+bestaudio/best[height<=720]") (js "mp4")
       (js "A clip_720p.mp4")
       (downloadVideo fair_platform watch_url
          (js "bestvideo[height<=720]+bestaudio/best[height<=720]") (js "mp4")
          (js "/tmp/ytdl_1700000000000_k3x90.mp4") (js "video") (js "192") (js "mp4")
          (after_temp_path (getVideoInfo fair_platform watch_url (start_world ∅)).2)).2
       (js "Trim failed: Invalid duration")
       (trimVideo fair_platform (js "/tmp/ytdl_1700000000000_k3x90.mp4")
          (js "/tmp/ytdl_trim_1700000000001_k3x91.mp4") (Some (js "abc")) None
          (after_temp_path
             (downloadVideo fair_platform watch_url
                (js "bestvideo[height<=720]+bestaudio/best[height<=720]") (js "mp4")
                (js "/tmp/ytdl_1700000000000_k3x90.mp4") (js "video") (js "192") (js "mp4")
                (after_temp_path (getVideoInfo fair_platform watch_url (start_world ∅)).2)).2)).2
       _ _ _ _ _ _ _ _)))) _).
  - intros [H|H]; [apply url_check_spec in H|apply mode_check_spec in H];
      vm_compute in H; discriminate.
  - vm_compute. reflexivity.
  - vm_compute. reflexivity.
  - reflexivity.
  - vm_compute. reflexivity.
  - vm_compute. reflexivity.
  - reflexivity.
  - vm_compute. reflexivity.
  - reflexivity.
Defined.

(** * Further properties of the code *)

(** ** More on [sanitizeFilename] *)

(** Of the units that the class admits, the space is the only white
    space. *)
Lemma filename_space_is_32 (c : N) :
  is_filename_char c = true → is_js_space c = true → c = 32.
Proof.
  unfold is_filename_char, is_js_space, in_range.
  rewrite !orb_true_iff, !andb_true_iff, !N.leb_le, !N.eqb_eq. lia.
Qed.

Lemma no_space_run_cons (a : N) (s : jstr) :
  no_space_run (a :: s) = true → no_space_run s = true.
Proof. destruct s as [|b s]; [done|]. simpl. by intros [_ ?]%andb_true_iff. Qed.

Lemma no_space_run_app (a b : jstr) :
  no_space_run (a ++ b) = true → no_space_run a = true ∧ no_space_run b = true.
Proof.
  induction a as [|x a IH]; [done|].
  intros H. pose proof (no_space_run_cons _ _ H) as H'.
  destruct (IH H') as [Ha Hb]. split; [|exact Hb].
  destruct a as [|y a]; [done|].
  change (negb (is_js_space x && is_js_space y) && no_space_run (y :: a ++ b) = true) in H.
  change (negb (is_js_space x && is_js_space y) && no_space_run (y :: a) = true).
  apply andb_true_iff in H as [H1 _]. by rewrite H1, Ha.
Qed.

Lemma collapse_spaces_no_run (in_run : bool) (s : jstr) :
  no_space_run (collapse_spaces in_run s) = true
  ∧ (in_run = true →
     ∀ c, head (collapse_spaces in_run s) = Some c → is_js_space c = false).
Proof.
  revert in_run. induction s as [|c s IH]; intros in_run; [done|].
  destruct (IH true) as [Ht Hht]. destruct (IH false) as [Hf _].
  cbn [collapse_spaces]. destruct (is_js_space c) eqn:Hc.
  - destruct in_run; [by split|].
    split; [|done].
    destruct (collapse_spaces true s) as [|d t] eqn:E; [done|].
    change (negb (is_js_space 32 && is_js_space d) && no_space_run (d :: t) = true).
    rewrite (Hht eq_refl d eq_refl), Ht. reflexivity.
  - split; [|intros _ d [= <-]; exact Hc].
    destruct (collapse_spaces false s) as [|d t] eqn:E; [done|].
    change (negb (is_js_space c && is_js_space d) && no_space_run (d :: t) = true).
    rewrite Hc, Hf. reflexivity.
Qed.

Lemma sanitizeFilename_no_run (name : jstr) :
  no_space_run (sanitizeFilename name) = true.
Proof.
  unfold sanitizeFilename, String_slice0, String_trim.
  set (u := collapse_spaces false (replace_disallowed name)).
  destruct (collapse_spaces_no_run false (replace_disallowed name)) as [Hu _].
  fold u in Hu.
  destruct (trim_start_suffix u) as [k1 Hk1].
  rewrite Hk1 in Hu. apply no_space_run_app in Hu as [_ Hu].
  destruct (trim_end_prefix (trim_start u)) as [k2 Hk2].
  rewrite Hk2 in Hu. apply no_space_run_app in Hu as [Hu _].
  rewrite <- (take_drop 100 (trim_end (trim_start u))) in Hu.
  by apply no_space_run_app in Hu as [Hu _].
Qed.

(** X1: the result of [sanitizeFilename] never holds two neighbouring
    white-space units, the only white space it can hold is U+0020, and
    it is never longer than the name it was given. *)
Theorem sanitizeFilename_single_spaces (name : jstr) :
  no_space_run (sanitizeFilename name) = true
  ∧ Forall (λ c, is_js_space c = true → c = 32) (sanitizeFilename name)
  ∧ (length (sanitizeFilename name) ≤ length name)%nat.
Proof.
  split; [apply sanitizeFilename_no_run|split].
  - destruct (sanitizeFilename_shape name) as (_ & H & _).
    eapply Forall_impl; [exact H|]. intros c Hc Hs. by apply filename_space_is_32.
  - unfold sanitizeFilename, String_slice0. rewrite length_take.
    etrans; [apply Nat.le_min_r|]. etrans; [apply String_trim_length|].
    etrans; [apply collapse_spaces_length|].
    unfold replace_disallowed. by rewrite length_map.
Qed.

Lemma replace_disallowed_id (s : jstr) :
  Forall (λ c, is_filename_char c = true) s → replace_disallowed s = s.
Proof.
  intros H. unfold replace_disallowed. induction H as [|c s Hc _ IH]; [done|].
  cbn [map]. by rewrite Hc, IH.
Qed.

Lemma collapse_spaces_id (in_run : bool) (s : jstr) :
  Forall (λ c, is_js_space c = true → c = 32) s →
  no_space_run s = true →
  (in_run = true → ∀ c, head s = Some c → is_js_space c = false) →
  collapse_spaces in_run s = s.
Proof.
  intros H. revert in_run. induction H as [|c s Hc _ IH]; intros in_run Hrun Hhead; [done|].
  cbn [collapse_spaces]. pose proof (no_space_run_cons _ _ Hrun) as Hrun'.
  destruct (is_js_space c) eqn:E.
  - destruct in_run.
    + specialize (Hhead eq_refl c eq_refl). congruence.
    + rewrite (Hc eq_refl). f_equal. apply IH; [exact Hrun'|].
      intros _ d Hd. destruct s as [|d' s]; [discriminate|]. simpl in Hd. simplify_eq.
      change (negb (is_js_space c && is_js_space d) && no_space_run (d :: s) = true) in Hrun.
      apply andb_true_iff in Hrun as [Hrun _]. rewrite E in Hrun.
      by destruct (is_js_space d).
  - f_equal. apply IH; [exact Hrun'|]. discriminate.
Qed.

Lemma trim_start_id (s : jstr) :
  (∀ c, head s = Some c → is_js_space c = false) → trim_start s = s.
Proof. destruct s as [|c s]; [done|]. intros H. simpl. by rewrite (H c eq_refl). Qed.

Lemma trim_end_id (s : jstr) :
  (∀ c, last s = Some c → is_js_space c = false) → trim_end s = s.
Proof.
  intros H. unfold trim_end. rewrite trim_start_id; [apply reverse_involutive|].
  intros c Hc. apply H. by rewrite <- head_reverse.
Qed.

Lemma collapse_spaces_clean (s : jstr) :
  Forall (λ c, is_filename_char c = true) s →
  no_space_run s = true →
  collapse_spaces false s = s.
Proof.
  intros Hchars Hrun. apply collapse_spaces_id; [|exact Hrun|discriminate].
  eapply Forall_impl; [exact Hchars|]. intros c ? ?. by apply filename_space_is_32.
Qed.

(** X2: a name that is already clean comes back unchanged: units of
    the class only, no two neighbouring spaces, no space at either end,
    at most 100 units. *)
Theorem sanitizeFilename_fixpoint (s : jstr) :
  Forall (λ c, is_filename_char c = true) s →
  no_space_run s = true →
  (∀ c, head s = Some c → is_js_space c = false) →
  (∀ c, last s = Some c → is_js_space c = false) →
  (length s ≤ 100)%nat →
  sanitizeFilename s = s.
Proof.
  intros Hchars Hrun Hhead Hlast Hlen. unfold sanitizeFilename, String_slice0, String_trim.
  rewrite (replace_disallowed_id s Hchars), (collapse_spaces_clean s Hchars Hrun).
  rewrite (trim_start_id s Hhead), (trim_end_id s Hlast).
  by apply take_ge.
Qed.

(** X3: sanitizing twice is sanitizing once exactly when the first
    result does not end with white space, which is when the cut to 100
    units did not fall behind a space. *)
Theorem sanitizeFilename_idempotent (name : jstr) :
  sanitizeFilename (sanitizeFilename name) = sanitizeFilename name
  ↔ (∀ c, last (sanitizeFilename name) = Some c → is_js_space c = false).
Proof.
  destruct (sanitizeFilename_shape name) as (Hlen & Hchars & Hhead & _).
  pose proof (sanitizeFilename_no_run name) as Hrun.
  split.
  - intros Hfix c Hc. rewrite <- Hfix in Hc.
    destruct (sanitizeFilename_shape (sanitizeFilename name)) as (_ & _ & _ & Hlast).
    apply (Hlast ltac:(etrans; [apply String_trim_length|];
                       etrans; [apply collapse_spaces_length|];
                       unfold replace_disallowed; by rewrite length_map) c Hc).
  - intros Hlast. unfold sanitizeFilename at 1. unfold String_slice0, String_trim.
    rewrite (replace_disallowed_id _ Hchars), (collapse_spaces_clean _ Hchars Hrun).
    rewrite (trim_start_id _ Hhead), (trim_end_id _ Hlast).
    by apply take_ge.
Qed.

Lemma trim_start_nil (s : jstr) :
  trim_start s = [] ↔ Forall (λ c, is_js_space c = true) s.
Proof.
  induction s as [|c s IH]; simpl; [by split|].
  destruct (is_js_space c) eqn:E.
  - rewrite IH. split; [by constructor|by inversion 1].
  - split; [discriminate|]. inversion 1. congruence.
Qed.

Lemma String_trim_nil (s : jstr) :
  String_trim s = [] ↔ Forall (λ c, is_js_space c = true) s.
Proof.
  unfold String_trim, trim_end. split.
  - intros H. apply (f_equal reverse) in H. rewrite reverse_involutive in H.
    change (reverse []) with (@nil N) in H.
    apply trim_start_nil, Forall_reverse in H. rewrite reverse_involutive in H.
    destruct (trim_start s) as [|d t] eqn:E; [by apply trim_start_nil|].
    pose proof (trim_start_head s d ltac:(by rewrite E)) as Hd.
    inversion H. congruence.
  - intros H. apply trim_start_nil in H. rewrite H. reflexivity.
Qed.

Lemma collapse_spaces_all_space (in_run : bool) (s : jstr) :
  Forall (λ c, is_js_space c = true) (collapse_spaces in_run s)
  ↔ Forall (λ c, is_js_space c = true) s.
Proof.
  revert in_run. induction s as [|c s IH]; intros in_run; [done|].
  cbn [collapse_spaces]. destruct (is_js_space c) eqn:E.
  - destruct in_run.
    + rewrite IH. split; [by constructor|by inversion 1].
    + rewrite !Forall_cons, IH. by split; intros [_ ?].
  - rewrite !Forall_cons, IH. by rewrite E.
Qed.

(** X4: the result is empty exactly for a name made of U+0020 spaces
    only (the empty name among them); a tab or a line break is not
    white space to [sanitizeFilename], it comes out as an underscore. *)
Theorem sanitizeFilename_empty_iff (name : jstr) :
  sanitizeFilename name = [] ↔ Forall (λ c, c = 32) name.
Proof.
  unfold sanitizeFilename, String_slice0.
  assert (Forall (λ c, is_js_space c = true) (replace_disallowed name)
          ↔ Forall (λ c, c = 32) name) as Hrep.
  { unfold replace_disallowed. rewrite Forall_map. apply Forall_proper; [|done].
    intros c. simpl. destruct (is_filename_char c) eqn:E.
    - split; [by apply filename_space_is_32|by intros ->].
    - split; [discriminate|]. intros ->. discriminate. }
  rewrite <- Hrep, <- (collapse_spaces_all_space false), <- String_trim_nil.
  destruct (String_trim _) as [|c t]; [done|]. split; discriminate.
Qed.

Lemma collapse_spaces_no_space (in_run : bool) (s : jstr) :
  Forall (λ c, is_js_space c = false) s → collapse_spaces in_run s = s.
Proof.
  intros H. revert in_run. induction H as [|c s Hc _ IH]; intros in_run; [done|].
  cbn [collapse_spaces]. by rewrite Hc, IH.
Qed.

(** X5: in a name without U+0020 every unit is kept or becomes one
    underscore, position by position, up to the first 100 units: a tab,
    a line break and each half of a surrogate pair count as one unit
    outside the class. *)
Theorem sanitizeFilename_unit_by_unit (name : jstr) :
  32 ∉ name →
  sanitizeFilename name
  = take 100 (map (λ c, if is_filename_char c then c else 95) name).
Proof.
  intros Hno. unfold sanitizeFilename, String_slice0, String_trim.
  assert (Forall (λ c, is_js_space c = false) (replace_disallowed name)) as Hns.
  { unfold replace_disallowed. apply Forall_map, Forall_forall. intros c Hc. simpl.
    destruct (is_filename_char c) eqn:E; [|reflexivity].
    destruct (is_js_space c) eqn:E'; [|reflexivity].
    rewrite (filename_space_is_32 c E E') in Hc. done. }
  rewrite (collapse_spaces_no_space false _ Hns).
  rewrite trim_start_id, trim_end_id; [reflexivity| |].
  - intros c Hc. apply last_Some_elem_of in Hc.
    by apply (proj1 (Forall_forall _ _) Hns).
  - intros c Hc. apply head_Some_elem_of in Hc.
    by apply (proj1 (Forall_forall _ _) Hns).
Qed.

(** ** More on renaming and naming *)

(** A replacement text without [$] is inserted as it is. *)
Lemma GetSubstitution_plain (m b a r : jstr) :
  36 ∉ r → GetSubstitution m b a r = r.
Proof.
  induction r as [|c r IH]; [done|].
  intros [Hc Hr]%not_elem_of_cons.
  rewrite GetSubstitution_cons by done. by rewrite IH.
Qed.

Lemma trimmed_name_exact (stem ext : jstr) :
  46 ∉ stem →
  36 ∉ ext →
  String_replace (stem ++ js "." ++ ext) (js "." ++ ext) (js "_trimmed." ++ ext)
  = stem ++ js "_trimmed." ++ ext.
Proof.
  intros Hstem Hext. unfold String_replace.
  change (js "." ++ ext) with (46 :: ext).
  rewrite (index_of_skip 46 ext stem (46 :: ext) Hstem).
  rewrite (index_of_here (46 :: ext) (46 :: ext))
    by (apply starts_with_spec; exists []; by rewrite app_nil_r).
  cbn [fmap option_fmap option_map].
  rewrite Nat.add_0_r, take_app_length.
  rewrite <- (length_app stem (46 :: ext)), drop_all, app_nil_r.
  rewrite GetSubstitution_plain; [reflexivity|].
  change (js "_trimmed." ++ ext) with ([95; 116; 114; 105; 109; 109; 101; 100; 46] ++ ext).
  rewrite elem_of_app. intros [H|H]; [|done].
  repeat (apply elem_of_cons in H as [H|H]; [discriminate|]). by apply elem_of_nil in H.
Qed.

(** X6: when neither [quality] nor [bitrate] holds a full stop and
    [container] holds no dollar sign, the renaming of the trimmed file
    puts [_trimmed] right before the extension of the name built by the
    format selector and changes nothing else. *)
Theorem trimmed_filename_exact
    (P : Platform) (mode quality container bitrate name : jstr) :
  46 ∉ quality →
  46 ∉ bitrate →
  36 ∉ container →
  ∃ stem,
    (format_selector P mode quality container bitrate (sanitizeFilename name)).2
    = stem ++ js "."
        ++ (format_selector P mode quality container bitrate (sanitizeFilename name)).1.2
    ∧ String_replace
        (format_selector P mode quality container bitrate (sanitizeFilename name)).2
        (js "." ++ (format_selector P mode quality container bitrate
                      (sanitizeFilename name)).1.2)
        (js "_trimmed." ++ (format_selector P mode quality container bitrate
                              (sanitizeFilename name)).1.2)
      = stem ++ js "_trimmed."
          ++ (format_selector P mode quality container bitrate (sanitizeFilename name)).1.2.
Proof.
  intros Hq Hb Hc. pose proof (sanitizeFilename_no_dot name) as Ht.
  unfold format_selector. destruct (bool_decide (mode = js "audio")); cbn [fst snd].
  - exists (sanitizeFilename name ++ js "_" ++ bitrate ++ js "kbps").
    assert (46 ∉ sanitizeFilename name ++ js "_" ++ bitrate ++ js "kbps") as Hstem.
    { rewrite !elem_of_app. intros [H|[H|[H|H]]]; try done;
        vm_compute in H;
        repeat (apply elem_of_cons in H as [H|H]; [discriminate|]); by apply elem_of_nil in H. }
    assert (36 ∉ (if bool_decide (container = js "mp3") then js "mp3" else js "webm")) as Hext.
    { destruct (bool_decide _); intros H; vm_compute in H;
        repeat (apply elem_of_cons in H as [H|H]; [discriminate|]); by apply elem_of_nil in H. }
    split.
    + rewrite <- !app_assoc. reflexivity.
    + rewrite <- (trimmed_name_exact _ _ Hstem Hext). f_equal.
      rewrite <- !app_assoc. reflexivity.
  - exists (sanitizeFilename name ++ js "_" ++ quality).
    assert (46 ∉ sanitizeFilename name ++ js "_" ++ quality) as Hstem.
    { rewrite !elem_of_app. intros [H|[H|H]]; try done.
      vm_compute in H.
      repeat (apply elem_of_cons in H as [H|H]; [discriminate|]). by apply elem_of_nil in H. }
    split.
    + rewrite <- !app_assoc. reflexivity.
    + rewrite <- (trimmed_name_exact _ _ Hstem Hc). f_equal.
      rewrite <- !app_assoc. reflexivity.
Qed.

(** Two texts of the form [a ++ sep :: b] whose first parts do not hold
    the separator agree part by part. *)
Lemma split_at_separator (sep : N) (a a' b b' : jstr) :
  sep ∉ a → sep ∉ a' → a ++ sep :: b = a' ++ sep :: b' → a = a' ∧ b = b'.
Proof.
  revert a'. induction a as [|x a IH]; intros [|x' a'] Ha Ha' H.
  - by injection H as ->.
  - injection H as -> _. by apply not_elem_of_cons in Ha' as [? _].
  - injection H as -> _. by apply not_elem_of_cons in Ha as [? _].
  - injection H as -> H.
    apply not_elem_of_cons in Ha as [_ Ha]. apply not_elem_of_cons in Ha' as [_ Ha'].
    destruct (IH a' Ha Ha' H) as [-> ->]. done.
Qed.

Lemma digits_only (s : jstr) (c : N) :
  forallb is_digit s = true → is_digit c = false → c ∉ s.
Proof.
  intros H Hc Hin. rewrite forallb_forall in H.
  apply list_elem_of_In in Hin. specialize (H _ Hin). congruence.
Qed.

Lemma string_of_uint_digits (u : Decimal.uint) :
  forallb is_digit (js (NilEmpty.string_of_uint u)) = true.
Proof. induction u; simpl; try reflexivity; exact IHu. Qed.

Lemma decimal_digits (n : N) : forallb is_digit (decimal n) = true.
Proof.
  unfold decimal, NilZero.string_of_uint.
  destruct (N.to_uint n); try reflexivity; apply string_of_uint_digits.
Qed.

(** What follows [ytdl_] in a temporary name: it holds no slash when
    the random suffix and the extension hold none. *)
Lemma temp_name_tail (P : Platform) (lead ext : jstr) (n m : nat) :
  (∀ n, forallb is_digit (Date_now_text P n) = true) →
  (∀ n, 47 ∉ Math_random_text P n) →
  47 ∉ lead → 47 ∉ ext →
  47 ∉ lead ++ Date_now_text P n ++ js "_" ++ Math_random_text P m ++ js "." ++ ext.
Proof.
  intros Hdig Hrnd Hlead Hext. rewrite !elem_of_app.
  intros [H|[H|[H|[H|[H|H]]]]]; try done.
  - by apply (digits_only _ 47 (Hdig n)).
  - by apply list_elem_of_singleton in H.
  - by apply (Hrnd m).
  - by apply list_elem_of_singleton in H.
Qed.

(** X7: take a [path.join] that keeps apart any two names of the
    temporary directory that begin with [ytdl_] and hold no slash (such
    a name is one segment of the path, and not a dot segment), a clock
    that prints as digits and a random suffix without a slash.  Then,
    for an extension without a slash, two temporary files with the same
    prefix have different paths as soon as the clock readings or the
    random suffixes differ. *)
Theorem temp_name_collision
    (P : Platform) (prefix ext : jstr) (w w' : World) :
  (∀ a b, 47 ∉ a → 47 ∉ b →
          path_join P (os_tmpdir P) (js "ytdl_" ++ a)
          = path_join P (os_tmpdir P) (js "ytdl_" ++ b) → a = b) →
  (∀ n, forallb is_digit (Date_now_text P n) = true) →
  (∀ n, 47 ∉ Math_random_text P n) →
  prefix = js "ytdl_" ∨ prefix = js "ytdl_trim_" →
  47 ∉ ext →
  Date_now_text P (w_clock w) ≠ Date_now_text P (w_clock w')
  ∨ Math_random_text P (w_draws w) ≠ Math_random_text P (w_draws w') →
  temp_name P prefix ext w ≠ temp_name P prefix ext w'.
Proof.
  intros Hinj Hdig Hrnd Hprefix Hext Hdiff Heq. unfold temp_name in Heq.
  assert (∃ lead, prefix = js "ytdl_" ++ lead ∧ 47 ∉ lead) as (lead & -> & Hlead).
  { destruct Hprefix as [->| ->].
    - exists []. split; [reflexivity|]. apply not_elem_of_nil.
    - exists (js "trim_"). split; [reflexivity|]. intros H. vm_compute in H.
      repeat (apply elem_of_cons in H as [H|H]; [discriminate|]). by apply elem_of_nil in H. }
  rewrite <- !(app_assoc (js "ytdl_") lead) in Heq.
  apply Hinj in Heq; [|by apply temp_name_tail..].
  apply app_inv_head in Heq.
  rewrite !(app_assoc _ (js "_")), !(app_assoc _ (Math_random_text P _)) in Heq.
  apply app_inv_tail in Heq. rewrite <- !app_assoc in Heq.
  change (js "_" ++ ?x) with (95 :: x) in Heq.
  apply split_at_separator in Heq as [H1 H2];
    [|by apply (digits_only _ 95 (Hdig _))..].
  destruct Hdiff; done.
Qed.

(** X8: under the same conditions on [path.join], the clock and the
    random suffix, and for an extension without a slash, the file given
    to the trim tool as input and the file it is told to write are
    never the same path. *)
Theorem temp_files_differ (P : Platform) (ext : jstr) (w w' : World) :
  (∀ a b, 47 ∉ a → 47 ∉ b →
          path_join P (os_tmpdir P) (js "ytdl_" ++ a)
          = path_join P (os_tmpdir P) (js "ytdl_" ++ b) → a = b) →
  (∀ n, forallb is_digit (Date_now_text P n) = true) →
  (∀ n, 47 ∉ Math_random_text P n) →
  47 ∉ ext →
  temp_name P (js "ytdl_") ext w ≠ temp_name P (js "ytdl_trim_") ext w'.
Proof.
  intros Hinj Hdig Hrnd Hext Heq. unfold temp_name in Heq.
  change (js "ytdl_trim_") with (js "ytdl_" ++ js "trim_") in Heq.
  rewrite <- (app_assoc (js "ytdl_") (js "trim_")) in Heq.
  assert (47 ∉ js "trim_") as Hlead.
  { intros H. vm_compute in H.
    repeat (apply elem_of_cons in H as [H|H]; [discriminate|]). by apply elem_of_nil in H. }
  apply Hinj in Heq.
  - specialize (Hdig (w_clock w)).
    destruct (Date_now_text P (w_clock w)) as [|d t]; [discriminate|].
    apply andb_true_iff in Hdig as [Hd _].
    change (js "trim_" ++ ?x) with (116 :: (js "rim_" ++ x)) in Heq.
    simplify_eq/=.
  - apply (temp_name_tail P [] ext (w_clock w) (w_draws w) Hdig Hrnd); [|exact Hext].
    apply not_elem_of_nil.
  - by apply temp_name_tail.
Qed.

Lemma split_on_whole (sep : N) (s : jstr) : sep ∉ s → split_on sep s = [s].
Proof.
  induction s as [|c s IH]; [done|]. intros [Hc Hs]%not_elem_of_cons.
  simpl. rewrite IH by exact Hs.
  destruct (c =? sep) eqn:E; [|reflexivity]. apply N.eqb_eq in E. done.
Qed.

(** Under the temporary directory [/tmp], a name that begins with
    [ytdl_] and holds no slash is joined as it is. *)
Lemma posix_join_tmp (a : jstr) :
  47 ∉ a → posix_join (js "/tmp") (js "ytdl_" ++ a) = js "/tmp/ytdl_" ++ a.
Proof.
  intros Ha.
  change (js "ytdl_" ++ a) with (121 :: 116 :: 100 :: 108 :: 95 :: a).
  change (js "/tmp") with [47; 116; 109; 112].
  unfold posix_join, posix_normalize.
  assert (split_on 47 ([47; 116; 109; 112] ++ js "/" ++ 121 :: 116 :: 100 :: 108 :: 95 :: a)
          = [[]; [116; 109; 112]; 121 :: 116 :: 100 :: 108 :: 95 :: a]) as ->.
  { change (js "/") with [47]. cbn. by rewrite (split_on_whole 47 a Ha). }
  vm_compute. reflexivity.
Qed.

Lemma fair_path_join_injective (a b : jstr) :
  47 ∉ a → 47 ∉ b →
  path_join fair_platform (os_tmpdir fair_platform) (js "ytdl_" ++ a)
  = path_join fair_platform (os_tmpdir fair_platform) (js "ytdl_" ++ b) → a = b.
Proof.
  intros Ha Hb.
  change (path_join fair_platform (os_tmpdir fair_platform)) with (posix_join (js "/tmp")).
  rewrite !posix_join_tmp by assumption.
  apply app_inv_head.
Qed.

Lemma fair_random_no_slash (n : nat) : 47 ∉ Math_random_text fair_platform n.
Proof.
  change (Math_random_text fair_platform n) with (js "k3x9" ++ decimal (N.of_nat n)).
  rewrite elem_of_app. intros [H|H].
  - vm_compute in H.
    repeat (apply elem_of_cons in H as [H|H]; [discriminate|]). by apply elem_of_nil in H.
  - by apply (digits_only _ 47 (decimal_digits (N.of_nat n))).
Qed.

Lemma slash_not_in_mp4 : 47 ∉ js "mp4".
Proof.
  intros H. vm_compute in H.
  repeat (apply elem_of_cons in H as [H|H]; [discriminate|]). by apply elem_of_nil in H.
Qed.

Lemma temp_files_differ_witness :
  (47 ∉ js "mp4")
  ∧ temp_name fair_platform (js "ytdl_") (js "mp4") (start_world ∅)
    ≠ temp_name fair_platform (js "ytdl_trim_") (js "mp4") (after_temp_path (start_world ∅)).
Proof.
  split; [exact slash_not_in_mp4|].
  apply (temp_files_differ fair_platform (js "mp4") (start_world ∅)
           (after_temp_path (start_world ∅))).
  - exact fair_path_join_injective.
  - intros n. apply decimal_digits.
  - exact fair_random_no_slash.
  - exact slash_not_in_mp4.
Defined.

Lemma temp_name_collision_witness :
  Date_now_text fair_platform 0 ≠ Date_now_text fair_platform 1
  ∧ temp_name fair_platform (js "ytdl_") (js "mp4") (start_world ∅)
    ≠ temp_name fair_platform (js "ytdl_") (js "mp4") (after_temp_path (start_world ∅)).
Proof.
  assert (Date_now_text fair_platform 0 ≠ Date_now_text fair_platform 1) as Hclock.
  { vm_compute. discriminate. }
  split; [exact Hclock|].
  apply (temp_name_collision fair_platform (js "ytdl_") (js "mp4") (start_world ∅)
           (after_temp_path (start_world ∅))).
  - exact fair_path_join_injective.
  - intros n. apply decimal_digits.
  - exact fair_random_no_slash.
  - by left.
  - exact slash_not_in_mp4.
  - left. exact Hclock.
Defined.

(** ** More on the metadata *)

(** X9: when the tool closed with exit code 0 and its output parsed,
    the outcome depends on the parsed value alone: [null] is reported
    as a parse failure (reading a property of it throws inside the
    [try]), an object gives the record of its six properties, absent
    ones being [undefined], and any other value, a number or a string
    or an array, gives a record of six [undefined]. *)
Theorem getVideoInfo_by_parsed_value
    (P : Platform) (url : jstr) (w : World) (stdout stderr : jstr)
    (fs' : gmap jstr media) (v : json) :
  spawn P (YT_DLP_PATH P) [js "--dump-json"; js "--no-warnings"; url] (w_fs w)
  = (Closed (Some 0%Z) stdout stderr, fs') →
  JSON_parse P stdout = Some v →
  (getVideoInfo P url w).1
  = match v with
    | JNull | JUndefined => Throw (js "Failed to parse video info")
    | JObj fields =>
        Return {| info_id := lookup_field (js "id") fields;
                  info_title := lookup_field (js "title") fields;
                  info_duration := lookup_field (js "duration") fields;
                  info_thumbnail := lookup_field (js "thumbnail") fields;
                  info_uploader := lookup_field (js "uploader") fields;
                  info_upload_date := lookup_field (js "upload_date") fields |}
    | _ =>
        Return {| info_id := JUndefined; info_title := JUndefined;
                  info_duration := JUndefined; info_thumbnail := JUndefined;
                  info_uploader := JUndefined; info_upload_date := JUndefined |}
    end.
Proof.
  intros Hspawn Hparse. rewrite getVideoInfo_result, Hspawn. cbn [fst].
  change (exit_failed (Some 0%Z)) with false. cbn iota.
  rewrite Hparse. cbn [mbind option_bind].
  destruct v; reflexivity.
Qed.

Lemma getVideoInfo_by_parsed_value_witness :
  (getVideoInfo (demo_platform (JNum (Finite 5)) 0 five_minutes StreamEnd)
     watch_url (start_world ∅)).1
  = Return {| info_id := JUndefined; info_title := JUndefined;
              info_duration := JUndefined; info_thumbnail := JUndefined;
              info_uploader := JUndefined; info_upload_date := JUndefined |}.
Proof.
  apply (getVideoInfo_by_parsed_value
           (demo_platform (JNum (Finite 5)) 0 five_minutes StreamEnd)
           watch_url (start_world ∅) (js "{}") [] ∅ (JNum (Finite 5))).
  - reflexivity.
  - reflexivity.
Defined.

(** ** More on the responses *)

(** The whole history of a request that ended with a piped file. *)
Lemma streamed_run (P : Platform) (q : DownloadQuery) (fs : gmap jstr media)
    (path : jstr) (content : option media) (complete : bool) :
  body (w_res (finish P (GetDownload q) fs)) = BStream path content complete →
  ∃ info name w1 w3 w4 filename stat format ext filename0,
    getVideoInfo P (with_default [] (q_url q)) (start_world fs) = (Return info, w1)
    ∧ js_or (info_title info) (JStr (js "video")) = JStr name
    ∧ format_selector P (with_default (js "video") (q_mode q))
        (with_default (js "720p") (q_quality q)) (with_default (js "mp4") (q_container q))
        (with_default (js "192") (q_bitrate q)) (sanitizeFilename name)
      = (format, ext, filename0)
    ∧ downloadVideo P (with_default [] (q_url q)) format ext (temp_name P (js "ytdl_") ext w1)
        (with_default (js "video") (q_mode q)) (with_default (js "192") (q_bitrate q))
        (with_default (js "mp4") (q_container q)) (after_temp_path w1) = (Return (), w3)
    ∧ trimming P (temp_name P (js "ytdl_") ext w1) ext filename0 (q_start q) (q_end q)
               w3 path filename w4
    ∧ content = Some stat
    ∧ w_fs w4 !! path = Some stat
    ∧ ¬ mode_rejected (q_mode q)
    ∧ statusCode (w_res (finish P (GetDownload q) fs)) = 200%nat
    ∧ headers (w_res (finish P (GetDownload q) fs))
      = [(js "Content-Type", HText (content_type (with_default (js "video") (q_mode q)) ext));
         (js "Content-Length", HNumber (media_size stat));
         (js "Content-Disposition",
           HText (js "attachment; filename=" ++ [34] ++ filename ++ [34]));
         (js "Cache-Control", HText (js "no-cache"))]
    ∧ w_fs (finish P (GetDownload q) fs)
      = (if listener_ran (read_stream P path (w_fs w4))
         then delete path (w_fs w4) else w_fs w4)
    ∧ (complete = true → read_stream P path (w_fs w4) = StreamEnd).
Proof.
  intros Hbody.
  destruct (rejected_or_not P (GetDownload q)) as [Hrej|Hok].
  { destruct (rejected_finish P _ fs Hrej) as [m Hm]. rewrite Hm in Hbody. discriminate. }
  destruct (download_finish_cases P q fs Hok)
    as [(e & w' & _ & Hfin)|(info & name & w1 & w3 & w4 & finalFile & filename & stat
                             & Hinfo & Hdur & Hname & Hrest)].
  { rewrite Hfin in Hbody. discriminate. }
  destruct (format_selector P _ _ _ _ (sanitizeFilename name))
    as [[format ext] filename0] eqn:Hfmt.
  destruct Hrest as (Hdl & Htrim & Hstat & Hres & Hhdrs & Hfin).
  rewrite Hfin, respond_response in Hbody by exact Hhdrs.
  destruct (streamed_headers _ _ _ _ _ _ _ _ _ _ Hres Hbody) as (-> & -> & Hstatus & Hhdr).
  exists info, name, w1, w3, w4, filename, stat, format, ext, filename0.
  rewrite Hfin, respond_response, respond_fs by exact Hhdrs.
  repeat split; try assumption; try reflexivity.
  - simpl in Hok. tauto.
  - intros ->. unfold final_response in Hbody. rewrite Hres in Hbody.
    destruct (read_stream P finalFile (w_fs w4)); cbn in Hbody; first [reflexivity|discriminate].
Qed.

Lemma header_Content_Length (w : World) (a b c d : header_value) :
  headers (w_res w)
  = [(js "Content-Type", a); (js "Content-Length", b);
     (js "Content-Disposition", c); (js "Cache-Control", d)] →
  header (js "Content-Length") w = Some b.
Proof. intros H. unfold header. rewrite H. reflexivity. Qed.

(** X11: the [Content-Type] of a piped file is [audio/mpeg] for audio
    as mp3, [video/webm] for audio in any other container (the audio is
    delivered under a video type), and [video/] followed by the
    [container] parameter as it was given for video. *)
Theorem streamed_content_type
    (P : Platform) (q : DownloadQuery) (fs : gmap jstr media)
    (path : jstr) (content : option media) (complete : bool) :
  body (w_res (finish P (GetDownload q) fs)) = BStream path content complete →
  header (js "Content-Type") (finish P (GetDownload q) fs)
  = Some (HText
            (if bool_decide (with_default (js "video") (q_mode q) = js "audio")
             then (if bool_decide (with_default (js "mp4") (q_container q) = js "mp3")
                   then js "audio/mpeg" else js "video/webm")
             else js "video/" ++ with_default (js "mp4") (q_container q))).
Proof.
  intros Hbody.
  destruct (streamed_run P q fs path content complete Hbody)
    as (info & name & w1 & w3 & w4 & filename & stat & format & ext & filename0
        & _ & _ & Hfmt & _ & _ & _ & _ & _ & _ & Hhdr & _).
  rewrite (header_Content_Type _ _ _ _ _ Hhdr). f_equal. f_equal.
  unfold format_selector in Hfmt. unfold content_type.
  destruct (bool_decide (with_default (js "video") (q_mode q) = js "audio")).
  - destruct (bool_decide (with_default (js "mp4") (q_container q) = js "mp3"));
      simplify_eq; reflexivity.
  - by simplify_eq.
Qed.

Lemma streamed_content_type_witness :
  header (js "Content-Type")
    (finish fair_platform
       (GetDownload {| q_url := Some watch_url; q_mode := Some (js "audio");
                       q_quality := None; q_container := None; q_bitrate := None;
                       q_start := None; q_end := None |}) ∅)
  = Some (HText (js "video/webm")).
Proof.
  apply (streamed_content_type fair_platform
           {| q_url := Some watch_url; q_mode := Some (js "audio");
              q_quality := None; q_container := None; q_bitrate := None;
              q_start := None; q_end := None |} ∅
           (js "/tmp/ytdl_1700000000000_k3x90.webm") (Some five_minutes) true).
  vm_compute. reflexivity.
Defined.

(** X12: whenever a file is piped, the status is 200 and
    [Content-Length] is the size of the file that was there when the
    handler read its status.  When the stream ended, that file is no
    longer in the temporary directory at the end of the request; when
    it broke off, the file is either gone (the error listener ran) or
    still there as it was (the response was closed first and no
    listener ran). *)
Theorem streamed_length_and_cleanup
    (P : Platform) (q : DownloadQuery) (fs : gmap jstr media)
    (path : jstr) (content : option media) (complete : bool) :
  body (w_res (finish P (GetDownload q) fs)) = BStream path content complete →
  ∃ stat,
    content = Some stat
    ∧ statusCode (w_res (finish P (GetDownload q) fs)) = 200%nat
    ∧ header (js "Content-Length") (finish P (GetDownload q) fs)
      = Some (HNumber (media_size stat))
    ∧ (complete = true → w_fs (finish P (GetDownload q) fs) !! path = None)
    ∧ (w_fs (finish P (GetDownload q) fs) !! path = None
       ∨ complete = false ∧ w_fs (finish P (GetDownload q) fs) !! path = Some stat).
Proof.
  intros Hbody.
  destruct (streamed_run P q fs path content complete Hbody)
    as (info & name & w1 & w3 & w4 & filename & stat & format & ext & filename0
        & _ & _ & _ & _ & _ & Hc & Hstat & _ & Hstatus & Hhdr & Hfs & Hend).
  exists stat. repeat split; try assumption.
  - by rewrite (header_Content_Length _ _ _ _ _ Hhdr).
  - intros Hcomplete. rewrite Hfs, (Hend Hcomplete). apply lookup_delete_eq.
  - rewrite Hfs. destruct complete.
    + left. rewrite (Hend eq_refl). apply lookup_delete_eq.
    + destruct (listener_ran _); [left; apply lookup_delete_eq|by right].
Qed.

Lemma streamed_length_and_cleanup_witness :
  ∃ stat,
    Some five_minutes = Some stat
    ∧ statusCode (w_res (finish fair_platform (GetDownload plain_query) ∅)) = 200%nat
    ∧ header (js "Content-Length") (finish fair_platform (GetDownload plain_query) ∅)
      = Some (HNumber (media_size stat))
    ∧ (true = true
       → w_fs (finish fair_platform (GetDownload plain_query) ∅)
           !! js "/tmp/ytdl_1700000000000_k3x90.mp4" = None)
    ∧ (w_fs (finish fair_platform (GetDownload plain_query) ∅)
         !! js "/tmp/ytdl_1700000000000_k3x90.mp4" = None
       ∨ true = false
         ∧ w_fs (finish fair_platform (GetDownload plain_query) ∅)
             !! js "/tmp/ytdl_1700000000000_k3x90.mp4" = Some stat).
Proof.
  apply (streamed_length_and_cleanup fair_platform plain_query ∅
           (js "/tmp/ytdl_1700000000000_k3x90.mp4") (Some five_minutes) true).
  vm_compute. reflexivity.
Defined.

(** X13: without trimming, the name of the attachment is the sanitized
    title, an underscore, and then the [quality] and [container]
    parameters (for video) or the [bitrate] parameter and the chosen
    extension (for audio) exactly as they were given: only the title
    is sanitized. *)
Theorem untrimmed_disposition
    (P : Platform) (q : DownloadQuery) (fs : gmap jstr media)
    (path : jstr) (content : option media) (complete : bool) :
  body (w_res (finish P (GetDownload q) fs)) = BStream path content complete →
  param_truthy (q_start q) || param_truthy (q_end q) = false →
  ∃ info w1 name,
    getVideoInfo P (with_default [] (q_url q)) (start_world fs) = (Return info, w1)
    ∧ js_or (info_title info) (JStr (js "video")) = JStr name
    ∧ header (js "Content-Disposition") (finish P (GetDownload q) fs)
      = Some (HText
                (js "attachment; filename=" ++ [34] ++ sanitizeFilename name ++ js "_"
                   ++ (if bool_decide (with_default (js "video") (q_mode q) = js "audio")
                       then with_default (js "192") (q_bitrate q) ++ js "kbps."
                              ++ (if bool_decide (with_default (js "mp4") (q_container q)
                                                  = js "mp3")
                                  then js "mp3" else js "webm")
                       else with_default (js "720p") (q_quality q) ++ js "."
                              ++ with_default (js "mp4") (q_container q))
                   ++ [34])).
Proof.
  intros Hbody Hcond.
  destruct (streamed_run P q fs path content complete Hbody)
    as (info & name & w1 & w3 & w4 & filename & stat & format & ext & filename0
        & Hinfo & Hname & Hfmt & _ & Htrim & _ & _ & _ & _ & Hhdr & _).
  exists info, w1, name. split; [exact Hinfo|]. split; [exact Hname|].
  rewrite (header_Content_Disposition _ _ _ _ _ Hhdr). f_equal. f_equal.
  unfold trimming in Htrim. rewrite Hcond in Htrim. destruct Htrim as (_ & -> & _).
  unfold format_selector in Hfmt.
  destruct (bool_decide (with_default (js "video") (q_mode q) = js "audio"));
    simplify_eq; by rewrite <- ?app_assoc.
Qed.

Lemma untrimmed_disposition_witness :
  ∃ info w1 name,
    getVideoInfo fair_platform (with_default [] (q_url plain_query)) (start_world ∅)
    = (Return info, w1)
    ∧ js_or (info_title info) (JStr (js "video")) = JStr name
    ∧ header (js "Content-Disposition") (finish fair_platform (GetDownload plain_query) ∅)
      = Some (HText
                (js "attachment; filename=" ++ [34] ++ sanitizeFilename name ++ js "_"
                   ++ (if bool_decide (with_default (js "video") (q_mode plain_query)
                                       = js "audio")
                       then with_default (js "192") (q_bitrate plain_query) ++ js "kbps."
                              ++ (if bool_decide (with_default (js "mp4")
                                                    (q_container plain_query) = js "mp3")
                                  then js "mp3" else js "webm")
                       else with_default (js "720p") (q_quality plain_query) ++ js "."
                              ++ with_default (js "mp4") (q_container plain_query))
                   ++ [34])).
Proof.
  apply (untrimmed_disposition fair_platform plain_query ∅
           (js "/tmp/ytdl_1700000000000_k3x90.mp4") (Some five_minutes) true).
  - vm_compute. reflexivity.
  - reflexivity.
Defined.

(** ** More on failures *)

Lemma download_body_download_failure (P : Platform)
    (url mode quality container bitrate : jstr) (start end_ : option jstr)
    (w : World) (info : VideoInfo) (w1 : World) (name format ext filename0 : jstr)
    (e : jstr) (w3 : World) :
  getVideoInfo P url w = (Return info, w1) →
  js_gt P (js_or (info_duration info) (JNum (Finite 0))) MAX_DURATION = false →
  js_or (info_title info) (JStr (js "video")) = JStr name →
  format_selector P mode quality container bitrate (sanitizeFilename name)
  = (format, ext, filename0) →
  downloadVideo P url format ext (temp_name P (js "ytdl_") ext w1) mode bitrate container
                (after_temp_path w1) = (Throw e, w3) →
  download_body P url mode quality container bitrate start end_ w = (Throw e, w3).
Proof.
  intros Hinfo Hgt Hname Hfmt Hdl. unfold download_body.
  rewrite bind_eq, Hinfo, Hgt, bind_eq. unfold sanitized_title. rewrite Hname.
  unfold ret at 1. rewrite Hfmt.
  rewrite bind_eq, temp_path_run, bind_eq, Hdl. reflexivity.
Qed.

(** X14: when the download step rejects, the request is answered 500
    with the message of the rejection and goes no further: two
    processes were spawned, the metadata fetch and the download, the
    trim tool is not started even if trimming was asked for, and the
    files are left as the download tool left them. *)
Theorem download_failure_stops_the_request
    (P : Platform) (q : DownloadQuery) (fs : gmap jstr media)
    (info : VideoInfo) (w1 : World) (name format ext filename0 : jstr)
    (e : jstr) (w3 : World) :
  ¬ rejected P (GetDownload q) →
  getVideoInfo P (with_default [] (q_url q)) (start_world fs) = (Return info, w1) →
  js_gt P (js_or (info_duration info) (JNum (Finite 0))) MAX_DURATION = false →
  js_or (info_title info) (JStr (js "video")) = JStr name →
  format_selector P (with_default (js "video") (q_mode q))
    (with_default (js "720p") (q_quality q)) (with_default (js "mp4") (q_container q))
    (with_default (js "192") (q_bitrate q)) (sanitizeFilename name)
  = (format, ext, filename0) →
  downloadVideo P (with_default [] (q_url q)) format ext (temp_name P (js "ytdl_") ext w1)
    (with_default (js "video") (q_mode q)) (with_default (js "192") (q_bitrate q))
    (with_default (js "mp4") (q_container q)) (after_temp_path w1) = (Throw e, w3) →
  statusCode (w_res (finish P (GetDownload q) fs)) = 500%nat
  ∧ body (w_res (finish P (GetDownload q) fs)) = BError e
  ∧ spawned (finish P (GetDownload q) fs)
    = [info_call P (with_default [] (q_url q));
       (YT_DLP_PATH P,
        download_args (with_default [] (q_url q)) format ext (temp_name P (js "ytdl_") ext w1)
          (with_default (js "video") (q_mode q)) (with_default (js "192") (q_bitrate q))
          (with_default (js "mp4") (q_container q)))]
  ∧ w_fs (finish P (GetDownload q) fs)
    = (spawn P (YT_DLP_PATH P)
         (download_args (with_default [] (q_url q)) format ext
            (temp_name P (js "ytdl_") ext w1)
            (with_default (js "video") (q_mode q)) (with_default (js "192") (q_bitrate q))
            (with_default (js "mp4") (q_container q)))
         (w_fs w1)).2.
Proof.
  intros Hok Hinfo Hgt Hname Hfmt Hdl.
  pose proof (download_body_download_failure P _ _ _ _ _ (q_start q) (q_end q) _ _ _ _ _ _ _ _ _
                Hinfo Hgt Hname Hfmt Hdl) as Hbody.
  pose proof (getVideoInfo_response P (with_default [] (q_url q)) (start_world fs)) as R1.
  pose proof (downloadVideo_response P (with_default [] (q_url q)) format ext
                (temp_name P (js "ytdl_") ext w1) (with_default (js "video") (q_mode q))
                (with_default (js "192") (q_bitrate q))
                (with_default (js "mp4") (q_container q)) (after_temp_path w1)) as R3.
  pose proof (getVideoInfo_spawned P (with_default [] (q_url q)) fs) as S1.
  pose proof (downloadVideo_world P (with_default [] (q_url q)) format ext
                (temp_name P (js "ytdl_") ext w1) (with_default (js "video") (q_mode q))
                (with_default (js "192") (q_bitrate q))
                (with_default (js "mp4") (q_container q)) (after_temp_path w1)) as E3.
  rewrite Hinfo in R1, S1. rewrite Hdl in R3, E3.
  unfold same_response in *. cbn [snd] in *.
  cbn [after_temp_path start_world w_res] in R1, R3.
  assert (finish P (GetDownload q) fs
          = set_res {| headersSent := true; statusCode := 500; headers := [];
                       body := BError e |} w3) as ->.
  { rewrite (finish_download P q fs Hok), try_catch_eq, Hbody.
    apply catch_before_headers. congruence. }
  cbn [set_res w_res statusCode body w_fs]. repeat split.
  - change (spawned (set_res _ w3)) with (spawned w3).
    by rewrite E3, spawned_log_spawn, spawned_set_fs, spawned_after_temp_path, S1.
  - rewrite E3. reflexivity.
Qed.

(** ** More on the duration ceiling *)

Lemma js_gt_number (P : Platform) (x : Q) :
  js_gt P (js_or (JNum (Finite x)) (JNum (Finite 0))) MAX_DURATION = true
  ↔ (inject_Z (Z.of_N MAX_DURATION) < x)%Q.
Proof.
  unfold js_or, truthy. destruct (Qeq_bool x 0) eqn:E; cbn [negb].
  - apply Qeq_bool_eq in E. split; [discriminate|].
    intros H. rewrite E in H. discriminate H.
  - unfold js_gt, ToNumber. rewrite negb_true_iff, <- not_true_iff_false, Qle_bool_iff.
    split; [apply Qnot_le_lt|apply Qlt_not_le].
Qed.

Lemma download_failure_stops_the_request_witness :
  body (w_res (finish (demo_platform (metadata_of 300) 1 five_minutes StreamEnd)
                 (GetDownload window_query) ∅))
  = BError (js "Download failed: ERROR")
  ∧ spawned (finish (demo_platform (metadata_of 300) 1 five_minutes StreamEnd)
               (GetDownload window_query) ∅)
    = [(js "yt-dlp", [js "--dump-json"; js "--no-warnings"; watch_url]);
       (js "yt-dlp",
        [js "-f"; js "bestvideo[height<=720]+bestaudio/best[height<=720]";
         js "--merge-output-format"; js "mp4"; js "-o";
         js "/tmp/ytdl_1700000000000_k3x90.mp4"; watch_url])].
Proof.
  assert (¬ rejected (demo_platform (metadata_of 300) 1 five_minutes StreamEnd)
            (GetDownload window_query)) as Hok.
  { intros [H|H]; [apply url_check_spec in H|apply mode_check_spec in H];
      vm_compute in H; discriminate. }
  pose proof (download_failure_stops_the_request
                (demo_platform (metadata_of 300) 1 five_minutes StreamEnd) window_query ∅
                {| info_id := JStr (js "abc"); info_title := JStr (js "A clip");
                   info_duration := JNum (Finite (inject_Z 300)); info_thumbnail := JUndefined;
                   info_uploader := JUndefined; info_upload_date := JUndefined |}
                (getVideoInfo (demo_platform (metadata_of 300) 1 five_minutes StreamEnd)
                   watch_url (start_world ∅)).2
                (js "A clip")
                (js "bestvideo[height<=720]+bestaudio/best[height<=720]") (js "mp4")
                (js "A clip_720p.mp4") (js "Download failed: ERROR")
                (downloadVideo (demo_platform (metadata_of 300) 1 five_minutes StreamEnd)
                   watch_url (js "bestvideo[height<=720]+bestaudio/best[height<=720]")
                   (js "mp4") (js "/tmp/ytdl_1700000000000_k3x90.mp4") (js "video")
                   (js "192") (js "mp4")
                   (after_temp_path
                      (getVideoInfo (demo_platform (metadata_of 300) 1 five_minutes StreamEnd)
                         watch_url (start_world ∅)).2)).2
                Hok ltac:(vm_compute; reflexivity) ltac:(vm_compute; reflexivity)
                ltac:(reflexivity) ltac:(vm_compute; reflexivity)
                ltac:(vm_compute; reflexivity)) as (_ & H2 & H3 & _).
  exact (conj H2 H3).
Defined.

(** After the title, the download. *)
Lemma accepted_reaches_download
    (P : Platform) (q : DownloadQuery) (fs : gmap jstr media)
    (info : VideoInfo) (w1 : World) (name format ext filename0 : jstr) :
  ¬ rejected P (GetDownload q) →
  getVideoInfo P (with_default [] (q_url q)) (start_world fs) = (Return info, w1) →
  js_gt P (js_or (info_duration info) (JNum (Finite 0))) MAX_DURATION = false →
  js_or (info_title info) (JStr (js "video")) = JStr name →
  format_selector P (with_default (js "video") (q_mode q))
    (with_default (js "720p") (q_quality q)) (with_default (js "mp4") (q_container q))
    (with_default (js "192") (q_bitrate q)) (sanitizeFilename name)
  = (format, ext, filename0) →
  ∃ rest,
    spawned (finish P (GetDownload q) fs)
    = info_call P (with_default [] (q_url q))
      :: (YT_DLP_PATH P,
          download_args (with_default [] (q_url q)) format ext
            (temp_name P (js "ytdl_") ext w1)
            (with_default (js "video") (q_mode q))
            (with_default (js "192") (q_bitrate q))
            (with_default (js "mp4") (q_container q)))
      :: rest.
Proof.
  intros Hok Hinfo Hgt Hname Hfmt.
  pose proof (download_body_reaches_download P (with_default [] (q_url q))
                (with_default (js "video") (q_mode q))
                (with_default (js "720p") (q_quality q))
                (with_default (js "mp4") (q_container q))
                (with_default (js "192") (q_bitrate q))
                (q_start q) (q_end q) (start_world fs) info w1 name Hinfo Hgt Hname) as Hreach.
  rewrite Hfmt in Hreach.
  assert (trace_grows
            (downloadVideo P (with_default [] (q_url q)) format ext
               (temp_name P (js "ytdl_") ext w1) (with_default (js "video") (q_mode q))
               (with_default (js "192") (q_bitrate q)) (with_default (js "mp4") (q_container q))
               (after_temp_path w1)).2
            (finish P (GetDownload q) fs)) as Hall.
  { rewrite (finish_download P q fs Hok). etrans; [exact Hreach|].
    match goal with
    | |- trace_grows _ (try_catch ?m ?h ?w).2 =>
        apply (stable_after_try trace_grows m h w)
    end.
    intros e. repeat stable_step. }
  apply spawned_prefix in Hall as [rest Hrest].
  exists rest. rewrite Hrest, downloadVideo_world, spawned_log_spawn.
  pose proof (getVideoInfo_spawned P (with_default [] (q_url q)) fs) as Hsp.
  rewrite Hinfo in Hsp. cbn [snd] in Hsp.
  by rewrite spawned_set_fs, spawned_after_temp_path, Hsp.
Qed.

(** X15: the ceiling is inclusive.  A duration that is a number is
    refused exactly when it is greater than 3600; at 3600 seconds, and
    below, the request goes on to the download. *)
Theorem ceiling_is_inclusive
    (P : Platform) (q : DownloadQuery) (fs : gmap jstr media)
    (info : VideoInfo) (w1 : World) (x : Q) (name format ext filename0 : jstr) :
  ¬ rejected P (GetDownload q) →
  getVideoInfo P (with_default [] (q_url q)) (start_world fs) = (Return info, w1) →
  info_duration info = JNum (Finite x) →
  js_or (info_title info) (JStr (js "video")) = JStr name →
  format_selector P (with_default (js "video") (q_mode q))
    (with_default (js "720p") (q_quality q)) (with_default (js "mp4") (q_container q))
    (with_default (js "192") (q_bitrate q)) (sanitizeFilename name)
  = (format, ext, filename0) →
  ((inject_Z (Z.of_N MAX_DURATION) < x)%Q →
   body (w_res (finish P (GetDownload q) fs)) = BError (js "Video too long (max 60 minutes)")
   ∧ spawned (finish P (GetDownload q) fs) = [info_call P (with_default [] (q_url q))])
  ∧ ((x <= inject_Z (Z.of_N MAX_DURATION))%Q →
     ∃ rest,
       spawned (finish P (GetDownload q) fs)
       = info_call P (with_default [] (q_url q))
         :: (YT_DLP_PATH P,
             download_args (with_default [] (q_url q)) format ext
               (temp_name P (js "ytdl_") ext w1)
               (with_default (js "video") (q_mode q))
               (with_default (js "192") (q_bitrate q))
               (with_default (js "mp4") (q_container q)))
         :: rest).
Proof.
  intros Hok Hinfo Hd Hname Hfmt. split.
  - intros Hlt.
    pose proof (getVideoInfo_response P (with_default [] (q_url q)) (start_world fs)) as Hres.
    pose proof (getVideoInfo_spawned P (with_default [] (q_url q)) fs) as Hsp.
    rewrite Hinfo in Hres, Hsp. unfold same_response in Hres. cbn [snd] in Hres, Hsp.
    assert (finish P (GetDownload q) fs
            = set_res {| headersSent := true; statusCode := 500; headers := [];
                         body := BError (js "Video too long (max 60 minutes)") |} w1) as ->.
    { rewrite (finish_download P q fs Hok), try_catch_eq.
      erewrite download_body_too_long; [|exact Hinfo|rewrite Hd; by apply js_gt_number].
      by apply catch_before_headers. }
    split; [reflexivity|exact Hsp].
  - intros Hle. eapply accepted_reaches_download; try eassumption.
    rewrite Hd. apply not_true_iff_false. rewrite js_gt_number.
    by apply Qle_not_lt.
Qed.

Lemma ceiling_is_inclusive_witness :
  ∃ rest,
    spawned (finish (demo_platform (metadata_of 3600) 0 five_minutes StreamEnd)
               (GetDownload plain_query) ∅)
    = (js "yt-dlp", [js "--dump-json"; js "--no-warnings"; watch_url])
      :: (js "yt-dlp",
          [js "-f"; js "bestvideo[height<=720]+bestaudio/best[height<=720]";
           js "--merge-output-format"; js "mp4"; js "-o";
           js "/tmp/ytdl_1700000000000_k3x90.mp4"; watch_url])
      :: rest.
Proof.
  refine (proj2 (ceiling_is_inclusive
            (demo_platform (metadata_of 3600) 0 five_minutes StreamEnd) plain_query ∅
            {| info_id := JStr (js "abc"); info_title := JStr (js "A clip");
               info_duration := JNum (Finite (inject_Z 3600)); info_thumbnail := JUndefined;
               info_uploader := JUndefined; info_upload_date := JUndefined |}
            (getVideoInfo (demo_platform (metadata_of 3600) 0 five_minutes StreamEnd)
               watch_url (start_world ∅)).2
            (inject_Z 3600) (js "A clip")
            (js "bestvideo[height<=720]+bestaudio/best[height<=720]") (js "mp4")
            (js "A clip_720p.mp4") _ _ _ _ _) _).
  - intros [H|H]; [apply url_check_spec in H|apply mode_check_spec in H];
      vm_compute in H; discriminate.
  - vm_compute. reflexivity.
  - reflexivity.
  - reflexivity.
  - vm_compute. reflexivity.
  - vm_compute. discriminate.
Defined.

(** ** More on validation *)

(** X16: the URL is checked before the mode.  A [/download] request
    with a rejected URL is answered "Invalid YouTube URL" whatever its
    mode; with an accepted URL the mode passes exactly when it is
    absent, ['video'] or ['audio'] (an empty [mode=] does not take the
    default), and otherwise the answer names the two modes. *)
Theorem validation_order (P : Platform) (q : DownloadQuery) (fs : gmap jstr media) :
  (url_rejected P (q_url q) →
   body (w_res (finish P (GetDownload q) fs)) = BError (js "Invalid YouTube URL"))
  ∧ (¬ url_rejected P (q_url q) → mode_rejected (q_mode q) →
     body (w_res (finish P (GetDownload q) fs))
     = BError (js "Invalid mode. Use " ++ [34] ++ js "video" ++ [34] ++ js " or "
                 ++ [34] ++ js "audio" ++ [34]))
  ∧ (mode_rejected (q_mode q)
     ↔ q_mode q ≠ None ∧ q_mode q ≠ Some (js "video") ∧ q_mode q ≠ Some (js "audio")).
Proof.
  split; [|split].
  - intros H%url_check_spec. unfold finish, handle, download_handler. by rewrite H.
  - intros Hu Hm%mode_check_spec. unfold finish, handle, download_handler.
    destruct (negb (param_truthy (q_url q)) || _) eqn:E.
    { by apply url_check_spec in E. }
    by rewrite Hm.
  - unfold mode_rejected. destruct (q_mode q) as [m|]; cbn [with_default].
    + split.
      * intros [H1 H2]. repeat split; congruence.
      * intros (_ & H1 & H2). split; congruence.
    + split; [intros [H _]; done|intros [H _]; done].
Qed.

Lemma validation_order_witness :
  body (w_res (finish fair_platform
                 (GetDownload {| q_url := Some watch_url; q_mode := Some [];
                                 q_quality := None; q_container := None; q_bitrate := None;
                                 q_start := None; q_end := None |}) ∅))
  = BError (js "Invalid mode. Use " ++ [34] ++ js "video" ++ [34] ++ js " or "
              ++ [34] ++ js "audio" ++ [34]).
Proof.
  refine (proj1 (proj2 (validation_order fair_platform
            {| q_url := Some watch_url; q_mode := Some [];
               q_quality := None; q_container := None; q_bitrate := None;
               q_start := None; q_end := None |} ∅)) _ _).
  - intros H. apply url_check_spec in H. vm_compute in H. discriminate.
  - apply mode_check_spec. vm_compute. reflexivity.
Defined.

(** ** How many processes *)

Lemma fs_access_spawned (path : jstr) : stable same_spawned (fs_access path).
Proof. stable_prim. Qed.
Lemma fs_stat_spawned (path : jstr) : stable same_spawned (fs_stat path).
Proof. stable_prim. Qed.
Lemma Date_now_spawned (P : Platform) : stable same_spawned (Date_now P).
Proof. stable_prim. Qed.
Lemma Math_random_spawned (P : Platform) : stable same_spawned (Math_random P).
Proof. stable_prim. Qed.
Lemma res_json_spawned (b : Body) : stable same_spawned (res_json b).
Proof. stable_prim. Qed.

#[export] Hint Resolve fs_access_spawned fs_stat_spawned Date_now_spawned
  Math_random_spawned res_json_spawned : stable.

Lemma temp_path_spawned (P : Platform) (prefix ext : jstr) :
  stable same_spawned (temp_path P prefix ext).
Proof. unfold temp_path. repeat stable_step. Qed.

Lemma sanitized_title_spawned (info : VideoInfo) :
  stable same_spawned (sanitized_title info).
Proof. unfold sanitized_title. repeat stable_step. Qed.

#[export] Hint Resolve temp_path_spawned sanitized_title_spawned : stable.

Lemma at_most_same {A} (m : M A) : stable same_spawned m → spawns_at_most 0 m.
Proof. intros H w. rewrite (H w). lia. Qed.

Lemma at_most_weaken {A} (a b : nat) (m : M A) :
  (a ≤ b)%nat → spawns_at_most a m → spawns_at_most b m.
Proof. intros Hab H w. specialize (H w). lia. Qed.

Lemma at_most_bind {A B} (a b : nat) (m : M A) (k : A → M B) :
  spawns_at_most a m → (∀ x, spawns_at_most b (k x)) → spawns_at_most (a + b) (bind m k).
Proof.
  intros Hm Hk w. rewrite bind_eq. specialize (Hm w).
  destruct (m w) as [[x|e] w1]; cbn [snd] in *; [|lia].
  specialize (Hk x w1). lia.
Qed.

Lemma at_most_try {A} (a b : nat) (m : M A) (h : jstr → M A) :
  spawns_at_most a m → (∀ e, spawns_at_most b (h e)) → spawns_at_most (a + b) (try_catch m h).
Proof.
  intros Hm Hh w. rewrite try_catch_eq. specialize (Hm w).
  destruct (m w) as [[x|e] w1]; cbn [snd] in *; [lia|].
  specialize (Hh e w1). lia.
Qed.

Lemma run_process_at_most (P : Platform) (command : jstr) (args : list jstr) :
  spawns_at_most 1 (run_process P command args).
Proof.
  intros w. unfold run_process. destruct (spawn P command args (w_fs w)) as [r fs'].
  cbn [snd]. rewrite spawned_log_spawn, spawned_set_fs, length_app. simpl. lia.
Qed.

Lemma getVideoInfo_at_most (P : Platform) (url : jstr) :
  spawns_at_most 1 (getVideoInfo P url).
Proof.
  unfold getVideoInfo. apply (at_most_bind 1 0); [apply run_process_at_most|].
  intros r. apply at_most_same. repeat stable_step.
Qed.

Lemma downloadVideo_at_most (P : Platform) (url format ext outputPath mode bitrate container : jstr) :
  spawns_at_most 1 (downloadVideo P url format ext outputPath mode bitrate container).
Proof.
  unfold downloadVideo. apply (at_most_bind 1 0); [apply run_process_at_most|].
  intros r. apply at_most_same. repeat stable_step.
Qed.

Lemma trimVideo_at_most (P : Platform) (inputPath outputPath : jstr) (start end_ : option jstr) :
  spawns_at_most 1 (trimVideo P inputPath outputPath start end_).
Proof.
  unfold trimVideo. apply (at_most_bind 1 0); [apply run_process_at_most|].
  intros r. apply at_most_same. repeat stable_step.
Qed.

Lemma download_body_at_most (P : Platform) (url mode quality container bitrate : jstr)
    (start end_ : option jstr) :
  spawns_at_most 3 (download_body P url mode quality container bitrate start end_).
Proof.
  unfold download_body.
  apply (at_most_bind 1 2); [apply getVideoInfo_at_most|]. intros info.
  destruct (js_gt P _ MAX_DURATION).
  { apply (at_most_weaken 0); [lia|]. apply at_most_same. repeat stable_step. }
  apply (at_most_bind 0 2); [apply at_most_same; auto with stable|]. intros title.
  destruct (format_selector P mode quality container bitrate title) as [[format ext] filename].
  apply (at_most_bind 0 2); [apply at_most_same; auto with stable|]. intros tempFile.
  apply (at_most_bind 1 1); [apply downloadVideo_at_most|]. intros _.
  apply (at_most_bind 1 0).
  - destruct (param_truthy start || param_truthy end_).
    + apply (at_most_bind 0 1); [apply at_most_same; auto with stable|]. intros trimmedFile.
      apply (at_most_bind 1 0); [apply trimVideo_at_most|]. intros _.
      apply at_most_same. repeat stable_step.
    + apply (at_most_weaken 0); [lia|]. apply at_most_same. repeat stable_step.
  - intros [finalFile filename']. apply at_most_same. repeat stable_step.
Qed.

(** X17: no tool is tried twice.  A [/info] request spawns at most one
    process and a [/download] request at most three, whatever the tools
    answer. *)
Theorem no_retry (P : Platform) (r : Request) (fs : gmap jstr media) :
  (length (spawned (finish P r fs))
   ≤ match r with GetInfo _ => 1 | GetDownload _ => 3 end)%nat.
Proof.
  unfold finish. destruct r as [q|q]; cbn [handle].
  - assert (spawns_at_most 1 (info_handler P q)) as H; [|exact (H (start_world fs))].
    unfold info_handler. destruct (_ || _).
    { apply (at_most_weaken 0); [lia|]. apply at_most_same. repeat stable_step. }
    apply (at_most_try 1 0).
    + apply (at_most_bind 1 0); [apply getVideoInfo_at_most|].
      intros info. apply at_most_same. repeat stable_step.
    + intros e. apply at_most_same. repeat stable_step.
  - assert (spawns_at_most 3 (download_handler P q)) as H; [|exact (H (start_world fs))].
    unfold download_handler. destruct (_ || _).
    { apply (at_most_weaken 0); [lia|]. apply at_most_same. repeat stable_step. }
    destruct (negb _).
    { apply (at_most_weaken 0); [lia|]. apply at_most_same. repeat stable_step. }
    apply (at_most_try 3 0); [apply download_body_at_most|].
    intros e. apply at_most_same. repeat stable_step.
Qed.

(** ** What is unlinked *)

#[export] Instance unlinks_only_preorder (S : jstr → Prop) : PreOrder (unlinks_only S).
Proof.
  split.
  - intros w p Hp. by left.
  - intros a b c Hab Hbc p Hp. destruct (Hbc p Hp) as [Hb|?]; [|by right].
    exact (Hab p Hb).
Qed.

(** A step that leaves the trace alone, or adds the start of a
    process to it, unlinks nothing. *)
Lemma unlinks_only_same_trace (S : jstr → Prop) (w w' : World) :
  w_trace w' = w_trace w → unlinks_only S w w'.
Proof. intros H p Hp. left. by rewrite <- H. Qed.

Lemma fs_access_unlinks (S : jstr → Prop) (path : jstr) :
  stable (unlinks_only S) (fs_access path).
Proof.
  intros w. apply unlinks_only_same_trace. unfold fs_access.
  by destruct (w_fs w !! path).
Qed.
Lemma fs_stat_unlinks (S : jstr → Prop) (path : jstr) :
  stable (unlinks_only S) (fs_stat path).
Proof.
  intros w. apply unlinks_only_same_trace. unfold fs_stat.
  by destruct (w_fs w !! path).
Qed.
Lemma res_status_json_unlinks (S : jstr → Prop) (code : nat) (b : Body) :
  stable (unlinks_only S) (res_status_json code b).
Proof. intros w. by apply unlinks_only_same_trace. Qed.
Lemma res_json_unlinks (S : jstr → Prop) (b : Body) :
  stable (unlinks_only S) (res_json b).
Proof. intros w. by apply unlinks_only_same_trace. Qed.
Lemma res_setHeader_unlinks (S : jstr → Prop) (name : jstr) (v : header_value) :
  stable (unlinks_only S) (res_setHeader name v).
Proof.
  intros w. apply unlinks_only_same_trace. unfold res_setHeader.
  by destruct (header_value_ok v).
Qed.
Lemma res_headersSent_unlinks (S : jstr → Prop) : stable (unlinks_only S) res_headersSent.
Proof. intros w. by apply unlinks_only_same_trace. Qed.
Lemma res_piped_unlinks (S : jstr → Prop) (path : jstr) (complete : bool) :
  stable (unlinks_only S) (res_piped path complete).
Proof. intros w. by apply unlinks_only_same_trace. Qed.
Lemma Date_now_unlinks (S : jstr → Prop) (P : Platform) :
  stable (unlinks_only S) (Date_now P).
Proof. intros w. by apply unlinks_only_same_trace. Qed.
Lemma Math_random_unlinks (S : jstr → Prop) (P : Platform) :
  stable (unlinks_only S) (Math_random P).
Proof. intros w. by apply unlinks_only_same_trace. Qed.

Lemma run_process_unlinks (S : jstr → Prop) (P : Platform) (command : jstr)
    (args : list jstr) :
  stable (unlinks_only S) (run_process P command args).
Proof.
  intros w p. unfold run_process. destruct (spawn P command args (w_fs w)) as [r fs'].
  cbn. rewrite elem_of_app, list_elem_of_singleton. intros [?|[=]]. by left.
Qed.

Lemma fs_unlink_unlinks (S : jstr → Prop) (path : jstr) :
  S path → stable (unlinks_only S) (fs_unlink path).
Proof.
  intros HS w p. unfold fs_unlink. destruct (w_fs w !! path); cbn; [|by left].
  rewrite elem_of_app, list_elem_of_singleton. intros [?|[= ->]]; [by left|by right].
Qed.

#[export] Hint Resolve fs_access_unlinks fs_stat_unlinks res_status_json_unlinks
  res_json_unlinks res_setHeader_unlinks res_headersSent_unlinks res_piped_unlinks
  Date_now_unlinks Math_random_unlinks run_process_unlinks fs_unlink_unlinks : stable.

Lemma getVideoInfo_unlinks (S : jstr → Prop) (P : Platform) (url : jstr) :
  stable (unlinks_only S) (getVideoInfo P url).
Proof. unfold getVideoInfo. repeat stable_step. Qed.
Lemma downloadVideo_unlinks (S : jstr → Prop) (P : Platform)
    (url format ext outputPath mode bitrate container : jstr) :
  stable (unlinks_only S) (downloadVideo P url format ext outputPath mode bitrate container).
Proof. unfold downloadVideo. repeat stable_step. Qed.
Lemma trimVideo_unlinks (S : jstr → Prop) (P : Platform) (inputPath outputPath : jstr)
    (start end_ : option jstr) :
  stable (unlinks_only S) (trimVideo P inputPath outputPath start end_).
Proof. unfold trimVideo. repeat stable_step. Qed.
Lemma temp_path_unlinks (S : jstr → Prop) (P : Platform) (prefix ext : jstr) :
  stable (unlinks_only S) (temp_path P prefix ext).
Proof. unfold temp_path. repeat stable_step. Qed.
Lemma sanitized_title_unlinks (S : jstr → Prop) (info : VideoInfo) :
  stable (unlinks_only S) (sanitized_title info).
Proof. unfold sanitized_title. repeat stable_step. Qed.

#[export] Hint Resolve getVideoInfo_unlinks downloadVideo_unlinks trimVideo_unlinks
  temp_path_unlinks sanitized_title_unlinks : stable.

Lemma unlinks_only_after_temp_path (S : jstr → Prop) (w : World) :
  unlinks_only S w (after_temp_path w).
Proof. by apply unlinks_only_same_trace. Qed.

Lemma unlink_quietly_unlinks (S : jstr → Prop) (path : jstr) :
  S path → stable (unlinks_only S) (try_catch (fs_unlink path) (λ _, ret ())).
Proof. intros HS. repeat stable_step. Qed.

(** From the status of the file on, only that file is unlinked. *)
Lemma respond_unlinks (S : jstr → Prop) (P : Platform) (mode ext filename finalFile : jstr) :
  S finalFile →
  stable (unlinks_only S)
    (let! stat := fs_stat finalFile in
     respond P mode ext filename finalFile stat).
Proof.
  intros HS. unfold respond.
  apply stable_bind; [typeclasses eauto|auto with stable|]. intros stat.
  repeat (apply stable_bind; [typeclasses eauto|auto with stable|]; intros _).
  apply pipe_and_clean_stable; auto with stable; typeclasses eauto.
Qed.

Lemma download_body_unlinks (P : Platform) (url mode quality container bitrate : jstr)
    (start end_ : option jstr) (w : World) :
  unlinks_only (drawn_by P mode quality container bitrate start end_ w) w
    (download_body P url mode quality container bitrate start end_ w).2.
Proof.
  set (S := drawn_by P mode quality container bitrate start end_ w).
  unfold download_body. rewrite bind_eq.
  pose proof (getVideoInfo_unlinks S P url w) as U1.
  destruct (getVideoInfo P url w) as [[info|e] w1] eqn:Hinfo; cbn [snd] in U1; [|exact U1].
  destruct (js_gt P _ MAX_DURATION); [exact U1|].
  rewrite bind_eq. unfold sanitized_title.
  destruct (js_or (info_title info) (JStr (js "video"))) as [| | | |name| |];
    try exact U1.
  unfold ret at 1.
  pose proof (format_selector_title P mode quality container bitrate
                (sanitizeFilename name) []) as Hsel.
  destruct (format_selector P mode quality container bitrate (sanitizeFilename name))
    as [[format ext] filename0].
  assert (ext = (format_selector P mode quality container bitrate []).1.2) as Hext.
  { rewrite <- Hsel. reflexivity. }
  clear Hsel.
  rewrite bind_eq, temp_path_run, bind_eq.
  destruct (getVideoInfo_names P url (js "ytdl_") ext _ _ _ Hinfo) as [N1 _].
  destruct (getVideoInfo_names P url (js "ytdl_trim_") ext _ _ _ Hinfo) as [_ N2].
  rewrite N1. clear N1.
  set (tempFile := temp_name P (js "ytdl_") ext w) in *.
  assert (S tempFile) as Stemp.
  { left. unfold tempFile. by rewrite Hext. }
  pose proof (downloadVideo_unlinks S P url format ext tempFile mode bitrate container
                (after_temp_path w1)) as U3.
  assert (unlinks_only S w (after_temp_path w1)) as U2.
  { etrans; [exact U1|apply unlinks_only_after_temp_path]. }
  destruct (downloadVideo P url format ext tempFile mode bitrate container _)
    as [[[]|e] w3] eqn:Hdl; cbn [snd] in U3; [|by etrans].
  assert (unlinks_only S w w3) as U by (by etrans).
  pose proof (downloadVideo_names _ _ _ _ _ _ _ _ (js "ytdl_trim_") ext _ _ Hdl) as N3.
  rewrite N2 in N3. clear N2 U1 U2 U3.
  rewrite bind_eq.
  destruct (param_truthy start || param_truthy end_) eqn:Hcond.
  - rewrite bind_eq, temp_path_run, bind_eq, N3.
    set (trimmedFile := temp_name P (js "ytdl_trim_") ext (after_temp_path w)) in *.
    assert (S trimmedFile) as Strim.
    { right. split; [exact Hcond|]. unfold trimmedFile. by rewrite Hext. }
    pose proof (trimVideo_unlinks S P tempFile trimmedFile start end_ (after_temp_path w3))
      as U4.
    assert (unlinks_only S w (after_temp_path w3)) as U3'.
    { etrans; [exact U|apply unlinks_only_after_temp_path]. }
    destruct (trimVideo P tempFile trimmedFile start end_ _) as [[[]|e] w4];
      cbn [snd] in U4; [|by etrans].
    rewrite bind_eq, unlink_quietly_run.
    pose proof (unlink_quietly_unlinks S tempFile Stemp w4) as U5.
    set (w5 := (try_catch (fs_unlink tempFile) (λ _, ret ()) w4).2) in *.
    unfold ret at 1. rewrite bind_eq. cbn beta iota.
    etrans; [exact U3'|]. etrans; [exact U4|]. etrans; [exact U5|].
    exact (respond_unlinks S P mode ext _ trimmedFile Strim w5).
  - unfold ret at 1. rewrite bind_eq. cbn beta iota.
    etrans; [exact U|].
    exact (respond_unlinks S P mode ext _ tempFile Stemp w3).
Qed.

(** X18: a request unlinks only the files it named itself.  An [/info]
    request unlinks nothing.  Every path unlinked during a [/download]
    request is one of the two names this request drew: the join of the
    temporary directory with [ytdl_], the first clock reading, an
    underscore, the first random suffix, a full stop and the extension
    chosen for the request, or, when trimming is asked for, the like
    name with [ytdl_trim_] and the second reading and suffix. *)
Theorem unlinks_only_temp_files
    (P : Platform) (r : Request) (fs : gmap jstr media) (p : jstr) :
  EvUnlink p ∈ w_trace (finish P r fs) →
  ∃ q,
    r = GetDownload q
    ∧ let ext :=
        (format_selector P (with_default (js "video") (q_mode q))
           (with_default (js "720p") (q_quality q)) (with_default (js "mp4") (q_container q))
           (with_default (js "192") (q_bitrate q)) []).1.2 in
      p = path_join P (os_tmpdir P)
            (js "ytdl_" ++ Date_now_text P 0 ++ js "_" ++ Math_random_text P 0
               ++ js "." ++ ext)
      ∨ (param_truthy (q_start q) || param_truthy (q_end q) = true
         ∧ p = path_join P (os_tmpdir P)
                 (js "ytdl_trim_" ++ Date_now_text P 1 ++ js "_" ++ Math_random_text P 1
                    ++ js "." ++ ext)).
Proof.
  destruct r as [q|q]; unfold finish; cbn [handle].
  - intros Hp. exfalso.
    assert (stable (unlinks_only (λ _, False)) (info_handler P q)) as H.
    { unfold info_handler. repeat stable_step. }
    destruct (H (start_world fs) p Hp) as [Hnil|[]]. by apply elem_of_nil in Hnil.
  - intros Hp. exists q. split; [reflexivity|].
    set (S := drawn_by P (with_default (js "video") (q_mode q))
                (with_default (js "720p") (q_quality q))
                (with_default (js "mp4") (q_container q))
                (with_default (js "192") (q_bitrate q)) (q_start q) (q_end q)
                (start_world fs)).
    assert (unlinks_only S (start_world fs) (download_handler P q (start_world fs)).2) as H.
    { unfold download_handler.
      destruct (_ || _); [by apply unlinks_only_same_trace|].
      destruct (negb _); [by apply unlinks_only_same_trace|].
      rewrite try_catch_eq.
      pose proof (download_body_unlinks P (with_default [] (q_url q))
                    (with_default (js "video") (q_mode q))
                    (with_default (js "720p") (q_quality q))
                    (with_default (js "mp4") (q_container q))
                    (with_default (js "192") (q_bitrate q)) (q_start q) (q_end q)
                    (start_world fs)) as U.
      fold S in U.
      destruct (download_body P _ _ _ _ _ _ _ _) as [[[]|e] w']; cbn [snd] in U; [exact U|].
      etrans; [exact U|].
      assert (stable (unlinks_only S)
                (let! sent := res_headersSent in
                 if negb sent then res_status_json 500 (BError e) else ret ())) as Hc.
      { repeat stable_step. }
      apply Hc. }
    destruct (H p Hp) as [Hnil|HS]; [by apply elem_of_nil in Hnil|].
    exact HS.
Qed.

Lemma unlinks_only_temp_files_witness :
  ∃ q,
    GetDownload window_query = GetDownload q
    ∧ let ext :=
        (format_selector fair_platform (with_default (js "video") (q_mode q))
           (with_default (js "720p") (q_quality q)) (with_default (js "mp4") (q_container q))
           (with_default (js "192") (q_bitrate q)) []).1.2 in
      js "/tmp/ytdl_1700000000000_k3x90.mp4"
      = path_join fair_platform (os_tmpdir fair_platform)
          (js "ytdl_" ++ Date_now_text fair_platform 0 ++ js "_"
             ++ Math_random_text fair_platform 0 ++ js "." ++ ext)
      ∨ (param_truthy (q_start q) || param_truthy (q_end q) = true
         ∧ js "/tmp/ytdl_1700000000000_k3x90.mp4"
           = path_join fair_platform (os_tmpdir fair_platform)
               (js "ytdl_trim_" ++ Date_now_text fair_platform 1 ++ js "_"
                  ++ Math_random_text fair_platform 1 ++ js "." ++ ext)).
Proof.
  apply (unlinks_only_temp_files fair_platform (GetDownload window_query) ∅).
  apply list_elem_of_In. vm_compute. auto 10.
Defined.

(** ** More on the trim step *)

(** X19: [trimVideo] resolves exactly when the tool closed with exit
    code 0 and the output file is there afterwards; a tool that could
    not be started rejects with "ffmpeg error: " and the reason, any
    other exit with "Trim failed: " and the diagnostics, and exit code
    0 without the output file with "Trimmed file not found". *)
Theorem trimVideo_double_confirmation
    (P : Platform) (inputPath outputPath : jstr) (start end_ : option jstr)
    (w : World) (out : proc_outcome) (fs' : gmap jstr media) :
  spawn P (FFMPEG_PATH P) (trim_args inputPath outputPath start end_) (w_fs w) = (out, fs') →
  ((trimVideo P inputPath outputPath start end_ w).1 = Return ()
   ↔ (∃ stdout stderr, out = Closed (Some 0%Z) stdout stderr) ∧ is_Some (fs' !! outputPath))
  ∧ (∀ message, out = SpawnError message →
       (trimVideo P inputPath outputPath start end_ w).1
       = Throw (js "ffmpeg error: " ++ message))
  ∧ (∀ code stdout stderr,
       out = Closed code stdout stderr → code ≠ Some 0%Z →
       (trimVideo P inputPath outputPath start end_ w).1
       = Throw (js "Trim failed: " ++ stderr))
  ∧ (∀ stdout stderr,
       out = Closed (Some 0%Z) stdout stderr → fs' !! outputPath = None →
       (trimVideo P inputPath outputPath start end_ w).1
       = Throw (js "Trimmed file not found")).
Proof.
  intros Hspawn. unfold trimVideo. rewrite bind_eq. unfold run_process.
  rewrite Hspawn. cbn beta iota.
  destruct out as [m|code so se].
  - repeat split; try discriminate.
    + intros [(? & ? & [=]) _].
    + by intros ? [= <-].
  - destruct (exit_failed code) eqn:Hcode.
    + assert (code ≠ Some 0%Z) as Hne by (intros ->; discriminate Hcode).
      repeat split; try discriminate.
      * intros [(? & ? & [= -> _ _]) _]. done.
      * by intros ? ? ? [= <- <- <-] _.
      * intros ? ? [= -> _ _]. done.
    + apply exit_failed_false in Hcode as ->.
      rewrite try_catch_eq. unfold fs_access. cbn [w_fs log set_fs].
      destruct (fs' !! outputPath) as [f|] eqn:Hfile; cbn.
      * repeat split; eauto; try discriminate.
        intros ? ? ? [= <- _ _] Hne. done.
      * repeat split; try discriminate.
        -- intros [_ [? [=]]].
        -- intros ? ? ? [= <- _ _] Hne. done.
Qed.

Lemma trimVideo_double_confirmation_witness :
  (trimVideo fair_platform (js "/tmp/a.mp4") (js "/tmp/b.mp4") (Some (js "abc")) None
     (start_world (<[js "/tmp/a.mp4" := five_minutes]> ∅))).1
  = Throw (js "Trim failed: " ++ js "Invalid duration").
Proof.
  refine (proj1 (proj2 (proj2
            (trimVideo_double_confirmation fair_platform (js "/tmp/a.mp4") (js "/tmp/b.mp4")
               (Some (js "abc")) None (start_world (<[js "/tmp/a.mp4" := five_minutes]> ∅))
               (Closed (Some 1%Z) [] (js "Invalid duration"))
               (<[js "/tmp/a.mp4" := five_minutes]> ∅) _)))
            (Some 1%Z) [] (js "Invalid duration") eq_refl _).
  - vm_compute. reflexivity.
  - discriminate.
Defined.

(** ** More on the stream *)

Lemma download_body_untrimmed_run (P : Platform)
    (url mode quality container bitrate : jstr) (start end_ : option jstr)
    (w : World) (info : VideoInfo) (w1 : World) (name format ext filename0 : jstr)
    (w3 : World) (stat : media) :
  getVideoInfo P url w = (Return info, w1) →
  js_gt P (js_or (info_duration info) (JNum (Finite 0))) MAX_DURATION = false →
  js_or (info_title info) (JStr (js "video")) = JStr name →
  format_selector P mode quality container bitrate (sanitizeFilename name)
  = (format, ext, filename0) →
  downloadVideo P url format ext (temp_name P (js "ytdl_") ext w1) mode bitrate container
                (after_temp_path w1) = (Return (), w3) →
  param_truthy start || param_truthy end_ = false →
  w_fs w3 !! temp_name P (js "ytdl_") ext w1 = Some stat →
  download_body P url mode quality container bitrate start end_ w
  = respond P mode ext filename0 (temp_name P (js "ytdl_") ext w1) stat w3.
Proof.
  intros Hinfo Hgt Hname Hfmt Hdl Hcond Hstat. unfold download_body.
  rewrite bind_eq, Hinfo, Hgt, bind_eq. unfold sanitized_title. rewrite Hname.
  unfold ret at 1. rewrite Hfmt.
  rewrite bind_eq, temp_path_run, bind_eq, Hdl, bind_eq, Hcond.
  unfold ret at 1. rewrite bind_eq. unfold fs_stat at 1. rewrite Hstat. reflexivity.
Qed.






(** X23: when the download is there, no trimming is asked for, the
    headers are accepted and the response is closed before the stream
    ends, neither listener of the stream runs: nothing is unlinked and
    the downloaded file stays in the temporary directory. *)
Theorem closed_response_leaves_file
    (P : Platform) (q : DownloadQuery) (fs : gmap jstr media)
    (info : VideoInfo) (w1 : World) (name format ext filename0 : jstr)
    (w3 : World) (stat : media) :
  ¬ rejected P (GetDownload q) →
  getVideoInfo P (with_default [] (q_url q)) (start_world fs) = (Return info, w1) →
  js_gt P (js_or (info_duration info) (JNum (Finite 0))) MAX_DURATION = false →
  js_or (info_title info) (JStr (js "video")) = JStr name →
  format_selector P (with_default (js "video") (q_mode q))
    (with_default (js "720p") (q_quality q)) (with_default (js "mp4") (q_container q))
    (with_default (js "192") (q_bitrate q)) (sanitizeFilename name)
  = (format, ext, filename0) →
  downloadVideo P (with_default [] (q_url q)) format ext (temp_name P (js "ytdl_") ext w1)
    (with_default (js "video") (q_mode q)) (with_default (js "192") (q_bitrate q))
    (with_default (js "mp4") (q_container q)) (after_temp_path w1) = (Return (), w3) →
  param_truthy (q_start q) || param_truthy (q_end q) = false →
  w_fs w3 !! temp_name P (js "ytdl_") ext w1 = Some stat →
  respond_ok (with_default (js "video") (q_mode q)) ext filename0 = true →
  read_stream P (temp_name P (js "ytdl_") ext w1) (w_fs w3) = StreamUnpiped →
  body (w_res (finish P (GetDownload q) fs))
  = BStream (temp_name P (js "ytdl_") ext w1) (Some stat) false
  ∧ w_trace (finish P (GetDownload q) fs) = w_trace w3
  ∧ w_fs (finish P (GetDownload q) fs) = w_fs w3
  ∧ left_behind (temp_name P (js "ytdl_") ext w1) (finish P (GetDownload q) fs).
Proof.
  intros Hok Hinfo Hgt Hname Hfmt Hdl Hcond Hstat Hhdrs Hstream.
  pose proof (download_body_untrimmed_run P _ _ _ _ _ _ _ _ _ _ _ _ _ _ _ _
                Hinfo Hgt Hname Hfmt Hdl Hcond Hstat) as Hbody.
  rewrite (finish_download P q fs Hok), try_catch_eq, Hbody.
  rewrite respond_accepted by exact Hhdrs.
  unfold pipe_and_clean, left_behind. cbn [w_fs set_res]. rewrite Hstream.
  cbn. rewrite Hstat. eauto 10.
Qed.

Lemma closed_response_leaves_file_witness :
  body (w_res (finish closing_platform (GetDownload plain_query) ∅))
  = BStream (js "/tmp/ytdl_1700000000000_k3x90.mp4") (Some five_minutes) false
  ∧ left_behind (js "/tmp/ytdl_1700000000000_k3x90.mp4")
      (finish closing_platform (GetDownload plain_query) ∅).
Proof.
  assert (¬ rejected closing_platform (GetDownload plain_query)) as Hok.
  { intros [H|H]; [apply url_check_spec in H|apply mode_check_spec in H];
      vm_compute in H; discriminate. }
  pose proof (closed_response_leaves_file closing_platform plain_query ∅
                {| info_id := JStr (js "abc"); info_title := JStr (js "A clip");
                   info_duration := JNum (Finite (inject_Z 300)); info_thumbnail := JUndefined;
                   info_uploader := JUndefined; info_upload_date := JUndefined |}
                (getVideoInfo closing_platform watch_url (start_world ∅)).2
                (js "A clip")
                (js "bestvideo[height<=720]+bestaudio/best[height<=720]") (js "mp4")
                (js "A clip_720p.mp4")
                (downloadVideo closing_platform watch_url
                   (js "bestvideo[height<=720]+bestaudio/best[height<=720]")
                   (js "mp4") (js "/tmp/ytdl_1700000000000_k3x90.mp4") (js "video")
                   (js "192") (js "mp4")
                   (after_temp_path
                      (getVideoInfo closing_platform watch_url (start_world ∅)).2)).2
                five_minutes
                Hok ltac:(vm_compute; reflexivity) ltac:(vm_compute; reflexivity)
                ltac:(reflexivity) ltac:(vm_compute; reflexivity)
                ltac:(vm_compute; reflexivity) ltac:(reflexivity)
                ltac:(vm_compute; reflexivity) ltac:(vm_compute; reflexivity)
                ltac:(reflexivity)) as (H1 & _ & _ & H4).
  exact (conj H1 H4).
Defined.

(** ** More on the format selector *)

Lemma String_replace_suffix (stem pat : jstr) (c : N) :
  c ∉ stem → String_replace (stem ++ c :: pat) (c :: pat) [] = stem.
Proof.
  intros Hc. unfold String_replace.
  rewrite (index_of_skip c pat stem (c :: pat) Hc).
  rewrite (index_of_here (c :: pat) (c :: pat))
    by (apply starts_with_spec; exists []; by rewrite app_nil_r).
  cbn [fmap option_fmap option_map].
  rewrite Nat.add_0_r, take_app_length.
  rewrite <- (length_app stem (c :: pat)), drop_all. cbn. by rewrite app_nil_r.
Qed.

Lemma String_replace_absent (s pat repl : jstr) (c : N) :
  c ∉ s → String_replace s (c :: pat) repl = s.
Proof.
  intros Hc. unfold String_replace.
  assert (index_of (c :: pat) s = None) as ->; [|reflexivity].
  destruct (index_of (c :: pat) s) as [i|] eqn:E; [|reflexivity].
  apply index_of_Some in E. exfalso. apply Hc. rewrite E.
  rewrite !elem_of_app. right. left. by left.
Qed.

(** X21: for video, the height limit of the format selector is read
    from [quality] with its first [p] taken out: a quality [Np] without
    another [p] limits the height to [parseInt(N)], a quality without
    any [p] is read as it is, and the same limit is used for both
    alternatives of the selector. *)
Theorem video_height_limit
    (P : Platform) (mode stem container bitrate title : jstr) :
  mode ≠ js "audio" →
  112 ∉ stem →
  (format_selector P mode (stem ++ js "p") container bitrate title).1.1
  = js "bestvideo[height<=" ++ parseInt_text P stem ++ js "]+bestaudio/best[height<="
      ++ parseInt_text P stem ++ js "]"
  ∧ (format_selector P mode stem container bitrate title).1.1
    = js "bestvideo[height<=" ++ parseInt_text P stem ++ js "]+bestaudio/best[height<="
        ++ parseInt_text P stem ++ js "]".
Proof.
  intros Hmode Hstem. unfold format_selector.
  rewrite !bool_decide_eq_false_2 by exact Hmode. cbn [fst].
  change (js "p") with [112].
  by rewrite (String_replace_suffix stem [] 112 Hstem), (String_replace_absent stem [] [] 112 Hstem).
Qed.

Lemma video_height_limit_witness :
  (format_selector fair_platform (js "video") (js "1080" ++ js "p") (js "mp4") (js "192")
     (js "A clip")).1.1
  = js "bestvideo[height<=" ++ parseInt_text fair_platform (js "1080")
      ++ js "]+bestaudio/best[height<=" ++ parseInt_text fair_platform (js "1080") ++ js "]"
  ∧ (format_selector fair_platform (js "video") (js "1080") (js "mp4") (js "192")
       (js "A clip")).1.1
    = js "bestvideo[height<=" ++ parseInt_text fair_platform (js "1080")
        ++ js "]+bestaudio/best[height<=" ++ parseInt_text fair_platform (js "1080") ++ js "]".
Proof.
  apply (video_height_limit fair_platform (js "video") (js "1080") (js "mp4") (js "192")
           (js "A clip")).
  - discriminate.
  - intros H. vm_compute in H.
    repeat (apply elem_of_cons in H as [H|H]; [discriminate|]). by apply elem_of_nil in H.
Defined.

(** Settles [c ∉ l] for a unit and a text that are both given. *)
Ltac unit_not_in :=
  let H := fresh in
  intros H; vm_compute in H;
  repeat (apply elem_of_cons in H as [H|H]; [discriminate|]);
  by apply elem_of_nil in H.

Lemma sanitizeFilename_fixpoint_witness :
  sanitizeFilename (js "Hello_ World-2") = js "Hello_ World-2".
Proof.
  apply (sanitizeFilename_fixpoint (js "Hello_ World-2")).
  - apply Forall_forall. intros c Hc. vm_compute in Hc.
    repeat (apply elem_of_cons in Hc as [->|Hc]; [reflexivity|]).
    by apply elem_of_nil in Hc.
  - reflexivity.
  - intros c [= <-]. reflexivity.
  - intros c [= <-]. reflexivity.
  - vm_compute. lia.
Defined.

Lemma sanitizeFilename_unit_by_unit_witness :
  sanitizeFilename [97; 9; 55357; 56832; 98] = [97; 95; 95; 95; 98].
Proof.
  exact (sanitizeFilename_unit_by_unit [97; 9; 55357; 56832; 98] ltac:(unit_not_in)).
Defined.

Lemma trimmed_filename_exact_witness :
  ∃ stem,
    (format_selector fair_platform (js "video") (js "720p") (js "mp4") (js "192")
       (sanitizeFilename (js "A clip"))).2
    = stem ++ js "."
        ++ (format_selector fair_platform (js "video") (js "720p") (js "mp4") (js "192")
              (sanitizeFilename (js "A clip"))).1.2
    ∧ String_replace
        (format_selector fair_platform (js "video") (js "720p") (js "mp4") (js "192")
           (sanitizeFilename (js "A clip"))).2
        (js "." ++ (format_selector fair_platform (js "video") (js "720p") (js "mp4")
                      (js "192") (sanitizeFilename (js "A clip"))).1.2)
        (js "_trimmed." ++ (format_selector fair_platform (js "video") (js "720p") (js "mp4")
                              (js "192") (sanitizeFilename (js "A clip"))).1.2)
      = stem ++ js "_trimmed."
          ++ (format_selector fair_platform (js "video") (js "720p") (js "mp4") (js "192")
                (sanitizeFilename (js "A clip"))).1.2.
Proof.
  apply (trimmed_filename_exact fair_platform (js "video") (js "720p") (js "mp4") (js "192")
           (js "A clip")); unit_not_in.
Defined.
